(** * Gulfcoast: client-side masks and API handlers

    A shallow embedding of
    - the date and phone helpers of the patient edit page
      ([formatPhoneNumber], [formatDate], [parseDate], [handleChange]),
    - the attorney API handlers ([POST], [PUT], [DELETE] of
      [app/api/attorneys/route.ts]),
    - the task creation handler ([POST] of the tasks route),
    - the procedure rows and the submission of the patient edit page
      ([addProcedure], [removeProcedure], [updateProcedure],
      [handleSubmit]), and the reading handlers ([GET] of both routes),
    together with the properties the specification states about them and
    further properties of the same code. *)

From Stdlib Require Import ZArith String Ascii List Bool Lia.
From stdpp Require Import gmap strings list fin_maps sorting.

Local Open Scope string_scope.
Local Open Scope Z_scope.

(** ** JavaScript strings

    A JavaScript string is modelled as a [string] that holds the bytes of
    its UTF-8 encoding: an ASCII character is one byte, a character outside
    ASCII is a sequence of two to four bytes above 127. The modelled code
    looks at a text by its ASCII characters (digits, separators, letters),
    by its white space and by the upper case of its letters. *)

Module Js.

Definition is_digit (c : ascii) : bool :=
  let n := nat_of_ascii c in (Nat.leb 48 n && Nat.leb n 57)%bool.

Definition digit_val (c : ascii) : Z := Z.of_nat (nat_of_ascii c) - 48.

Definition digit_char (d : Z) : ascii := ascii_of_nat (48 + Z.to_nat d).

(** [s.replace(/\D/g, '')] *)
Fixpoint strip_non_digits (s : string) : string :=
  match s with
  | EmptyString => EmptyString
  | String c r => if is_digit c then String c (strip_non_digits r)
                  else strip_non_digits r
  end.

Fixpoint all_digits (s : string) : bool :=
  match s with
  | EmptyString => true
  | String c r => is_digit c && all_digits r
  end.

Fixpoint take (n : nat) (s : string) : string :=
  match n, s with
  | S k, String c r => String c (take k r)
  | _, _ => EmptyString
  end.

Fixpoint drop (n : nat) (s : string) : string :=
  match n, s with
  | S k, String _ r => drop k r
  | _, _ => s
  end.

(** [s.slice(a, b)] for [0 <= a <= b]; both ends are clamped to the length. *)
Definition slice (a b : nat) (s : string) : string := take (b - a) (drop a s).

(** [s.slice(a)] *)
Definition slice_from (a : nat) (s : string) : string := drop a s.

(** [!s] on a string: only the empty string is falsy. *)
Definition str_falsy (s : string) : bool :=
  match s with EmptyString => true | _ => false end.

(** [s.split(sep)] for a one-character separator: the text up to the
    first separator, and the pieces after it. *)
Fixpoint split_go (sep : ascii) (s : string) : string * list string :=
  match s with
  | EmptyString => (EmptyString, [])
  | String c r =>
      let '(piece, pieces) := split_go sep r in
      if Ascii.eqb c sep then (EmptyString, piece :: pieces)
      else (String c piece, pieces)
  end.

Definition split (sep : ascii) (s : string) : list string :=
  let '(piece, pieces) := split_go sep s in piece :: pieces.

(** [s.padStart(2, '0')] *)
Definition padStart2 (s : string) : string :=
  match String.length s with
  | O => "00"
  | S O => String "0" s
  | _ => s
  end.

(** Decimal digits of a non-negative integer, most significant first. *)
Fixpoint dec_digits (fuel : nat) (n : Z) (acc : string) : string :=
  match fuel with
  | O => acc
  | S f =>
      let acc' := String (digit_char (n mod 10)) acc in
      if n <? 10 then acc' else dec_digits f (n / 10) acc'
  end.

(** [Number.prototype.toString] on an integer, [None] standing for [NaN]. *)
Definition Number_toString (n : option Z) : string :=
  match n with
  | None => "NaN"
  | Some z =>
      if z <? 0 then String "-" (dec_digits (S (Z.to_nat (Z.log2 (- z)))) (- z) "")
      else dec_digits (S (Z.to_nat (Z.log2 z))) z ""
  end.

(** Exactly [w] decimal digits of [n], zero padded (the low [w] digits). *)
Fixpoint fixed_digits (w : nat) (n : Z) : string :=
  match w with
  | O => EmptyString
  | S k => fixed_digits k (n / 10) +:+ String (digit_char (n mod 10)) EmptyString
  end.

(** The white space and line terminators that [parseInt] and [trim] skip
    ([WhiteSpace] and [LineTerminator] of the language definition), by the
    length of their encoding. One byte: the space and U+0009 to U+000D. *)
Definition is_space (c : ascii) : bool :=
  let n := nat_of_ascii c in
  (Nat.eqb n 32 || (Nat.leb 9 n && Nat.leb n 13))%bool.

(** Two bytes: the no-break space U+00A0. *)
Definition is_space2 (c d : ascii) : bool :=
  (Nat.eqb (nat_of_ascii c) 194 && Nat.eqb (nat_of_ascii d) 160)%bool.

(** Three bytes: U+1680, U+2000 to U+200A, U+2028, U+2029, U+202F, U+205F,
    U+3000 and U+FEFF. *)
Definition is_space3 (c d e : ascii) : bool :=
  let c := nat_of_ascii c in
  let d := nat_of_ascii d in
  let e := nat_of_ascii e in
  (Nat.eqb c 225 && Nat.eqb d 154 && Nat.eqb e 128 ||
   Nat.eqb c 226 && Nat.eqb d 128 &&
     (Nat.leb 128 e && Nat.leb e 138 || Nat.eqb e 168 || Nat.eqb e 169 ||
      Nat.eqb e 175) ||
   Nat.eqb c 226 && Nat.eqb d 129 && Nat.eqb e 159 ||
   Nat.eqb c 227 && Nat.eqb d 128 && Nat.eqb e 128 ||
   Nat.eqb c 239 && Nat.eqb d 187 && Nat.eqb e 191)%bool.

(** [s.trimStart()], and the white space that [parseInt] skips. *)
Fixpoint trim_start (s : string) : string :=
  match s with
  | String c r =>
      if is_space c then trim_start r
      else
        match r with
        | String d r2 =>
            if is_space2 c d then trim_start r2
            else
              match r2 with
              | String e r3 => if is_space3 c d e then trim_start r3 else s
              | EmptyString => s
              end
        | EmptyString => s
        end
  | EmptyString => s
  end.

(** [s.trimEnd()]: the text up to its last character that is not white
    space. *)
Fixpoint trim_end (s : string) : string :=
  match s with
  | EmptyString => EmptyString
  | String c r =>
      if str_falsy (trim_start s) then EmptyString else String c (trim_end r)
  end.

(** [s.trim()] *)
Definition trim (s : string) : string := trim_end (trim_start s).

(** Value of [c] as a digit of radix 16, if any. *)
Definition hex_val (c : ascii) : option Z :=
  let n := nat_of_ascii c in
  if is_digit c then Some (digit_val c)
  else if (Nat.leb 97 n && Nat.leb n 102)%bool then Some (Z.of_nat n - 87)
  else if (Nat.leb 65 n && Nat.leb n 70)%bool then Some (Z.of_nat n - 55)
  else None.

Definition radix_val (radix : Z) (c : ascii) : option Z :=
  if radix =? 16 then hex_val c
  else if is_digit c then Some (digit_val c) else None.

(** The longest prefix of radix digits, as a number; [None] when it is empty. *)
Fixpoint parse_prefix (radix : Z) (acc : option Z) (s : string) : option Z :=
  match s with
  | EmptyString => acc
  | String c r =>
      match radix_val radix c with
      | Some d =>
          parse_prefix radix
            (Some (match acc with Some a => a * radix + d | None => d end)) r
      | None => acc
      end
  end.

Definition starts_with (c : ascii) (s : string) : bool :=
  match s with
  | String c' _ => Ascii.eqb c' c
  | EmptyString => false
  end.

(** The text starts with "0x" or "0X". *)
Definition has_hex_prefix (s : string) : bool :=
  starts_with "0" s && (starts_with "x" (drop 1 s) || starts_with "X" (drop 1 s)).

(** [parseInt(s)] with no radix argument. The result is the mathematical
    value of the digits ([None] for [NaN]); every bound the modelled code
    tests it against is an exactly representable integer. *)
Definition parseInt (s : string) : option Z :=
  let s1 := trim_start s in
  let sign := if starts_with "-" s1 then -1 else 1 in
  let s2 := if starts_with "-" s1 || starts_with "+" s1 then drop 1 s1 else s1 in
  let radix := if has_hex_prefix s2 then 16 else 10 in
  let s3 := if has_hex_prefix s2 then drop 2 s2 else s2 in
  match parse_prefix radix None s3 with
  | Some v => Some (sign * v)
  | None => None
  end.

(** Destructuring [const [a, b, c] = list]: a missing element is
    [undefined], which [parseInt] reads as the text "undefined". *)
Definition nth_or_undefined (i : nat) (l : list string) : string :=
  nth i l "undefined".

End Js.

(** ** The built-in [Date]

    A time value is a number of milliseconds since the epoch, [None]
    standing for [NaN] (an invalid [Date]). The day and year arithmetic is
    that of the language definition, and so is the local time zone: it is
    given by its offsets [LocalTZA] (in milliseconds, east of Greenwich
    positive), which change with the instant. *)

Module JsDate.
Import Js.

Definition msPerDay : Z := 86400000.
Definition msPerHour : Z := 3600000.
Definition msPerMinute : Z := 60000.
Definition msPerSecond : Z := 1000.

Definition Day (t : Z) : Z := t / msPerDay.

Definition isLeap (y : Z) : bool :=
  ((y mod 4 =? 0) && negb (y mod 100 =? 0)) || (y mod 400 =? 0).

Definition DaysInYear (y : Z) : Z := if isLeap y then 366 else 365.

Definition DayFromYear (y : Z) : Z :=
  365 * (y - 1970) + (y - 1969) / 4 - (y - 1901) / 100 + (y - 1601) / 400.

(** The year of a day number: the largest [y] with [DayFromYear y <= dn],
    searched from an estimate. *)
Fixpoint year_search (fuel : nat) (y dn : Z) : Z :=
  match fuel with
  | O => y
  | S f =>
      if dn <? DayFromYear y then year_search f (y - 1) dn
      else if DayFromYear (y + 1) <=? dn then year_search f (y + 1) dn
      else y
  end.

Definition YearFromDay (dn : Z) : Z :=
  year_search (Z.to_nat (Z.abs dn / 100000 + 5)) (1970 + dn / 365) dn.

Definition YearFromTime (t : Z) : Z := YearFromDay (Day t).

Definition DayWithinYear (t : Z) : Z := Day t - DayFromYear (YearFromTime t).

Definition InLeapYear (t : Z) : Z := if isLeap (YearFromTime t) then 1 else 0.

(** Number of days of the year before month [mn] (0 based). *)
Definition month_start (mn : Z) (leap : Z) : Z :=
  match mn with
  | 0 => 0
  | 1 => 31
  | 2 => 59 + leap
  | 3 => 90 + leap
  | 4 => 120 + leap
  | 5 => 151 + leap
  | 6 => 181 + leap
  | 7 => 212 + leap
  | 8 => 243 + leap
  | 9 => 273 + leap
  | 10 => 304 + leap
  | _ => 334 + leap
  end.

Definition MonthFromTime (t : Z) : Z :=
  let d := DayWithinYear t in
  let l := InLeapYear t in
  if d <? 31 then 0
  else if d <? 59 + l then 1
  else if d <? 90 + l then 2
  else if d <? 120 + l then 3
  else if d <? 151 + l then 4
  else if d <? 181 + l then 5
  else if d <? 212 + l then 6
  else if d <? 243 + l then 7
  else if d <? 273 + l then 8
  else if d <? 304 + l then 9
  else if d <? 334 + l then 10
  else 11.

Definition DateFromTime (t : Z) : Z :=
  DayWithinYear t - month_start (MonthFromTime t) (InLeapYear t) + 1.

Definition HourFromTime (t : Z) : Z := (t / msPerHour) mod 24.
Definition MinFromTime (t : Z) : Z := (t / msPerMinute) mod 60.
Definition SecFromTime (t : Z) : Z := (t / msPerSecond) mod 60.
Definition msFromTime (t : Z) : Z := t mod msPerSecond.

Definition MakeTime (h m s ms : Z) : Z :=
  h * msPerHour + m * msPerMinute + s * msPerSecond + ms.

Definition MakeDay (year month date : Z) : Z :=
  let ym := year + month / 12 in
  let mn := month mod 12 in
  DayFromYear ym + month_start mn (if isLeap ym then 1 else 0) + date - 1.

Definition MakeDate (day time : Z) : Z := day * msPerDay + time.

Definition TimeClip (t : Z) : option Z :=
  if Z.abs t >? 8640000000000000 then None else Some t.

(** The offsets of a time zone, [LocalTZA(t, isUTC)] of the language
    definition: [zone t true] is the offset in force at the instant [t],
    and [zone t false] is the offset by which the local time value [t] is
    read. A local time that the zone skipped or repeated at a transition is
    read by the offset before the transition. *)
Definition Zone : Type := Z → bool → Z.

(** Reads exactly [w] decimal digits. *)
Fixpoint read_digits (w : nat) (acc : Z) (s : string) : option (Z * string) :=
  match w with
  | O => Some (acc, s)
  | S k =>
      match s with
      | String c r =>
          if is_digit c then read_digits k (acc * 10 + digit_val c) r else None
      | EmptyString => None
      end
  end.

Definition expect (c : ascii) (s : string) : option string :=
  match s with
  | String c' r => if Ascii.eqb c' c then Some r else None
  | EmptyString => None
  end.

Definition in_range (lo hi v : Z) : option unit :=
  if (lo <=? v) && (v <=? hi) then Some tt else None.

(** The year of a date-time text: four digits, or a sign and six digits
    other than [-000000]. *)
Definition read_year (s : string) : option (Z * string) :=
  match s with
  | String c r =>
      if Ascii.eqb c "+" then read_digits 6 0 r
      else if Ascii.eqb c "-" then
        '(y, r') ← read_digits 6 0 r;
        if y =? 0 then None else Some (- y, r')
      else read_digits 4 0 s
  | EmptyString => None
  end.

(** The month and the day after the year, each of which may be left out. *)
Definition read_month_day (s : string) : option (Z * Z * string) :=
  match expect "-" s with
  | None => Some (1, 1, s)
  | Some s1 =>
      '(M, s2) ← read_digits 2 0 s1;
      match expect "-" s2 with
      | None => Some (M, 1, s2)
      | Some s3 => '(D, s4) ← read_digits 2 0 s3; Some (M, D, s4)
      end
  end.

(** The time of day after the date, if there is one: [THH:mm],
    [THH:mm:ss] or [THH:mm:ss.sss]. *)
Definition read_time (s : string) : option (option (Z * Z * Z * Z) * string) :=
  match expect "T" s with
  | None => Some (None, s)
  | Some s1 =>
      '(h, s2) ← read_digits 2 0 s1;
      s3 ← expect ":" s2;
      '(mi, s4) ← read_digits 2 0 s3;
      match expect ":" s4 with
      | None => Some (Some (h, mi, 0, 0), s4)
      | Some s5 =>
          '(sec, s6) ← read_digits 2 0 s5;
          match expect "." s6 with
          | None => Some (Some (h, mi, sec, 0), s6)
          | Some s7 =>
              '(ms, s8) ← read_digits 3 0 s7; Some (Some (h, mi, sec, ms), s8)
          end
      end
  end.

(** The end of a date-time text: nothing, [Z], or an offset [+HH:mm] or
    [-HH:mm], given in milliseconds. *)
Definition read_offset (s : string) : option (option Z) :=
  match s with
  | EmptyString => Some None
  | String c r =>
      if Ascii.eqb c "Z" then if str_falsy r then Some (Some 0) else None
      else if Ascii.eqb c "+" || Ascii.eqb c "-" then
        '(oh, r1) ← read_digits 2 0 r;
        r2 ← expect ":" r1;
        '(om, r3) ← read_digits 2 0 r2;
        _ ← in_range 0 23 oh;
        _ ← in_range 0 59 om;
        if str_falsy r3 then
          Some (Some ((if Ascii.eqb c "-" then -1 else 1) *
                      (oh * msPerHour + om * msPerMinute)))
        else None
      else None
  end.

Section LocalZone.

Variable zone : Zone.

Definition LocalTime (t : Z) : Z := t + zone t true.
Definition UTC (t : Z) : Z := t - zone t false.

(** [new Date(year, month, date)] *)
Definition Date_of_components (year month date : Z) : option Z :=
  let yr := if (0 <=? year) && (year <=? 99) then 1900 + year else year in
  TimeClip (UTC (MakeDate (MakeDay yr month date) (MakeTime 0 0 0 0))).

Definition getFullYear (d : option Z) : option Z :=
  YearFromTime <$> (LocalTime <$> d).
Definition getMonth (d : option Z) : option Z :=
  MonthFromTime <$> (LocalTime <$> d).
Definition getDate (d : option Z) : option Z :=
  DateFromTime <$> (LocalTime <$> d).

(** [Date.parse] (and [new Date(string)]) on the date-time format of the
    language definition: [YYYY], [YYYY-MM] or [YYYY-MM-DD], which is read
    as UTC when it stands alone, or followed by a time of day, which is
    read as local time unless [Z] or an offset follows. A day up to 31 is
    taken in every month and rolls over. What an engine makes of a text
    outside this format is implementation defined; it is [NaN] here. *)
Definition Date_parse (s : string) : option Z :=
  '(Y, s) ← read_year s;
  '(M, D, s) ← read_month_day s;
  '(time, s) ← read_time s;
  _ ← in_range 1 12 M;
  _ ← in_range 1 31 D;
  match time with
  | None =>
      if str_falsy s
      then TimeClip (MakeDate (MakeDay Y (M - 1) D) (MakeTime 0 0 0 0))
      else None
  | Some (h, mi, sec, ms) =>
      _ ← in_range 0 24 h;
      _ ← in_range 0 59 mi;
      _ ← in_range 0 59 sec;
      if (h =? 24) && negb ((mi =? 0) && (sec =? 0) && (ms =? 0)) then None
      else
        offset ← read_offset s;
        let tv := MakeDate (MakeDay Y (M - 1) D) (MakeTime h mi sec ms) in
        TimeClip (match offset with Some o => tv - o | None => UTC tv end)
  end.

End LocalZone.

(** A zone whose offset is [tza] at all times. *)
Definition fixed_zone (tza : Z) : Zone := λ _ _, tza.

(** The offsets of the zone are a day at most. *)
Definition within_a_day (zone : Zone) : Prop :=
  ∀ t isUTC, Z.abs (zone t isUTC) <= msPerDay.

Definition iso_year (y : Z) : string :=
  if (0 <=? y) && (y <=? 9999) then fixed_digits 4 y
  else if y <? 0 then String "-" (fixed_digits 6 (- y))
  else String "+" (fixed_digits 6 y).

(** [date.toISOString()] on a valid time value: the UTC fields as
    [YYYY-MM-DDTHH:mm:ss.sssZ]. *)
Definition toISOString (t : Z) : string :=
  iso_year (YearFromTime t) +:+ "-" +:+
  fixed_digits 2 (MonthFromTime t + 1) +:+ "-" +:+
  fixed_digits 2 (DateFromTime t) +:+ "T" +:+
  fixed_digits 2 (HourFromTime t) +:+ ":" +:+
  fixed_digits 2 (MinFromTime t) +:+ ":" +:+
  fixed_digits 2 (SecFromTime t) +:+ "." +:+
  fixed_digits 3 (msFromTime t) +:+ "Z".

End JsDate.

(** ** The input helpers of the patient edit page *)

Module EditPatientPage.
Import Js JsDate.

(** [formatPhoneNumber] *)
Definition formatPhoneNumber (value : string) : string :=
  let numbers := strip_non_digits value in
  if Nat.leb (String.length numbers) 3 then numbers
  else if Nat.leb (String.length numbers) 6 then
    "(" +:+ slice 0 3 numbers +:+ ") " +:+ slice_from 3 numbers
  else
    "(" +:+ slice 0 3 numbers +:+ ") " +:+ slice 3 6 numbers +:+ "-" +:+
    slice 6 10 numbers.

(** [parseInt(x) > bound]; a comparison with [NaN] is false. *)
Definition num_gt (x : option Z) (bound : Z) : bool :=
  match x with Some v => v >? bound | None => false end.

(** The date branch of [handleChange]: the text put into a date field
    after a keystroke left [value] in the input. *)
Definition mask_date (value : string) : string :=
  let numbers := slice 0 8 (strip_non_digits value) in
  if Nat.leb (String.length numbers) 2 then numbers
  else if Nat.leb (String.length numbers) 4 then
    let month := slice 0 2 numbers in
    if num_gt (parseInt month) 12 then "12/" +:+ slice_from 2 numbers
    else month +:+ "/" +:+ slice_from 2 numbers
  else
    let month := slice 0 2 numbers in
    let day := slice 2 4 numbers in
    let year := slice 4 8 numbers in
    let formattedValue := if num_gt (parseInt month) 12 then "12" else month in
    let formattedValue :=
      if num_gt (parseInt day) 31 then formattedValue +:+ "/31"
      else formattedValue +:+ "/" +:+ day in
    if str_falsy year then formattedValue
    else formattedValue +:+ "/" +:+ year.

Definition is_phone_field (name : string) : bool :=
  String.eqb name "phone" || String.eqb name "altNumber".

Definition is_date_field (name : string) : bool :=
  String.eqb name "dateOfBirth" || String.eqb name "doidol" ||
  String.eqb name "orderDate".

(** The local [formattedValue] of [handleChange] when it reaches
    [setFormData]. *)
Definition formattedValue (name value : string) : string :=
  let v := if is_phone_field name then formatPhoneNumber value else value in
  if is_date_field name then mask_date value else v.

(** [handleChange]: the form state after the change event; the text
    fields of the form are a map from field name to text. *)
Definition handleChange (name value : string) (prev : gmap string string)
  : gmap string string :=
  <[name := formattedValue name value]> prev.

Section LocalZone.

Variable zone : Zone.

(** [formatDate]: an ISO date-time string (or [null]) to [MM/DD/YYYY]. *)
Definition formatDate (dateString : option string) : string :=
  match dateString with
  | None => ""
  | Some ds =>
      if str_falsy ds then ""
      else
        let date := Date_parse zone ds in
        let month :=
          padStart2 (Number_toString ((λ m, m + 1) <$> getMonth zone date)) in
        let day := padStart2 (Number_toString (getDate zone date)) in
        let year := Number_toString (getFullYear zone date) in
        month +:+ "/" +:+ day +:+ "/" +:+ year
  end.

(** [parseDate]: an [MM/DD/YYYY] text to an ISO date-time string, [None]
    standing for [null]. *)
Definition parseDate (dateString : string) : option string :=
  if str_falsy dateString then None
  else
    let parts := split "/" dateString in
    let month := nth_or_undefined 0 parts in
    let day := nth_or_undefined 1 parts in
    let year := nth_or_undefined 2 parts in
    match parseInt month, parseInt day, parseInt year with
    | Some monthNum, Some dayNum, Some yearNum =>
        if (monthNum <? 1) || (monthNum >? 12) then None
        else if (dayNum <? 1) || (dayNum >? 31) then None
        else if (yearNum <? 1900) || (yearNum >? 2100) then None
        else
          let date := Date_of_components zone yearNum (monthNum - 1) dayNum in
          match date with
          | None => None
          | Some t => Some (toISOString t)
          end
    | _, _, _ => None
    end.

End LocalZone.

(** *** Calendar vocabulary of the specification *)

(** Number of days of month [m] (1 to 12) in year [y]. *)
Definition days_in_month (y m : Z) : Z :=
  match m with
  | 2 => if isLeap y then 29 else 28
  | 4 | 6 | 9 | 11 => 30
  | _ => 31
  end.

(** The display form [MM/DD/YYYY] of a calendar date. *)
Definition mmddyyyy (m d y : Z) : string :=
  fixed_digits 2 m +:+ "/" +:+ fixed_digits 2 d +:+ "/" +:+ fixed_digits 4 y.

(** The display form [(XXX) XXX-XXXX] of the three digit groups. *)
Definition phone_display (area exchange line : string) : string :=
  "(" +:+ area +:+ ") " +:+ exchange +:+ "-" +:+ line.

(** The month and the day that a date text shows: the numbers read from
    its first and second piece. *)
Definition month_component (text : string) : option Z :=
  parseInt (nth_or_undefined 0 (split "/" text)).

Definition day_component (text : string) : option Z :=
  match split "/" text with
  | _ :: day :: _ => parseInt day
  | _ => None
  end.

(** The text shows no month above 12 and no day above 31. *)
Definition within_calendar (text : string) : Prop :=
  num_gt (month_component text) 12 = false ∧
  num_gt (day_component text) 31 = false.

End EditPatientPage.

(** ** Values shared by the API handlers *)

Module Api.
Import Js.

(** A scalar JSON value; a property that is absent ([undefined]) is
    [None] at type [option json]. *)
Inductive json : Type :=
  | JNull
  | JBool (b : bool)
  | JNum (n : Z)
  | JStr (s : string).

(** JavaScript truthiness, as tested by [if (x)] and [!x]. *)
Definition truthy (v : option json) : bool :=
  match v with
  | Some (JStr s) => negb (str_falsy s)
  | Some (JNum n) => negb (n =? 0)
  | Some (JBool b) => b
  | Some JNull | None => false
  end.

Definition str_truthy (s : option string) : bool :=
  match s with Some t => negb (str_falsy t) | None => false end.

(** [typeof v] *)
Definition typeof (v : option json) : string :=
  match v with
  | Some (JStr _) => "string"
  | Some (JNum _) => "number"
  | Some (JBool _) => "boolean"
  | Some JNull => "object"
  | None => "undefined"
  end.

(** What a [catch] clause can receive: a
    [Prisma.PrismaClientKnownRequestError] with its code and message, any
    other instance of [Error] with its message, or a thrown value that is
    not an [Error]. *)
Inductive thrown : Type :=
  | PrismaKnown (code message : string)
  | JsError (message : string)
  | NonError.

Inductive result (A : Type) : Type :=
  | Ok (a : A)
  | Throw (e : thrown).
Arguments Ok {A} a.
Arguments Throw {A} e.

#[global] Instance result_bind : MBind result :=
  λ A B (k : A → result B) (r : result A),
    match r with
    | Ok a => k a
    | Throw e => Throw e
    end.

(** [NextResponse.json(body, { status })]; a body is either a one-field
    object [{ key: text }] or a payload. *)
Inductive body (A : Type) : Type :=
  | OneField (key text : string)
  | Payload (a : A).
Arguments OneField {A} key text.
Arguments Payload {A} a.

Record Response (A : Type) : Type := mkResponse {
  status : Z;
  content : body A
}.
Arguments mkResponse {A} status content.
Arguments status {A} r.
Arguments content {A} r.

Definition message {A} (st : Z) (text : string) : Response A :=
  mkResponse st (OneField "message" text).

Definition to_upper_char (c : ascii) : ascii :=
  let n := nat_of_ascii c in
  if (Nat.leb 97 n && Nat.leb n 122)%bool then ascii_of_nat (n - 32) else c.

(** The characters of two bytes whose upper case is ASCII text: dotless i
    (U+0131), long s (U+017F) and sharp s (U+00DF). *)
Definition upper2 (c d : ascii) : option string :=
  match nat_of_ascii c, nat_of_ascii d with
  | 196%nat, 177%nat => Some "I"
  | 197%nat, 191%nat => Some "S"
  | 195%nat, 159%nat => Some "SS"
  | _, _ => None
  end.

(** The characters of three bytes whose upper case is ASCII text: the
    ligatures U+FB00 to U+FB06. *)
Definition upper3 (c d e : ascii) : option string :=
  match nat_of_ascii c, nat_of_ascii d, nat_of_ascii e with
  | 239%nat, 172%nat, 128%nat => Some "FF"
  | 239%nat, 172%nat, 129%nat => Some "FI"
  | 239%nat, 172%nat, 130%nat => Some "FL"
  | 239%nat, 172%nat, 131%nat => Some "FFI"
  | 239%nat, 172%nat, 132%nat => Some "FFL"
  | 239%nat, 172%nat, 133%nat => Some "ST"
  | 239%nat, 172%nat, 134%nat => Some "ST"
  | _, _, _ => None
  end.

(** [s.toUpperCase()]. An ASCII letter goes to its capital, and a
    character outside ASCII whose upper case is ASCII text goes to that
    text. The upper case of every other character outside ASCII holds a
    character outside ASCII; such a character is kept as it is, so that the
    result is equal to an ASCII text exactly when the upper case of [s]
    is. *)
Fixpoint toUpperCase (s : string) : string :=
  match s with
  | EmptyString => EmptyString
  | String c r =>
      match r with
      | String d r2 =>
          match upper2 c d with
          | Some u => u +:+ toUpperCase r2
          | None =>
              match r2 with
              | String e r3 =>
                  match upper3 c d e with
                  | Some u => u +:+ toUpperCase r3
                  | None => String (to_upper_char c) (toUpperCase r)
                  end
              | EmptyString => String (to_upper_char c) (toUpperCase r)
              end
          end
      | EmptyString => String (to_upper_char c) (toUpperCase r)
      end
  end.

End Api.

(** ** [app/api/attorneys/route.ts] *)

Module AttorneysRoute.
Import Js Api.

(** A user row, by the columns the handlers read and write. *)
Record User : Type := mkUser {
  user_email : string;
  user_name : string;
  user_role : string;
  user_password : string
}.

(** An attorney row: the link to its user and the other scalar columns
    by name. A date column is held as its time value. *)
Record Attorney : Type := mkAttorney {
  userId : string;
  profile : gmap string json
}.

(** A case manager row: the link to its attorney and the other scalar
    columns by name. *)
Record CaseManager : Type := mkCaseManager {
  attorneyId : string;
  manager : gmap string json
}.

(** [interface CaseManagerData] *)
Record CaseManagerData : Type := mkCaseManagerData {
  name : string;
  email : string;
  phone : string;
  phoneExt : option string;
  faxNumber : option string
}.

(** The three collections the handlers touch, keyed by row id. *)
Record Db : Type := mkDb {
  users : gmap string User;
  attorneys : gmap string Attorney;
  caseManagers : gmap string CaseManager
}.

(** *** The models of [prisma/schema.prisma] *)

Inductive ColumnType : Type := TString | TDateTime | TJson.

(** A scalar column of a model: its name, its type, and whether a row
    cannot be created without a value for it (the column is not optional
    and has no default). *)
Record Column : Type := mkColumn {
  col_name : string;
  col_type : ColumnType;
  col_required : bool
}.

(** [model User] *)
Definition User_columns : list Column :=
  [mkColumn "id" TString false; mkColumn "createdAt" TDateTime true;
   mkColumn "email" TString true; mkColumn "name" TString true;
   mkColumn "password" TString true; mkColumn "role" TString true;
   mkColumn "updatedAt" TDateTime true].

(** [model Attorney] *)
Definition Attorney_columns : list Column :=
  [mkColumn "id" TString false; mkColumn "address" TString true;
   mkColumn "barNumber" TJson false; mkColumn "city" TString true;
   mkColumn "createdAt" TDateTime true; mkColumn "email" TString true;
   mkColumn "firstName" TString true; mkColumn "lastName" TString true;
   mkColumn "phone" TString true; mkColumn "state" TString true;
   mkColumn "updatedAt" TDateTime true; mkColumn "userId" TString true;
   mkColumn "zip" TString true].

(** [model CaseManager] *)
Definition CaseManager_columns : list Column :=
  [mkColumn "id" TString false; mkColumn "attorneyId" TString true;
   mkColumn "createdAt" TDateTime true; mkColumn "email" TString true;
   mkColumn "firstName" TString true; mkColumn "lastName" TString true;
   mkColumn "phone" TString true; mkColumn "updatedAt" TDateTime true].

(** Every property of [data] names a column of the model. *)
Definition columns_known (model : list Column) (data : gmap string json) : bool :=
  bool_decide (map_Forall (λ k _, k ∈ col_name <$> model) data).

(** [data] has a value for every required column of the model. *)
Definition columns_given (model : list Column) (data : gmap string json) : bool :=
  forallb (λ c, negb (col_required c) || bool_decide (is_Some (data !! col_name c)))
    model.

(** Claims of a verified token. *)
Record JwtPayload : Type := mkJwtPayload {
  jwt_role : option string;
  jwt_userId : option string
}.

(** What the handlers take from their surroundings: the password hash,
    the token verification under the configured secret, the check that the
    generated storage client makes of the given values against the types of
    their columns, and its message texts. *)
Record Env : Type := mkEnv {
  bcrypt_hash : string → string;
  jwtVerify : string → result JwtPayload;
  values_valid : list Column → gmap string json → bool;
  validation_message : string;
  known_message : string → string
}.

(** The attorney as serialised in a response, with the relations that
    the query included. *)
Record AttorneyJson : Type := mkAttorneyJson {
  aj_id : string;
  aj_row : Attorney;
  aj_user : option (string * string);
  aj_caseManagers : option (list (string * CaseManager))
}.

(** A promise that has not been awaited. *)
Inductive Promise (A : Type) : Type :=
  | promise (settles_to : result A).
Arguments promise {A} settles_to.

(** Reading a claim off a promise object: a promise has no such property,
    the read gives [undefined]. *)
Definition promise_prop {A} (p : Promise A) (key : string) : option string :=
  None.

Definition opt_string_eqb (a : option string) (b : string) : bool :=
  match a with Some s => String.eqb s b | None => false end.

(** [x || null] on an optional text *)
Definition or_null (x : option string) : option string :=
  match x with
  | Some s => if str_falsy s then None else Some s
  | None => None
  end.

(** [(payload.role as string || '').toUpperCase() === 'ADMIN']: the
    upper case of the role that the claims carry is ADMIN. *)
Definition is_admin (payload : JwtPayload) : bool :=
  String.eqb (toUpperCase (default "" (or_null (jwt_role payload)))) "ADMIN".

(** [attorney.userId === payload.userId]: the claims name the user that
    owns the attorney record. *)
Definition is_owner (payload : JwtPayload) (attorney : Attorney) : bool :=
  opt_string_eqb (jwt_userId payload) (userId attorney).

Section Handlers.

Variable env : Env.

Definition prisma_validation {A} : result A :=
  Throw (JsError (validation_message env)).

Definition prisma_known {A} (code : string) : result A :=
  Throw (PrismaKnown code (known_message env code)).

(** The check of the [data] of a [create] by the generated client, before
    anything is sent to the store. *)
Definition create_accepts (model : list Column) (data : gmap string json) : bool :=
  columns_known model data && columns_given model data &&
  values_valid env model data.

(** The check of the [data] of an [update]. *)
Definition update_accepts (model : list Column) (data : gmap string json) : bool :=
  columns_known model data && values_valid env model data.

(** [prisma.$transaction(async (tx) => ...)]: the callback runs on the
    current state; when it throws, or when the storage layer raises
    [fault] while it runs, nothing it wrote is kept. *)
Definition transaction {A} (fault : option thrown)
    (callback : Db → result (A * Db)) (db : Db) : result (A * Db) :=
  match fault with
  | Some e => Throw e
  | None => callback db
  end.

(** [user.findUnique({ where: { email } })], on a store that answers the
    read. *)
Definition user_findUnique_email (email : option json) (db : Db)
  : result (option (string * User)) :=
  match email with
  | Some (JStr e) =>
      Ok (head (map_to_list (filter (λ kv, user_email kv.2 = e) (users db))))
  | _ => prisma_validation
  end.

(** [bcrypt.hash(password, 10)]; anything but a string is refused. *)
Definition hash_password (password : option json) : result string :=
  match password with
  | Some (JStr p) => Ok (bcrypt_hash env p)
  | _ =>
      Throw (JsError ("Illegal arguments: " +:+ typeof password +:+ ", number"))
  end.

(** An object literal: a property whose value is [undefined] is left out
    of the [data] that the generated client gets. *)
Fixpoint object (props : list (string * option json)) : gmap string json :=
  match props with
  | [] => ∅
  | (k, Some v) :: rest => <[k := v]> (object rest)
  | (_, None) :: rest => object rest
  end.

(** [tx.user.create({ data })] *)
Definition user_create (data : gmap string json) (db : Db)
  : result (string * Db) :=
  if create_accepts User_columns data then
    match data !! "email", data !! "name", data !! "role", data !! "password" with
    | Some (JStr e), Some (JStr n), Some (JStr r), Some (JStr p) =>
        if bool_decide (filter (λ kv, user_email kv.2 = e) (users db) = ∅) then
          let id := fresh (dom (users db)) in
          Ok (id,
              mkDb (<[id := mkUser e n r p]> (users db))
                   (attorneys db) (caseManagers db))
        else prisma_known "P2002"
    | _, _, _, _ => prisma_validation
    end
  else prisma_validation.

(** [tx.attorney.create({ data, include: { user: { select: { name,
    email } }, caseManagers: true } })] *)
Definition attorney_create (data : gmap string json) (db : Db)
  : result (AttorneyJson * Db) :=
  if create_accepts Attorney_columns data then
    match data !! "userId" with
    | Some (JStr uid) =>
        if bool_decide (filter (λ kv, userId kv.2 = uid) (attorneys db) = ∅) then
          let id := fresh (dom (attorneys db)) in
          let row := mkAttorney uid (delete "userId" data) in
          let db' :=
            mkDb (users db) (<[id := row]> (attorneys db)) (caseManagers db) in
          Ok (mkAttorneyJson id row
                ((λ u, (user_name u, user_email u)) <$> users db !! uid)
                (Some (map_to_list
                   (filter (λ kv, attorneyId kv.2 = id) (caseManagers db)))),
              db')
        else prisma_known "P2002"
    | _ => prisma_validation
    end
  else prisma_validation.

(** The rows of a [createMany], stored one after the other. *)
Fixpoint caseManager_insertMany (rows : list (gmap string json))
    (cms : gmap string CaseManager) : gmap string CaseManager :=
  match rows with
  | [] => cms
  | r :: rest =>
      let aid := match r !! "attorneyId" with Some (JStr a) => a | _ => "" end in
      caseManager_insertMany rest
        (<[fresh (dom cms) := mkCaseManager aid (delete "attorneyId" r)]> cms)
  end.

(** [tx.caseManager.createMany({ data })] *)
Definition caseManager_createMany (rows : list (gmap string json))
    (cms : gmap string CaseManager) : result (gmap string CaseManager) :=
  if forallb (create_accepts CaseManager_columns) rows
  then Ok (caseManager_insertMany rows cms)
  else prisma_validation.

Definition manager_complete (m : CaseManagerData) : bool :=
  negb (str_falsy (name m)) && negb (str_falsy (email m)) &&
  negb (str_falsy (phone m)).

Definition opt_text (o : option string) : json :=
  match o with Some s => JStr s | None => JNull end.

(** The [data] of one case manager in [POST]. *)
Definition manager_row (aid : string) (m : CaseManagerData) : gmap string json :=
  object
    [("attorneyId", Some (JStr aid)); ("name", Some (JStr (name m)));
     ("email", Some (JStr (email m))); ("phone", Some (JStr (phone m)));
     ("phoneExt", Some (opt_text (or_null (phoneExt m))));
     ("faxNumber", Some (opt_text (or_null (faxNumber m))))].

(** The request body of [POST]: its scalar properties and the
    [caseManagers] array when there is one. *)
Record PostBody : Type := mkPostBody {
  fields : gmap string json;
  body_caseManagers : option (list CaseManagerData)
}.

(** The callback of the transaction in [POST]. *)
Definition POST_transaction (b : PostBody) (db : Db)
  : result (AttorneyJson * Db) :=
  let f := fields b in
  password ←
    (if truthy (f !! "hasLogin") && truthy (f !! "password")
     then hash_password (f !! "password") else Ok "");
  let userData :=
    object
      [("email", f !! "email"); ("name", f !! "name");
       ("role", Some (JStr "ATTORNEY")); ("password", Some (JStr password))] in
  '(uid, db1) ← user_create userData db;
  let attorneyData :=
    object
      [("userId", Some (JStr uid)); ("phone", f !! "phone");
       ("faxNumber", f !! "faxNumber"); ("address", f !! "address");
       ("city", f !! "city"); ("state", f !! "state");
       ("zipcode", f !! "zipcode"); ("notes", f !! "notes");
       ("barNumber", Some JNull); ("firm", Some JNull)] in
  '(attorneyProfile, db2) ← attorney_create attorneyData db1;
  db3 ←
    match body_caseManagers b with
    | Some cms =>
        if (0 <? Z.of_nat (length cms))%Z then
          let validCaseManagers := List.filter manager_complete cms in
          if (0 <? Z.of_nat (length validCaseManagers))%Z then
            created ←
              caseManager_createMany
                (manager_row (aj_id attorneyProfile) <$> validCaseManagers)
                (caseManagers db2);
            Ok (mkDb (users db2) (attorneys db2) created)
          else Ok db2
        else Ok db2
    | None => Ok db2
    end;
  Ok (attorneyProfile, db3).

(** The [try] block of [POST]; [body] is what [request.json()] gives. *)
Definition POST_try (fault : option thrown) (body : result PostBody) (db : Db)
  : result (Response AttorneyJson * Db) :=
  b ← body;
  let f := fields b in
  if negb (truthy (f !! "name")) || negb (truthy (f !! "email")) then
    Ok (message 400 "Name and email are required", db)
  else if truthy (f !! "hasLogin") && negb (truthy (f !! "password")) then
    Ok (message 400 "Password is required when login access is enabled", db)
  else
    existingUser ← user_findUnique_email (f !! "email") db;
    match existingUser with
    | Some _ => Ok (message 400 "Email already registered", db)
    | None =>
        '(attorney, db') ← transaction fault (POST_transaction b) db;
        Ok (mkResponse 200 (Payload attorney), db')
    end.

(** The [catch] clause of [POST]. *)
Definition POST_catch (error : thrown) : Response AttorneyJson :=
  match error with
  | PrismaKnown code msg =>
      if String.eqb code "P2002" then
        message 400
          "A unique constraint violation occurred. The email may already be registered."
      else message 400 ("Database error: " +:+ msg)
  | JsError msg => message 500 msg
  | NonError => message 500 "Error creating attorney"
  end.

(** [POST /api/attorneys] *)
Definition POST (fault : option thrown) (body : result PostBody) (db : Db)
  : Response AttorneyJson * Db :=
  match POST_try fault body db with
  | Ok r => r
  | Throw e => (POST_catch e, db)
  end.

(** [tx.attorney.update({ where: { id }, data })]: the columns named in
    [data] are overwritten, the others are kept. *)
Definition attorney_update (id : string) (data : gmap string json) (db : Db)
  : result (Attorney * Db) :=
  if update_accepts Attorney_columns data then
    match attorneys db !! id with
    | None => prisma_known "P2025"
    | Some a =>
        match data !! "userId" with
        | Some (JStr u) =>
            if bool_decide
                 (filter (λ kv, kv.1 ≠ id ∧ userId kv.2 = u) (attorneys db) = ∅)
            then
              let a' := mkAttorney u (delete "userId" data ∪ profile a) in
              Ok (a',
                  mkDb (users db) (<[id := a']> (attorneys db)) (caseManagers db))
            else prisma_known "P2002"
        | Some _ => prisma_validation
        | None =>
            let a' := mkAttorney (userId a) (data ∪ profile a) in
            Ok (a', mkDb (users db) (<[id := a']> (attorneys db)) (caseManagers db))
        end
    end
  else prisma_validation.

(** [tx.user.update({ where: { id }, data: { password } })] *)
Definition user_update_password (id password : string) (db : Db) : result Db :=
  match users db !! id with
  | None => prisma_known "P2025"
  | Some u =>
      Ok (mkDb
            (<[id := mkUser (user_email u) (user_name u) (user_role u) password]>
               (users db))
            (attorneys db) (caseManagers db))
  end.

(** The callback of the transaction in [PUT], after
    [const { password, ...attorneyData } = data]. *)
Definition PUT_transaction (id : string) (data : gmap string json) (db : Db)
  : result (Attorney * Db) :=
  let password := data !! "password" in
  let attorneyData := delete "password" data in
  '(attorney, db1) ← attorney_update id attorneyData db;
  db2 ←
    (if truthy password then
       hashedPassword ← hash_password password;
       user_update_password (userId attorney) hashedPassword db1
     else Ok db1);
  Ok (attorney, db2).

Record PutRequest : Type := mkPutRequest {
  put_id : option string;
      (** [searchParams.get('id')] *)
  put_bearer : option string;
      (** [request.headers.get('Authorization')?.split(' ')[1]] *)
  put_json : result (gmap string json)
      (** [await request.json()] *)
}.

(** The [try] block of [PUT]. The token check is started and its promise
    is used as if it were the claims: [decoded.role] reads a property of
    the promise. *)
Definition PUT_try (fault : option thrown) (req : PutRequest) (db : Db)
  : result (Response AttorneyJson * Db) :=
  match put_id req with
  | Some id =>
      if str_falsy id then Ok (message 400 "Attorney ID is required", db)
      else
        match put_bearer req with
        | Some token =>
            if str_falsy token then Ok (message 401 "Unauthorized", db)
            else
              let decoded := promise (jwtVerify env token) in
              if negb (opt_string_eqb (promise_prop decoded "role") "ADMIN") then
                Ok (message 401 "Unauthorized", db)
              else
                data ← put_json req;
                '(attorney, db') ← transaction fault (PUT_transaction id data) db;
                Ok (mkResponse 200
                      (Payload (mkAttorneyJson id attorney None None)), db')
        | None => Ok (message 401 "Unauthorized", db)
        end
  | None => Ok (message 400 "Attorney ID is required", db)
  end.

(** [PUT /api/attorneys?id=...] *)
Definition PUT (fault : option thrown) (req : PutRequest) (db : Db)
  : Response AttorneyJson * Db :=
  match PUT_try fault req db with
  | Ok r => r
  | Throw _ => (message 500 "Failed to update attorney", db)
  end.

Record DeleteRequest : Type := mkDeleteRequest {
  del_id : option string;
      (** [searchParams.get('id')] *)
  del_cookie_token : option string
      (** the [token=] entry of the [cookie] header *)
}.

(** The callback of the transaction in [DELETE]. *)
Definition DELETE_transaction (id : string) (attorney : Attorney) (db : Db)
  : result (unit * Db) :=
  let db1 :=
    mkDb (users db) (attorneys db)
      (filter (λ kv, attorneyId kv.2 ≠ id) (caseManagers db)) in
  db2 ←
    match attorneys db1 !! id with
    | Some _ => Ok (mkDb (users db1) (delete id (attorneys db1)) (caseManagers db1))
    | None => prisma_known "P2025"
    end;
  db3 ←
    match users db2 !! userId attorney with
    | Some _ =>
        Ok (mkDb (delete (userId attorney) (users db2)) (attorneys db2)
              (caseManagers db2))
    | None => prisma_known "P2025"
    end;
  Ok (tt, db3).

(** The [try] block of [DELETE]; the attorney is looked up in a store
    that answers the read. *)
Definition DELETE_try (fault : option thrown) (req : DeleteRequest) (db : Db)
  : result (Response AttorneyJson * Db) :=
  match del_id req with
  | Some id =>
      if str_falsy id then Ok (message 400 "Attorney ID is required", db)
      else
        match del_cookie_token req with
        | Some token =>
            if str_falsy token then Ok (message 401 "Unauthorized", db)
            else
              payload ← jwtVerify env token;
              match attorneys db !! id with
              | None => Ok (message 404 "Attorney not found", db)
              | Some attorney =>
                  let isAdmin := is_admin payload in
                  let isOwnProfile := is_owner payload attorney in
                  if negb isAdmin && negb isOwnProfile then
                    Ok (message 403 "Unauthorized", db)
                  else
                    '(_, db') ←
                      transaction fault (DELETE_transaction id attorney) db;
                    Ok (message 200 "Attorney deleted successfully", db')
              end
        | None => Ok (message 401 "Unauthorized", db)
        end
  | None => Ok (message 400 "Attorney ID is required", db)
  end.

(** [DELETE /api/attorneys?id=...] *)
Definition DELETE (fault : option thrown) (req : DeleteRequest) (db : Db)
  : Response AttorneyJson * Db :=
  match DELETE_try fault req db with
  | Ok r => r
  | Throw _ => (message 500 "Failed to delete attorney", db)
  end.

End Handlers.

(** *** Vocabulary of the specification *)

(** Every attorney row is linked to a user row. *)
Definition attorneys_linked (db : Db) : Prop :=
  map_Forall (λ _ a, is_Some (users db !! userId a)) (attorneys db).

(** No user row has the e-mail address [e]. *)
Definition email_unused (e : string) (db : Db) : Prop :=
  map_Forall (λ _ u, user_email u ≠ e) (users db).

End AttorneysRoute.

(** ** The tasks route *)

Module TasksRoute.
Import Js Api.

(** The [data] object handed to [prisma.task.create]. In [task_dueDate],
    [Some v] stands for [new Date(v)] and [None] for [null]. *)
Record TaskData : Type := mkTaskData {
  task_title : option json;
  task_description : option json;
  task_status : option json;
  task_priority : option json;
  task_dueDate : option json;
  task_assignedToId : option json
}.

(** The [data] that [POST] builds from a request body. *)
Definition task_data (b : gmap string json) : TaskData :=
  mkTaskData (b !! "title") (b !! "description") (b !! "status")
    (b !! "priority") (if truthy (b !! "dueDate") then b !! "dueDate" else None)
    (b !! "assignedToId").

Section Handlers.

(** The storage collaborator: its state, the created row as returned with
    [include: { assignedTo }], and [prisma.task.create]. *)
Variable Store : Type.
Variable Task : Type.
Variable task_create : TaskData → Store → result (Task * Store).

Definition error {A} (st : Z) (text : string) : Response A :=
  mkResponse st (OneField "error" text).

(** The [try] block of [POST]; [session_user] is [session?.user] and
    [body] is what [req.json()] gives. *)
Definition POST_try (session_user : option string)
    (body : result (gmap string json)) (store : Store)
  : result (Response Task * Store) :=
  match session_user with
  | None => Ok (error 401 "Unauthorized", store)
  | Some _ =>
      b ← body;
      let title := b !! "title" in
      if negb (truthy title) then Ok (error 400 "Title is required", store)
      else
        '(task, store') ← task_create (task_data b) store;
        Ok (mkResponse 200 (Payload task), store')
  end.

(** [POST /api/tasks] *)
Definition POST (session_user : option string)
    (body : result (gmap string json)) (store : Store)
  : Response Task * Store :=
  match POST_try session_user body store with
  | Ok r => r
  | Throw _ => (error 500 "Internal error", store)
  end.

End Handlers.

(** The title is missing ([undefined] or [null]) or the empty text. *)
Definition absent_or_empty (title : option json) : Prop :=
  title = None ∨ title = Some JNull ∨ title = Some (JStr "").

(** The title is falsy: missing, [null], the empty text, the number 0 or
    [false]. *)
Definition falsy_title (title : option json) : Prop :=
  title = None ∨ title = Some JNull ∨ title = Some (JStr "") ∨
  title = Some (JNum 0) ∨ title = Some (JBool false).

(** The title has the type of the [title] column when it is there. *)
Definition text_or_absent (title : option json) : Prop :=
  match title with
  | None | Some JNull | Some (JStr _) => True
  | _ => False
  end.

End TasksRoute.

(** ** The procedure rows and the submission of the patient edit page *)

Module PatientForm.
Import Js JsDate Api EditPatientPage.

(** The form state: the text fields by name, and the procedure rows, each
    an object of the shape of [interface Procedure]. *)
Record FormData : Type := mkFormData {
  text : gmap string string;
  procedures : list (gmap string json)
}.

(** The row that [addProcedure] appends. *)
Definition emptyProcedure : gmap string json :=
  list_to_map
    [("examId", JStr ""); ("scheduleDate", JStr ""); ("scheduleTime", JStr "");
     ("facilityId", JStr ""); ("physicianId", JStr ""); ("statusId", JStr "");
     ("lop", JStr ""); ("isCompleted", JBool false)].

(** [addProcedure] *)
Definition addProcedure (prev : FormData) : FormData :=
  mkFormData (text prev) (procedures prev ++ [emptyProcedure]).

(** [l.filter((_, i) => i !== index)], with [i] the position of the head
    of [l]. *)
Fixpoint filter_other_index {A : Type} (index i : nat) (l : list A) : list A :=
  match l with
  | [] => []
  | x :: r =>
      if Nat.eqb i index then filter_other_index index (S i) r
      else x :: filter_other_index index (S i) r
  end.

(** [removeProcedure] *)
Definition removeProcedure (index : nat) (prev : FormData) : FormData :=
  mkFormData (text prev) (filter_other_index index 0 (procedures prev)).

(** [updateProcedure] *)
Definition updateProcedure (index : nat) (field : string) (value : json)
    (prev : FormData) : FormData :=
  mkFormData (text prev)
    (imap (λ i proc, if Nat.eqb i index then <[field := value]> proc else proc)
       (procedures prev)).

(** A text field of the form; the state holds every text field from its
    initial value on. *)
Definition field (name : string) (form : FormData) : string :=
  default "" (text form !! name).

(** The test of the loop over the procedures in [handleSubmit]. *)
Definition procedure_complete (proc : gmap string json) : bool :=
  truthy (proc !! "examId") && truthy (proc !! "scheduleDate") &&
  truthy (proc !! "scheduleTime") && truthy (proc !! "facilityId") &&
  truthy (proc !! "physicianId") && truthy (proc !! "statusId").

Definition opt_json (o : option string) : json :=
  match o with Some s => JStr s | None => JNull end.

(** The body of the request that [handleSubmit] sends. *)
Record Submission : Type := mkSubmission {
  sub_text : gmap string string;
  sub_dateOfBirth : string;
  sub_doidol : option string;
  sub_orderDate : option string;
  sub_procedures : list (gmap string json)
}.

(** What [handleSubmit] leaves behind: the error text it set, the request
    it sent if any, and whether it moved on to the patient list. *)
Record SubmitResult : Type := mkSubmitResult {
  shown_error : string;
  request : option Submission;
  navigated : bool
}.

Section LocalZone.

Variable zone : Zone.

(** [x ? parseDate(x) : null] on a text field *)
Definition parse_text (x : string) : option string :=
  if str_falsy x then None else parseDate zone x.

(** [parseDate(proc.scheduleDate)]: on a value that is no text,
    [split] throws inside [parseDate], whose [catch] returns [null]. *)
Definition parse_value (x : option json) : option string :=
  match x with
  | Some (JStr s) => parseDate zone s
  | _ => None
  end.

(** [handleSubmit]; [fetch_ok] is the outcome of the request: whether
    the response is [ok], or what [fetch] throws. *)
Definition handleSubmit (fetch_ok : Submission → result bool) (formData : FormData)
  : SubmitResult :=
  if str_falsy (trim (field "firstName" formData)) ||
     str_falsy (trim (field "lastName" formData)) ||
     str_falsy (field "payerId" formData) ||
     str_falsy (field "statusId" formData)
  then
    mkSubmitResult "First name, last name, payer, and status are required"
      None false
  else if negb (forallb procedure_complete (procedures formData)) then
    mkSubmitResult "All procedure fields are required" None false
  else
    let parsedDateOfBirth := parse_text (field "dateOfBirth" formData) in
    let parsedDoidol := parse_text (field "doidol" formData) in
    let parsedOrderDate := parse_text (field "orderDate" formData) in
    if negb (str_truthy parsedDateOfBirth) then
      mkSubmitResult "Invalid date of birth format. Please use MM/DD/YYYY"
        None false
    else
      let submissionData :=
        mkSubmission (text formData) (default "" parsedDateOfBirth)
          parsedDoidol parsedOrderDate
          ((λ proc,
              <["scheduleDate" := opt_json (parse_value (proc !! "scheduleDate"))]>
                proc) <$> procedures formData) in
      match fetch_ok submissionData with
      | Ok true => mkSubmitResult "" (Some submissionData) true
      | Ok false | Throw _ =>
          mkSubmitResult "Failed to update patient" (Some submissionData) false
      end.

End LocalZone.

(** *** Vocabulary *)

(** The text holds white space only: each of its characters is a white
    space character of one, two or three bytes. *)
Fixpoint all_space (s : string) : bool :=
  match s with
  | EmptyString => true
  | String c r =>
      is_space c && all_space r ||
      match r with
      | String d r2 =>
          is_space2 c d && all_space r2 ||
          match r2 with
          | String e r3 => is_space3 c d e && all_space r3
          | EmptyString => false
          end
      | EmptyString => false
      end
  end.

(** The form passes the checks of [handleSubmit]: the two names are not
    blank, payer and status are chosen, every procedure row has its six
    required fields, and the date of birth parses. *)
Definition submittable (zone : Zone) (form : FormData) : Prop :=
  all_space (field "firstName" form) = false ∧
  all_space (field "lastName" form) = false ∧
  field "payerId" form ≠ "" ∧ field "statusId" form ≠ "" ∧
  Forall (λ proc, procedure_complete proc = true) (procedures form) ∧
  is_Some (parseDate zone (field "dateOfBirth" form)).

(** The characters of a date text as the mask leaves it: digits and
    the separator. *)
Fixpoint date_chars (s : string) : bool :=
  match s with
  | EmptyString => true
  | String c r => (is_digit c || Ascii.eqb c "/") && date_chars r
  end.

End PatientForm.

(** ** Reading attorneys, and the links between the collections *)

Module AttorneysRead.
Import Js Api AttorneysRoute.

(** The branch of [GET] for an [id] that has passed the test [if (id)]:
    [attorney.findUnique({ where: { id }, include: { caseManagers: true,
    user: { select: { name, email } } } })]. The included user is a
    required relation: when its row is missing the query throws. The case
    managers come in the order of the store. *)
Definition GET_by_id (fault : option thrown) (id : string) (db : Db)
  : Response AttorneyJson :=
  match fault with
  | Some _ => message 500 "Failed to fetch attorneys"
  | None =>
      match attorneys db !! id with
      | None => message 404 "Attorney not found"
      | Some attorney =>
          match users db !! userId attorney with
          | None => message 500 "Failed to fetch attorneys"
          | Some u =>
              mkResponse 200
                (Payload
                   (mkAttorneyJson id attorney
                      (Some (user_name u, user_email u))
                      (Some (map_to_list
                               (filter (λ kv, attorneyId kv.2 = id)
                                  (caseManagers db))))))
          end
      end
  end.

(** Every case manager row references an attorney row. *)
Definition caseManagers_linked (db : Db) : Prop :=
  map_Forall (λ _ cm, is_Some (attorneys db !! attorneyId cm)) (caseManagers db).

(** No two attorney rows share a user. *)
Definition userId_unique (db : Db) : Prop :=
  ∀ i j a b,
    attorneys db !! i = Some a → attorneys db !! j = Some b →
    userId a = userId b → i = j.

(** The references between the three collections hold. *)
Definition db_consistent (db : Db) : Prop :=
  attorneys_linked db ∧ caseManagers_linked db ∧ userId_unique db.

(** The case manager rows of attorney [id]. *)
Definition managers_of (id : string) (db : Db) : gmap string CaseManager :=
  filter (λ kv, attorneyId kv.2 = id) (caseManagers db).

(** What [GET] answers with: one attorney, or the list of all. *)
Inductive GetPayload : Type :=
  | One (attorney : AttorneyJson)
  | Many (listed : list AttorneyJson).

Definition as_one (r : Response AttorneyJson) : Response GetPayload :=
  mkResponse (status r)
    (match content r with
     | OneField key text => OneField key text
     | Payload a => Payload (One a)
     end).

(** The [createdAt] column of an attorney row. *)
Definition createdAt (a : Attorney) : Z :=
  match profile a !! "createdAt" with
  | Some (JNum t) => t
  | _ => 0
  end.

(** [orderBy: { createdAt: 'desc' }] *)
Definition newest_first (x y : string * Attorney) : Prop :=
  createdAt y.2 <= createdAt x.2.

#[global] Instance newest_first_dec x y : Decision (newest_first x y) :=
  Z_le_dec (createdAt y.2) (createdAt x.2).

(** An attorney row with the relations that the queries of [GET]
    include. *)
Definition with_relations (db : Db) (kv : string * Attorney) : option AttorneyJson :=
  u ← users db !! userId kv.2;
  Some (mkAttorneyJson kv.1 kv.2 (Some (user_name u, user_email u))
          (Some (map_to_list (managers_of kv.1 db)))).

(** The branch of [GET] for a request without [id], or with the empty
    one: [attorney.findMany] with the same relations, newest first. Rows
    of the same creation time come in the order of the store. *)
Definition GET_all (fault : option thrown) (db : Db) : Response GetPayload :=
  match fault with
  | Some _ => message 500 "Failed to fetch attorneys"
  | None =>
      match mapM (with_relations db)
              (merge_sort newest_first (map_to_list (attorneys db))) with
      | Some l => mkResponse 200 (Payload (Many l))
      | None => message 500 "Failed to fetch attorneys"
      end
  end.

(** [GET /api/attorneys]; [id] is [searchParams.get('id')]. *)
Definition GET (fault : option thrown) (id : option string) (db : Db)
  : Response GetPayload :=
  match id with
  | Some i => if str_falsy i then GET_all fault db else as_one (GET_by_id fault i db)
  | None => GET_all fault db
  end.

End AttorneysRead.

(** ** Reading tasks *)

Module TasksRead.
Import Js Api TasksRoute.

Section Handlers.

(** The storage collaborator: its state, a task row as returned with
    [include: { assignedTo }], and [prisma.task.findMany] ordered by
    creation time. *)
Variable Store : Type.
Variable Task : Type.
Variable task_findMany : Store → result (list Task).

(** [GET /api/tasks] *)
Definition GET (session_user : option string) (store : Store)
  : Response (list Task) :=
  match session_user with
  | None => error 401 "Unauthorized"
  | Some _ =>
      match task_findMany store with
      | Ok tasks => mkResponse 200 (Payload tasks)
      | Throw _ => error 500 "Internal error"
      end
  end.

End Handlers.

End TasksRead.

(** ** A small deployment used in the examples *)

Module Examples.
Import Js JsDate Api AttorneysRoute.

(** Three tokens verify: one of an administrator, one of the attorney
    user [u1], and one of a staff member. *)
Definition demo_jwtVerify (token : string) : result JwtPayload :=
  if String.eqb token "admin-token" then
    Ok (mkJwtPayload (Some "ADMIN") (Some "u0"))
  else if String.eqb token "owner-token" then
    Ok (mkJwtPayload (Some "ATTORNEY") (Some "u1"))
  else if String.eqb token "staff-token" then
    Ok (mkJwtPayload (Some "STAFF") (Some "u2"))
  else Throw (JsError "signature verification failed").

(** The generated client takes every value. *)
Definition demo_env : Env :=
  mkEnv (λ p, "$2a$10$" +:+ p) demo_jwtVerify (λ _ _, true)
    "Invalid invocation" (λ code, "Storage error " +:+ code).

Definition demo_users : gmap string User :=
  <["u0" := mkUser "root@x.com" "Root" "ADMIN" "$2a$10$root"]>
  (<["u1" := mkUser "ann@x.com" "Ann Lee" "ATTORNEY" "$2a$10$old"]>
  (<["u2" := mkUser "sam@x.com" "Sam Roe" "STAFF" "$2a$10$sam"]>
  (<["u3" := mkUser "bob@x.com" "Bob Ray" "ATTORNEY" ""]> ∅))).

Definition demo_attorneys : gmap string Attorney :=
  <["a1" := mkAttorney "u1"
              (<["phone" := JStr "5045550100"]> (<["city" := JStr "Mobile"]>
               (<["createdAt" := JNum 1700000000000]> ∅)))]>
  (<["a2" := mkAttorney "u3"
               (<["city" := JStr "Biloxi"]>
                (<["createdAt" := JNum 1710000000000]> ∅))]> ∅).

Definition demo_manager (first mail phone : string) : gmap string json :=
  <["firstName" := JStr first]> (<["email" := JStr mail]>
  (<["phone" := JStr phone]> ∅)).

Definition demo_caseManagers : gmap string CaseManager :=
  <["c1" := mkCaseManager "a1" (demo_manager "Cy" "cy@x.com" "5045550101")]>
  (<["c2" := mkCaseManager "a1" (demo_manager "Di" "di@x.com" "5045550102")]>
  (<["c3" := mkCaseManager "a2" (demo_manager "Ed" "ed@x.com" "2285550103")]> ∅)).

Definition demo_db : Db := mkDb demo_users demo_attorneys demo_caseManagers.

Definition demo_post_body : PostBody :=
  mkPostBody
    (<["name" := JStr "Jane Doe"]> (<["email" := JStr "jane@x.com"]> ∅)) None.

Definition demo_put_request (token : string) : PutRequest :=
  mkPutRequest (Some "a1") (Some token) (Ok (<["city" := JStr "Gulfport"]> ∅)).

Definition demo_delete_request (token : string) : DeleteRequest :=
  mkDeleteRequest (Some "a1") (Some token).

Definition demo_put_data (password : string) : gmap string json :=
  <["password" := JStr password]> (<["city" := JStr "Gulfport"]> ∅).

(** The Central zone of the United States with its transitions of 2024:
    daylight time from 10 March, 08:00 UTC, to 3 November, 07:00 UTC. The
    local hour from 02:00 on 10 March is skipped and the one from 01:00 on
    3 November is repeated; both are read by the offset before. *)
Definition central : Zone := λ t isUTC,
  if isUTC then
    if (1710057600000 <=? t) && (t <? 1730617200000) then -18000000 else -21600000
  else
    if (1710039600000 <=? t) && (t <? 1730599200000) then -18000000 else -21600000.

(** Pacific/Apia at the end of 2011: ten hours behind Greenwich until 30
    December, 10:00 UTC, and fourteen hours ahead from then on, so that the
    local day of 30 December is skipped. *)
Definition apia : Zone := λ t isUTC,
  if isUTC then if t <? 1325239200000 then -36000000 else 50400000
  else if t <? 1325289600000 then -36000000 else 50400000.

(** A task store that keeps what it is given. *)
Definition demo_task_create (data : TasksRoute.TaskData)
    (store : list TasksRoute.TaskData)
  : result (TasksRoute.TaskData * list TasksRoute.TaskData) :=
  Ok (data, data :: store).

End Examples.

(** ** More examples *)

Module MoreExamples.
Import Js Api AttorneysRoute PatientForm Examples.

Definition demo_procedure : gmap string json :=
  list_to_map
    [("examId", JStr "e1"); ("scheduleDate", JStr "02/31/2024");
     ("scheduleTime", JStr "09:30"); ("facilityId", JStr "f1");
     ("physicianId", JStr "p1"); ("statusId", JStr "s1");
     ("lop", JStr ""); ("isCompleted", JBool false)].

Definition demo_form : FormData :=
  mkFormData
    (list_to_map
       [("firstName", "Ann"); ("lastName", "Lee"); ("payerId", "py1");
        ("statusId", "s1"); ("dateOfBirth", "02/29/1980"); ("doidol", "13/01/2020");
        ("orderDate", "")])
    [demo_procedure].

(** A server that accepts every request. *)
Definition demo_fetch_ok (s : Submission) : result bool := Ok true.

(** The role [admin] written with a dotless i (U+0131). *)
Definition dotless_admin : string :=
  "adm" +:+ String (ascii_of_nat 196) (String (ascii_of_nat 177) "n").

(** A deployment in which one more token verifies: that of a user who
    owns no attorney record and whose role is [dotless_admin]. *)
Definition dotless_env : Env :=
  mkEnv (bcrypt_hash demo_env)
    (λ token,
       if String.eqb token "dotless-token"
       then Ok (mkJwtPayload (Some dotless_admin) (Some "u9"))
       else demo_jwtVerify token)
    (values_valid demo_env) (validation_message demo_env)
    (known_message demo_env).

(** A first name that is one no-break space (U+00A0). *)
Definition no_break_space : string :=
  String (ascii_of_nat 194) (String (ascii_of_nat 160) "").

Definition demo_login_body : PostBody :=
  mkPostBody
    (<["name" := JStr "Jane Doe"]> (<["email" := JStr "jane@x.com"]>
     (<["hasLogin" := JBool true]> (<["password" := JStr "s3cret"]> ∅))))
    (Some [mkCaseManagerData "Flo" "flo@x.com" "5045550110" None (Some "");
           mkCaseManagerData "Gus" "" "5045550111" None None]).

End MoreExamples.

(** ** Decision procedures used by the proofs *)

Module Checks.
Import Js JsDate EditPatientPage.

(** [f] holds on the [n] integers from [lo] on. *)
Fixpoint forall_range (n : nat) (lo : Z) (f : Z → bool) : bool :=
  match n with
  | O => true
  | S k => f lo && forall_range k (lo + 1) f
  end.

(** A number below 100 prints as its two digits once padded. *)
Definition two_digits_ok (n : Z) : bool :=
  String.eqb (padStart2 (Number_toString (Some n))) (fixed_digits 2 n).

(** A four-digit number prints as its four digits. *)
Definition four_digits_ok (n : Z) : bool :=
  String.eqb (Number_toString (Some n)) (fixed_digits 4 n).

End Checks.

(** * Properties *)

(** ** Strings and numbers *)

Module JsFacts.
Import Js Checks.

Lemma forall_range_spec n : ∀ lo f,
  forall_range n lo f = true → ∀ z, lo <= z < lo + Z.of_nat n → f z = true.
Proof.
  induction n as [|n IH]; intros lo f H z Hz; [lia|].
  cbn [forall_range] in H. apply andb_true_iff in H as [H0 H1].
  destruct (Z.eq_dec z lo) as [->|Hne]; [exact H0|].
  apply (IH (lo + 1) f H1). lia.
Qed.

Lemma append_cons x (a b : string) : String x a +:+ b = String x (a +:+ b).
Proof. reflexivity. Qed.

Lemma append_nil_l (b : string) : "" +:+ b = b.
Proof. reflexivity. Qed.

Lemma append_assoc (a b c : string) : (a +:+ b) +:+ c = a +:+ (b +:+ c).
Proof.
  induction a as [|x a IH]; [reflexivity|].
  rewrite !append_cons. now f_equal.
Qed.

Lemma append_nil_r (a : string) : a +:+ "" = a.
Proof.
  induction a as [|x a IH]; [reflexivity|].
  rewrite append_cons. now f_equal.
Qed.

Lemma length_append (a b : string) :
  String.length (a +:+ b) = (String.length a + String.length b)%nat.
Proof.
  induction a as [|x a IH]; [reflexivity|].
  rewrite append_cons. cbn [String.length]. now rewrite IH.
Qed.

Lemma str_falsy_append_cons a c r : str_falsy (a +:+ String c r) = false.
Proof. destruct a; reflexivity. Qed.

Lemma is_digit_digit_char d : 0 <= d <= 9 → is_digit (digit_char d) = true.
Proof.
  intros H.
  assert (Hd : d = 0 ∨ d = 1 ∨ d = 2 ∨ d = 3 ∨ d = 4 ∨ d = 5 ∨ d = 6 ∨
               d = 7 ∨ d = 8 ∨ d = 9) by lia.
  destruct Hd as [->|[->|[->|[->|[->|[->|[->|[->|[->| ->]]]]]]]]]; reflexivity.
Qed.

Lemma digit_val_digit_char d : 0 <= d <= 9 → digit_val (digit_char d) = d.
Proof.
  intros H.
  assert (Hd : d = 0 ∨ d = 1 ∨ d = 2 ∨ d = 3 ∨ d = 4 ∨ d = 5 ∨ d = 6 ∨
               d = 7 ∨ d = 8 ∨ d = 9) by lia.
  destruct Hd as [->|[->|[->|[->|[->|[->|[->|[->|[->| ->]]]]]]]]]; reflexivity.
Qed.

Lemma forall_range_Z k lo f :
  forall_range (Z.to_nat k) lo f = true → ∀ z, lo <= z < lo + k → f z = true.
Proof.
  intros H z Hz. apply (forall_range_spec _ _ _ H). rewrite Z2Nat.id; lia.
Qed.

Lemma all_digits_append a b :
  all_digits (a +:+ b) = all_digits a && all_digits b.
Proof.
  induction a as [|c a IH]; [reflexivity|].
  rewrite append_cons. cbn [all_digits]. now rewrite IH, andb_assoc.
Qed.

Lemma all_digits_fixed w : ∀ n, all_digits (fixed_digits w n) = true.
Proof.
  induction w as [|w IH]; intros n; [reflexivity|].
  cbn [fixed_digits]. rewrite all_digits_append, IH. cbn [all_digits andb].
  rewrite is_digit_digit_char; [reflexivity|].
  pose proof (Z.mod_pos_bound n 10). lia.
Qed.

(** A digit is none of the characters the parsers treat specially. *)
Lemma digit_not_special c :
  is_digit c = true →
  Ascii.eqb c "/" = false ∧ Ascii.eqb c "-" = false ∧ Ascii.eqb c "+" = false ∧
  Ascii.eqb c "x" = false ∧ Ascii.eqb c "X" = false ∧ is_space c = false.
Proof.
  destruct c as [[] [] [] [] [] [] [] []]; cbv; intros H;
    first [discriminate H | repeat split].
Qed.

(** White space does not start with a digit. *)
Lemma trim_start_digit c r :
  is_digit c = true → trim_start (String c r) = String c r.
Proof.
  destruct c as [[] [] [] [] [] [] [] []]; cbv [is_digit nat_of_ascii];
    cbn; intros H; try discriminate H;
    destruct r as [|d [|e r]]; reflexivity.
Qed.

Lemma split_go_digits sepless : ∀ rest,
  all_digits sepless = true →
  split_go "/" (sepless +:+ String "/" rest) = (sepless, split "/" rest).
Proof.
  induction sepless as [|c a IH]; intros rest H.
  - rewrite append_nil_l. cbn [split_go]. unfold split.
    destruct (split_go "/" rest). reflexivity.
  - cbn [all_digits] in H. apply andb_true_iff in H as [Hc Ha].
    rewrite append_cons. cbn [split_go]. rewrite (IH rest Ha).
    destruct (digit_not_special c Hc) as [-> _]. reflexivity.
Qed.

Lemma split_digits_cons a rest :
  all_digits a = true →
  split "/" (a +:+ String "/" rest) = a :: split "/" rest.
Proof. intros H. unfold split at 1. now rewrite split_go_digits. Qed.

Lemma split_digits_last a : all_digits a = true → split "/" a = [a].
Proof.
  unfold split. induction a as [|c a IH]; intros H; [reflexivity|].
  cbn [all_digits] in H. apply andb_true_iff in H as [Hc Ha].
  cbn [split_go]. specialize (IH Ha). destruct (split_go "/" a) as [p ps].
  destruct (digit_not_special c Hc) as [-> _]. congruence.
Qed.

Lemma parse_prefix_append a : ∀ acc b,
  all_digits a = true →
  parse_prefix 10 acc (a +:+ b) = parse_prefix 10 (parse_prefix 10 acc a) b.
Proof.
  induction a as [|c a IH]; intros acc b H; [reflexivity|].
  cbn [all_digits] in H. apply andb_true_iff in H as [Hc Ha].
  rewrite append_cons. cbn [parse_prefix]. unfold radix_val. cbn [Z.eqb].
  rewrite Hc. now apply IH.
Qed.

Lemma parse_prefix_fixed w : ∀ n acc,
  0 <= n < 10 ^ Z.of_nat (S w) →
  parse_prefix 10 acc (fixed_digits (S w) n) =
  Some (default 0 acc * 10 ^ Z.of_nat (S w) + n).
Proof.
  induction w as [|w IH]; intros n acc Hn.
  - change (10 ^ Z.of_nat 1) with 10 in *.
    cbn [fixed_digits]. rewrite append_nil_l. cbn [parse_prefix].
    unfold radix_val. cbn [Z.eqb].
    rewrite is_digit_digit_char, digit_val_digit_char
      by (pose proof (Z.mod_pos_bound n 10); lia).
    rewrite Z.mod_small by lia. destruct acc; cbn [default]; f_equal; lia.
  - assert (Hpow : 10 ^ Z.of_nat (S (S w)) = 10 * 10 ^ Z.of_nat (S w)).
    { rewrite (Nat2Z.inj_succ (S w)), Z.pow_succ_r by lia. reflexivity. }
    assert (Hq : 0 <= n / 10 < 10 ^ Z.of_nat (S w)).
    { split; [apply Z.div_pos; lia|]. apply Z.div_lt_upper_bound; lia. }
    assert (Hr : 0 <= n mod 10 < 10) by (apply Z.mod_pos_bound; lia).
    change (fixed_digits (S (S w)) n)
      with (fixed_digits (S w) (n / 10) +:+ String (digit_char (n mod 10)) "").
    rewrite parse_prefix_append by apply all_digits_fixed.
    rewrite (IH (n / 10) acc Hq). cbn [parse_prefix].
    unfold radix_val. cbn [Z.eqb].
    rewrite is_digit_digit_char, digit_val_digit_char by lia.
    f_equal. rewrite Hpow. pose proof (Z.div_mod n 10 ltac:(lia)). lia.
Qed.

Lemma all_digits_no_hex_prefix s : all_digits s = true → has_hex_prefix s = false.
Proof.
  destruct s as [|c1 [|c2 r]]; [reflexivity| |]; cbn [all_digits]; intros H.
  - unfold has_hex_prefix. cbn. now rewrite andb_false_r.
  - apply andb_true_iff in H as [_ H]. apply andb_true_iff in H as [H2 _].
    destruct (digit_not_special c2 H2) as (_ & _ & _ & Hx & HX & _).
    unfold has_hex_prefix. cbn. rewrite Hx, HX. now rewrite andb_false_r.
Qed.

Lemma parseInt_digits s v :
  all_digits s = true → parse_prefix 10 None s = Some v → parseInt s = Some v.
Proof.
  intros H Hv. unfold parseInt.
  assert (Ht : trim_start s = s).
  { destruct s as [|c r]; [reflexivity|]. cbn [all_digits] in H.
    apply andb_true_iff in H as [Hc _]. now apply trim_start_digit. }
  rewrite Ht.
  assert (Hs : starts_with "-" s = false ∧ starts_with "+" s = false).
  { destruct s as [|c r]; [split; reflexivity|]. cbn [all_digits] in H.
    apply andb_true_iff in H as [Hc _].
    destruct (digit_not_special c Hc) as (_ & Hm & Hp & _).
    cbn [starts_with]. now rewrite Hm, Hp. }
  destruct Hs as [-> ->]. cbn [orb].
  rewrite (all_digits_no_hex_prefix s H), Hv. f_equal.
  apply Z.mul_1_l.
Qed.

Lemma parseInt_fixed w n :
  0 <= n < 10 ^ Z.of_nat (S w) → parseInt (fixed_digits (S w) n) = Some n.
Proof.
  intros Hn. apply parseInt_digits; [apply all_digits_fixed|].
  rewrite parse_prefix_fixed by assumption. cbn [default]. f_equal; lia.
Qed.

Lemma two_digits_checked : forall_range (Z.to_nat 100) 0 two_digits_ok = true.
Proof. vm_compute. reflexivity. Qed.

Lemma four_digits_checked : forall_range (Z.to_nat 201) 1900 four_digits_ok = true.
Proof. vm_compute. reflexivity. Qed.

Lemma toString_two_digits n :
  0 <= n <= 99 → padStart2 (Number_toString (Some n)) = fixed_digits 2 n.
Proof.
  intros H. apply String.eqb_eq.
  apply (forall_range_Z _ _ _ two_digits_checked). lia.
Qed.

Lemma toString_year n :
  1900 <= n <= 2100 → Number_toString (Some n) = fixed_digits 4 n.
Proof.
  intros H. apply String.eqb_eq.
  apply (forall_range_Z _ _ _ four_digits_checked). lia.
Qed.

End JsFacts.

(** ** The calendar arithmetic of [Date] *)

Module CalendarFacts.
Import Js JsDate.

Lemma isLeap_spec y :
  isLeap y = true ↔ (y mod 4 = 0 ∧ y mod 100 ≠ 0) ∨ y mod 400 = 0.
Proof.
  unfold isLeap.
  rewrite orb_true_iff, andb_true_iff, negb_true_iff, !Z.eqb_eq, Z.eqb_neq.
  reflexivity.
Qed.

Lemma DayFromYear_succ y : DayFromYear (y + 1) = DayFromYear y + DaysInYear y.
Proof.
  unfold DayFromYear, DaysInYear.
  destruct (isLeap y) eqn:E.
  - apply isLeap_spec in E. Z.div_mod_to_equations; lia.
  - assert (H : ¬ ((y mod 4 = 0 ∧ y mod 100 ≠ 0) ∨ y mod 400 = 0)).
    { rewrite <- isLeap_spec. congruence. }
    Z.div_mod_to_equations; lia.
Qed.

Lemma DaysInYear_bounds y : 365 <= DaysInYear y <= 366.
Proof. unfold DaysInYear. destruct (isLeap y); lia. Qed.

Lemma DayFromYear_pred y : DayFromYear (y - 1) <= DayFromYear y - 365.
Proof.
  pose proof (DayFromYear_succ (y - 1)) as H.
  replace (y - 1 + 1) with y in H by lia.
  pose proof (DaysInYear_bounds (y - 1)). lia.
Qed.

Lemma year_search_down dn fuel : ∀ y k,
  (k < fuel)%nat →
  dn < DayFromYear (y + 1) →
  DayFromYear y - 365 * Z.of_nat k <= dn →
  let r := year_search fuel y dn in
  DayFromYear r <= dn < DayFromYear (r + 1).
Proof.
  induction fuel as [|f IH]; intros y k Hk Hup Hlow; [lia|].
  cbn [year_search].
  destruct (Z.ltb_spec dn (DayFromYear y)) as [Hlt|Hge].
  - destruct k as [|k]; [lia|].
    apply (IH (y - 1) k); [lia| |].
    + now replace (y - 1 + 1) with y by lia.
    + pose proof (DayFromYear_pred y). lia.
  - destruct (Z.leb_spec (DayFromYear (y + 1)) dn); [lia|].
    cbv zeta. lia.
Qed.

Lemma year_search_up dn fuel : ∀ y k,
  (k < fuel)%nat →
  DayFromYear y <= dn →
  dn < DayFromYear (y + 1) + 365 * Z.of_nat k →
  let r := year_search fuel y dn in
  DayFromYear r <= dn < DayFromYear (r + 1).
Proof.
  induction fuel as [|f IH]; intros y k Hk Hlow Hup; [lia|].
  cbn [year_search].
  destruct (Z.ltb_spec dn (DayFromYear y)) as [Hlt|Hge]; [lia|].
  destruct (Z.leb_spec (DayFromYear (y + 1)) dn) as [Hle|Hgt].
  - destruct k as [|k]; [lia|].
    apply (IH (y + 1) k); [lia|lia|].
    pose proof (DayFromYear_succ (y + 1)).
    pose proof (DaysInYear_bounds (y + 1)). lia.
  - cbv zeta. lia.
Qed.

Lemma year_estimate dn :
  let y0 := 1970 + dn / 365 in
  let k := Z.abs dn / 100000 + 4 in
  DayFromYear y0 - 365 * k <= dn ∧ dn < DayFromYear y0 + 365 * k.
Proof.
  cbv zeta. unfold DayFromYear.
  Z.div_mod_to_equations; lia.
Qed.

Lemma DayFromYear_mono a b : a <= b → DayFromYear a <= DayFromYear b.
Proof. unfold DayFromYear. intros H. Z.div_mod_to_equations; lia. Qed.

Lemma YearFromDay_spec dn :
  DayFromYear (YearFromDay dn) <= dn < DayFromYear (YearFromDay dn + 1).
Proof.
  unfold YearFromDay.
  pose proof (year_estimate dn) as [Hlo Hhi]. cbv zeta in Hlo, Hhi.
  set (y0 := 1970 + dn / 365) in *.
  set (K := Z.abs dn / 100000 + 4) in *.
  assert (HK : 0 <= K).
  { unfold K. pose proof (Z.div_pos (Z.abs dn) 100000). lia. }
  replace (Z.abs dn / 100000 + 5) with (K + 1) by (unfold K; lia).
  destruct (Z.lt_ge_cases dn (DayFromYear (y0 + 1))) as [Hlt|Hge].
  - apply (year_search_down dn _ y0 (Z.to_nat K)); [lia|exact Hlt|].
    rewrite Z2Nat.id by lia. exact Hlo.
  - pose proof (DayFromYear_mono y0 (y0 + 1) ltac:(lia)).
    apply (year_search_up dn _ y0 (Z.to_nat K)); [lia|lia|].
    rewrite Z2Nat.id by lia. lia.
Qed.

Lemma YearFromDay_unique dn y :
  DayFromYear y <= dn < DayFromYear (y + 1) → YearFromDay dn = y.
Proof.
  intros H. pose proof (YearFromDay_spec dn) as Hs.
  destruct (Z.lt_trichotomy (YearFromDay dn) y) as [Hlt|[Heq|Hgt]];
    [|exact Heq|].
  - pose proof (DayFromYear_mono (YearFromDay dn + 1) y ltac:(lia)). lia.
  - pose proof (DayFromYear_mono (y + 1) (YearFromDay dn) ltac:(lia)). lia.
Qed.

Lemma Day_mul dn : Day (dn * msPerDay) = dn.
Proof. unfold Day. apply Z.div_mul. discriminate. Qed.

Lemma Day_MakeDate dn ms : 0 <= ms < msPerDay → Day (MakeDate dn ms) = dn.
Proof.
  intros H. unfold Day, MakeDate.
  rewrite Z.add_comm, Z.div_add by discriminate.
  rewrite Z.div_small by assumption. reflexivity.
Qed.

Lemma DayWithinYear_bounds t :
  0 <= DayWithinYear t < DaysInYear (YearFromTime t).
Proof.
  unfold DayWithinYear, YearFromTime.
  pose proof (YearFromDay_spec (Day t)) as H.
  rewrite DayFromYear_succ in H. lia.
Qed.

Lemma InLeapYear_DaysInYear t :
  DaysInYear (YearFromTime t) = 365 + InLeapYear t ∧ 0 <= InLeapYear t <= 1.
Proof. unfold InLeapYear, DaysInYear. destruct (isLeap _); lia. Qed.

Lemma month_cases mn :
  0 <= mn <= 11 →
  mn = 0 ∨ mn = 1 ∨ mn = 2 ∨ mn = 3 ∨ mn = 4 ∨ mn = 5 ∨
  mn = 6 ∨ mn = 7 ∨ mn = 8 ∨ mn = 9 ∨ mn = 10 ∨ mn = 11.
Proof. lia. Qed.

Lemma MonthFromTime_bounds t : 0 <= MonthFromTime t <= 11.
Proof.
  unfold MonthFromTime. cbv zeta.
  repeat match goal with
  | |- context [if ?c then _ else _] => destruct c
  end; lia.
Qed.

Lemma DateFromTime_bounds t : 1 <= DateFromTime t <= 31.
Proof.
  pose proof (DayWithinYear_bounds t) as Hd.
  pose proof (InLeapYear_DaysInYear t) as [Hy Hl]. rewrite Hy in Hd.
  unfold DateFromTime, MonthFromTime. cbv zeta.
  repeat match goal with
  | |- context [Z.ltb ?a ?b] => destruct (Z.ltb_spec a b)
  end; cbn [month_start]; lia.
Qed.

(** The fields of a time value lead back to its day number. *)
Lemma MakeDay_fields t :
  MakeDay (YearFromTime t) (MonthFromTime t) (DateFromTime t) = Day t.
Proof.
  pose proof (MonthFromTime_bounds t) as Hm.
  unfold MakeDay. cbv zeta.
  rewrite Z.div_small, Z.mod_small, Z.add_0_r by lia.
  unfold DateFromTime, DayWithinYear, InLeapYear. lia.
Qed.

(** The fields of the day made from year [y], month [mn] (0 based) and a
    day [d] of that month. *)
Lemma fields_MakeDay y mn d ms :
  0 <= mn <= 11 → 1 <= d <= EditPatientPage.days_in_month y (mn + 1) →
  0 <= ms < msPerDay →
  let t := MakeDate (MakeDay y mn d) ms in
  YearFromTime t = y ∧ MonthFromTime t = mn ∧ DateFromTime t = d.
Proof.
  intros Hm Hd Hms t.
  assert (Hday : Day t = MakeDay y mn d) by now apply Day_MakeDate.
  assert (Hmk : MakeDay y mn d =
                DayFromYear y + month_start mn (if isLeap y then 1 else 0) + d - 1).
  { unfold MakeDay. cbv zeta.
    now rewrite Z.div_small, Z.mod_small, Z.add_0_r by lia. }
  pose proof (month_cases mn Hm) as Hcases.
  assert (Hy : YearFromTime t = y).
  { unfold YearFromTime. rewrite Hday, Hmk. apply YearFromDay_unique.
    rewrite DayFromYear_succ. unfold DaysInYear.
    unfold EditPatientPage.days_in_month in Hd.
    destruct (isLeap y);
      destruct Hcases as [->|[->|[->|[->|[->|[->|[->|[->|[->|[->|[->| ->]]]]]]]]]]];
      cbv [Z.add Pos.add Pos.succ Pos.add_carry] in Hd; cbn [month_start]; lia. }
  assert (Hw : DayWithinYear t =
               month_start mn (if isLeap y then 1 else 0) + d - 1).
  { unfold DayWithinYear. rewrite Hy, Hday, Hmk. lia. }
  assert (Hl : InLeapYear t = if isLeap y then 1 else 0).
  { unfold InLeapYear. now rewrite Hy. }
  assert (Hmo : MonthFromTime t = mn).
  { unfold MonthFromTime. cbv zeta. rewrite Hw, Hl.
    unfold EditPatientPage.days_in_month in Hd.
    destruct (isLeap y);
      destruct Hcases as [->|[->|[->|[->|[->|[->|[->|[->|[->|[->|[->| ->]]]]]]]]]]];
      cbv [Z.add Pos.add Pos.succ Pos.add_carry] in Hd; cbn [month_start];
      repeat match goal with
      | |- context [Z.ltb ?a ?b] => destruct (Z.ltb_spec a b); try lia
      end; reflexivity. }
  split; [exact Hy|]. split; [exact Hmo|].
  unfold DateFromTime. rewrite Hmo, Hw, Hl. lia.
Qed.

Lemma time_fields t :
  MakeDate (Day t)
    (MakeTime (HourFromTime t) (MinFromTime t) (SecFromTime t) (msFromTime t)) = t.
Proof.
  unfold MakeDate, MakeTime, Day, HourFromTime, MinFromTime, SecFromTime,
    msFromTime, msPerDay, msPerHour, msPerMinute, msPerSecond.
  change 86400000 with (1000 * 60 * 60 * 24).
  change 3600000 with (1000 * 60 * 60).
  change 60000 with (1000 * 60).
  rewrite <- !Z.div_div by lia.
  pose proof (Z.div_mod t 1000 ltac:(lia)).
  pose proof (Z.div_mod (t / 1000) 60 ltac:(lia)).
  pose proof (Z.div_mod (t / 1000 / 60) 60 ltac:(lia)).
  pose proof (Z.div_mod (t / 1000 / 60 / 60) 24 ltac:(lia)).
  lia.
Qed.

Lemma YearFromDay_bounds dn a b :
  DayFromYear a <= dn < DayFromYear b → a <= YearFromDay dn < b.
Proof.
  intros H. pose proof (YearFromDay_spec dn) as Hs.
  split.
  - destruct (Z.le_gt_cases a (YearFromDay dn)) as [|Hlt]; [assumption|].
    pose proof (DayFromYear_mono (YearFromDay dn + 1) a ltac:(lia)). lia.
  - destruct (Z.lt_ge_cases (YearFromDay dn) b) as [|Hge]; [assumption|].
    pose proof (DayFromYear_mono b (YearFromDay dn) ltac:(lia)). lia.
Qed.

End CalendarFacts.

(** ** Parsing and formatting dates *)

Module DateFacts.
Import Js JsDate EditPatientPage Examples Checks JsFacts CalendarFacts.

Lemma read_digits_app a : ∀ b acc s,
  read_digits (a + b) acc s =
  match read_digits a acc s with
  | Some (v, r) => read_digits b v r
  | None => None
  end.
Proof.
  induction a as [|a IH]; intros b acc s; [reflexivity|].
  cbn [Nat.add read_digits]. destruct s as [|c r]; [reflexivity|].
  destruct (is_digit c); [apply IH|reflexivity].
Qed.

Lemma read_fixed_digits w : ∀ n acc rest,
  0 <= n < 10 ^ Z.of_nat w →
  read_digits w acc (fixed_digits w n +:+ rest) =
  Some (acc * 10 ^ Z.of_nat w + n, rest).
Proof.
  induction w as [|w IH]; intros n acc rest Hn.
  - change (10 ^ Z.of_nat 0) with 1 in *. cbn [fixed_digits read_digits].
    rewrite append_nil_l. f_equal. f_equal. lia.
  - replace (S w) with (w + 1)%nat at 1 by lia.
    rewrite read_digits_app. cbn [fixed_digits].
    rewrite append_assoc, append_cons, append_nil_l.
    assert (Hpow : 10 ^ Z.of_nat (S w) = 10 * 10 ^ Z.of_nat w).
    { rewrite Nat2Z.inj_succ, Z.pow_succ_r by lia. reflexivity. }
    assert (Hq : 0 <= n / 10 < 10 ^ Z.of_nat w).
    { split; [apply Z.div_pos; lia|]. apply Z.div_lt_upper_bound; lia. }
    assert (Hr : 0 <= n mod 10 < 10) by (apply Z.mod_pos_bound; lia).
    rewrite (IH (n / 10) acc _ Hq).
    cbn [read_digits]. rewrite is_digit_digit_char, digit_val_digit_char by lia.
    f_equal. f_equal. rewrite Hpow.
    pose proof (Z.div_mod n 10 ltac:(lia)). lia.
Qed.

Lemma read_field w n rest :
  0 <= n < 10 ^ Z.of_nat w →
  read_digits w 0 (fixed_digits w n +:+ rest) = Some (n, rest).
Proof. intros H. rewrite read_fixed_digits by assumption. f_equal. Qed.

Lemma in_range_ok lo hi v : lo <= v <= hi → in_range lo hi v = Some tt.
Proof.
  intros H. unfold in_range.
  destruct (Z.leb_spec lo v); [|lia]. destruct (Z.leb_spec v hi); [|lia].
  reflexivity.
Qed.

Lemma TimeClip_ok t : Z.abs t <= 8640000000000000 → TimeClip t = Some t.
Proof.
  intros H. unfold TimeClip.
  destruct (Z.gtb_spec (Z.abs t) 8640000000000000); [lia|reflexivity].
Qed.

Lemma expect_cons c r : expect c (String c r) = Some r.
Proof. cbn [expect]. now rewrite Ascii.eqb_refl. Qed.

Lemma read_field2 n rest :
  0 <= n <= 99 → read_digits 2 0 (fixed_digits 2 n +:+ rest) = Some (n, rest).
Proof. intros H. apply read_field. change (10 ^ Z.of_nat 2) with 100. lia. Qed.

Lemma read_field3 n rest :
  0 <= n <= 999 → read_digits 3 0 (fixed_digits 3 n +:+ rest) = Some (n, rest).
Proof. intros H. apply read_field. change (10 ^ Z.of_nat 3) with 1000. lia. Qed.

Lemma read_field4 n rest :
  0 <= n <= 9999 → read_digits 4 0 (fixed_digits 4 n +:+ rest) = Some (n, rest).
Proof. intros H. apply read_field. change (10 ^ Z.of_nat 4) with 10000. lia. Qed.

Lemma year_time_bounds t :
  0 <= YearFromTime t <= 9999 → Z.abs t <= 8640000000000000.
Proof.
  intros Hy. unfold YearFromTime in Hy.
  pose proof (YearFromDay_spec (Day t)) as Hs.
  pose proof (DayFromYear_mono 0 (YearFromDay (Day t)) ltac:(lia)) as H0.
  pose proof (DayFromYear_mono (YearFromDay (Day t) + 1) 10000 ltac:(lia)) as H1.
  change (DayFromYear 0) with (-719528) in H0.
  change (DayFromYear 10000) with 2932897 in H1.
  unfold Day, msPerDay in *.
  pose proof (Z.div_mod t 86400000 ltac:(lia)).
  pose proof (Z.mod_pos_bound t 86400000 ltac:(lia)).
  lia.
Qed.

Lemma read_year_fixed y rest :
  0 <= y <= 9999 → read_year (fixed_digits 4 y +:+ rest) = Some (y, rest).
Proof.
  intros Hy. pose proof (all_digits_fixed 4 y) as Hd.
  pose proof (read_field4 y rest Hy) as Hr.
  destruct (fixed_digits 4 y) as [|c r] eqn:E.
  - apply (f_equal String.length) in E. discriminate E.
  - cbn [all_digits] in Hd. apply andb_true_iff in Hd as [Hc _].
    destruct (digit_not_special c Hc) as (_ & Hm & Hp & _).
    rewrite append_cons in *. unfold read_year. now rewrite Hp, Hm.
Qed.

(** A time value in a year that prints with four digits is read back from
    its ISO text, in every zone. *)
Lemma Date_parse_toISOString zone t :
  0 <= YearFromTime t <= 9999 → Date_parse zone (toISOString t) = Some t.
Proof.
  intros Hy.
  pose proof (MonthFromTime_bounds t) as Hm.
  pose proof (DateFromTime_bounds t) as Hd.
  assert (Hh : 0 <= HourFromTime t < 24) by (apply Z.mod_pos_bound; lia).
  assert (Hmi : 0 <= MinFromTime t < 60) by (apply Z.mod_pos_bound; lia).
  assert (Hs : 0 <= SecFromTime t < 60) by (apply Z.mod_pos_bound; lia).
  assert (Hms : 0 <= msFromTime t < 1000) by (apply Z.mod_pos_bound; reflexivity).
  unfold toISOString, iso_year, Date_parse.
  destruct (Z.leb_spec 0 (YearFromTime t)); [|lia].
  destruct (Z.leb_spec (YearFromTime t) 9999); [|lia].
  cbn [andb].
  rewrite read_year_fixed by lia. cbn [mbind option_bind].
  unfold read_month_day.
  rewrite append_cons, append_nil_l, expect_cons, read_field2 by lia.
  cbn [mbind option_bind].
  rewrite append_cons, append_nil_l, expect_cons, read_field2 by lia.
  cbn [mbind option_bind].
  unfold read_time.
  rewrite append_cons, append_nil_l, expect_cons, read_field2 by lia.
  cbn [mbind option_bind].
  rewrite append_cons, append_nil_l, expect_cons. cbn [mbind option_bind].
  rewrite read_field2 by lia. cbn [mbind option_bind].
  rewrite append_cons, append_nil_l, expect_cons, read_field2 by lia.
  cbn [mbind option_bind].
  rewrite append_cons, append_nil_l, expect_cons, read_field3 by lia.
  cbn [mbind option_bind].
  rewrite !in_range_ok by lia. cbn [mbind option_bind].
  destruct (Z.eqb_spec (HourFromTime t) 24); [lia|]. cbn [andb].
  cbn [read_offset Ascii.eqb Bool.eqb str_falsy mbind option_bind].
  rewrite Z.add_simpl_r, MakeDay_fields, time_fields, Z.sub_0_r.
  apply TimeClip_ok. now apply year_time_bounds.
Qed.

Lemma MakeDay_in_year y mn d :
  0 <= mn <= 11 → 1 <= d <= days_in_month y (mn + 1) →
  DayFromYear y <= MakeDay y mn d < DayFromYear (y + 1).
Proof.
  intros Hm Hd.
  pose proof (fields_MakeDay y mn d 0 Hm Hd ltac:(unfold msPerDay; lia)) as [Hy _].
  cbv zeta in Hy. unfold YearFromTime in Hy.
  rewrite Day_MakeDate in Hy by (unfold msPerDay; lia).
  pose proof (YearFromDay_spec (MakeDay y mn d)) as Hs.
  now rewrite Hy in Hs.
Qed.

(** Any day number from 1 to 31 in any month stays within the year. *)
Lemma MakeDay_any_day y mn d :
  0 <= mn <= 11 → 1 <= d <= 31 →
  DayFromYear y <= MakeDay y mn d < DayFromYear (y + 1).
Proof.
  intros Hm Hd. unfold MakeDay. cbv zeta.
  rewrite Z.div_small, Z.mod_small, Z.add_0_r, DayFromYear_succ by lia.
  unfold DaysInYear.
  pose proof (month_cases mn Hm) as Hcases.
  destruct (isLeap y);
    destruct Hcases as [->|[->|[->|[->|[->|[->|[->|[->|[->|[->|[->| ->]]]]]]]]]]];
    cbn [month_start]; lia.
Qed.

Lemma days_in_month_max y m : days_in_month y m <= 31.
Proof.
  unfold days_in_month.
  repeat match goal with
  | |- context [match ?x with _ => _ end] => destruct x
  end; lia.
Qed.

Lemma toISOString_truthy t : str_falsy (toISOString t) = false.
Proof.
  unfold toISOString. rewrite (append_cons "-"). apply str_falsy_append_cons.
Qed.

Lemma Day_shift dn tza :
  Z.abs tza <= msPerDay → dn - 1 <= Day (dn * msPerDay - tza) <= dn + 1.
Proof. unfold Day, msPerDay. intros H. Z.div_mod_to_equations; lia. Qed.

Section LocalZone.

Variable zone : Zone.
Hypothesis zone_bound : within_a_day zone.

(** What [formatDate] prints for the ISO text of an instant in a
    four-digit year: the calendar fields of its local time. *)
Lemma formatDate_toISOString t :
  0 <= YearFromTime t <= 9999 →
  formatDate zone (Some (toISOString t)) =
  padStart2 (Number_toString (Some (MonthFromTime (LocalTime zone t) + 1)))
  +:+ "/" +:+
  padStart2 (Number_toString (Some (DateFromTime (LocalTime zone t))))
  +:+ "/" +:+
  Number_toString (Some (YearFromTime (LocalTime zone t))).
Proof.
  intros Hy. unfold formatDate.
  rewrite toISOString_truthy, Date_parse_toISOString by assumption.
  reflexivity.
Qed.

(** The instant of local midnight of a day between 1900 and 2100 lies in
    a four-digit year, whatever the zone. *)
Lemma midnight_year dn :
  DayFromYear 1900 <= dn < DayFromYear 2101 →
  0 <= YearFromTime (UTC zone (MakeDate dn (MakeTime 0 0 0 0))) <= 9999.
Proof.
  intros H. unfold UTC, MakeDate, YearFromTime.
  change (MakeTime 0 0 0 0) with 0. rewrite Z.add_0_r.
  pose proof (Day_shift dn _ (zone_bound (dn * msPerDay) false)) as Hs.
  change (DayFromYear 1900) with (-25567) in H.
  change (DayFromYear 2101) with 47847 in H.
  pose proof (YearFromDay_bounds
                (Day (dn * msPerDay - zone (dn * msPerDay) false)) 1899 2102) as Hb.
  change (DayFromYear 1899) with (-25932) in Hb.
  change (DayFromYear 2102) with 48212 in Hb.
  lia.
Qed.

Lemma midnight_clip dn :
  DayFromYear 1900 <= dn < DayFromYear 2101 →
  TimeClip (UTC zone (MakeDate dn (MakeTime 0 0 0 0))) =
  Some (UTC zone (MakeDate dn (MakeTime 0 0 0 0))).
Proof.
  intros H. apply TimeClip_ok, year_time_bounds. now apply midnight_year.
Qed.

(** [parseDate] on a display text whose numbers pass the range tests:
    any day from 1 to 31 is taken, whether the month has it or not. *)
Lemma parseDate_in_range m d y :
  1 <= m <= 12 → 1 <= d <= 31 → 1900 <= y <= 2100 →
  parseDate zone (mmddyyyy m d y) =
  Some (toISOString
          (UTC zone (MakeDate (MakeDay y (m - 1) d) (MakeTime 0 0 0 0)))).
Proof.
  intros Hm Hd Hy.
  unfold parseDate, mmddyyyy.
  rewrite !(append_cons "/"), !append_nil_l.
  rewrite str_falsy_append_cons.
  rewrite !split_digits_cons, split_digits_last by apply all_digits_fixed.
  cbn [nth_or_undefined nth].
  rewrite (parseInt_fixed 1 m) by (change (10 ^ Z.of_nat 2) with 100; lia).
  rewrite (parseInt_fixed 1 d) by (change (10 ^ Z.of_nat 2) with 100; lia).
  rewrite (parseInt_fixed 3 y) by (change (10 ^ Z.of_nat 4) with 10000; lia).
  destruct (Z.ltb_spec m 1); [lia|]. destruct (Z.gtb_spec m 12); [lia|].
  destruct (Z.ltb_spec d 1); [lia|]. destruct (Z.gtb_spec d 31); [lia|].
  destruct (Z.ltb_spec y 1900); [lia|]. destruct (Z.gtb_spec y 2100); [lia|].
  cbn [orb]. unfold Date_of_components.
  destruct (Z.leb_spec y 99); [lia|]. rewrite andb_false_r.
  rewrite midnight_clip; [reflexivity|].
  pose proof (MakeDay_any_day y (m - 1) d ltac:(lia) Hd) as Hin.
  pose proof (DayFromYear_mono 1900 y ltac:(lia)).
  pose proof (DayFromYear_mono (y + 1) 2101 ltac:(lia)).
  lia.
Qed.

End LocalZone.

(** What [parseDate] does with a text whose three pieces read as the
    numbers [m], [d] and [y]. *)
Lemma parseDate_numbers zone s a b c rest m d y :
  str_falsy s = false →
  split "/" s = a :: b :: c :: rest →
  parseInt a = Some m → parseInt b = Some d → parseInt c = Some y →
  parseDate zone s =
  if (m <? 1) || (m >? 12) || (d <? 1) || (d >? 31) || (y <? 1900) || (y >? 2100)
  then None
  else toISOString <$> Date_of_components zone y (m - 1) d.
Proof.
  intros Hs Hsplit Ha Hb Hc. unfold parseDate.
  rewrite Hs, Hsplit. cbn [nth_or_undefined nth]. rewrite Ha, Hb, Hc.
  destruct (m <? 1), (m >? 12), (d <? 1), (d >? 31), (y <? 1900), (y >? 2100);
    cbn [orb]; try reflexivity;
    now destruct (Date_of_components zone y (m - 1) d).
Qed.

(** The range tests of [parseDate] do reject: a month outside 1..12, a
    day outside 1..31 or a year outside 1900..2100 gives [null]. *)
Lemma parseDate_out_of_range zone s a b c rest m d y :
  str_falsy s = false →
  split "/" s = a :: b :: c :: rest →
  parseInt a = Some m → parseInt b = Some d → parseInt c = Some y →
  m < 1 ∨ 12 < m ∨ d < 1 ∨ 31 < d ∨ y < 1900 ∨ 2100 < y →
  parseDate zone s = None.
Proof.
  intros Hs Hsplit Ha Hb Hc Hout.
  rewrite (parseDate_numbers zone s a b c rest m d y) by assumption.
  destruct (Z.ltb_spec m 1), (Z.gtb_spec m 12), (Z.ltb_spec d 1),
    (Z.gtb_spec d 31), (Z.ltb_spec y 1900), (Z.gtb_spec y 2100);
    cbn [orb]; try reflexivity; lia.
Qed.

(** The offsets of the example zones are a day at most. *)
Ltac zone_bounded :=
  intros ? [|]; unfold central, apia, fixed_zone, msPerDay;
  repeat match goal with
  | |- context [if ?b then _ else _] => destruct b
  end; lia.

(** C1, at its failing inputs: when the month is in 1..12, the year in
    1900..2100 and the day is at most 31 but past the end of that month
    (such as 02/30/2024), [parseDate] does not return [null], in any time
    zone. The day overflows into the next month: the result is the ISO
    text of local midnight of that later day. *)
Theorem parseDate_accepts_missing_day zone m d y :
  within_a_day zone →
  1 <= m <= 12 → days_in_month y m < d <= 31 → 1900 <= y <= 2100 →
  parseDate zone (mmddyyyy m d y) =
  Some (toISOString
          (UTC zone (MakeDate (MakeDay y (m - 1) d) (MakeTime 0 0 0 0)))).
Proof.
  intros Htz Hm Hd Hy. apply parseDate_in_range; try assumption.
  assert (28 <= days_in_month y m).
  { unfold days_in_month.
    repeat match goal with
    | |- context [match ?x with _ => _ end] => destruct x
    end; lia. }
  lia.
Qed.

(** In the Central zone, 02/30/2024 is taken and comes back as 1 March. *)
Lemma parseDate_accepts_missing_day_witness :
  parseDate central "02/30/2024" = Some "2024-03-01T06:00:00.000Z" ∧
  formatDate central (Some "2024-03-01T06:00:00.000Z") = "03/01/2024".
Proof.
  split; [|reflexivity].
  apply (parseDate_accepts_missing_day central 2 30 2024).
  - zone_bounded.
  - lia.
  - change (days_in_month 2024 2) with 29. lia.
  - lia.
Defined.

(** C2, amended. For a real calendar date with month in 1..12, a day of
    that month and a year in 1900..2100, [parseDate] turns its
    [MM/DD/YYYY] text into an ISO text, and [formatDate] turns that ISO
    text back into the original text, provided the zone did not skip the
    day: the offset in force at the instant that [parseDate] returns is
    ahead of the offset by which local midnight was read by less than a
    day (by nothing where the zone has no transition at that midnight). *)
Theorem parseDate_formatDate_roundtrip zone m d y :
  within_a_day zone →
  1 <= m <= 12 → 1 <= d <= days_in_month y m → 1900 <= y <= 2100 →
  let midnight := MakeDate (MakeDay y (m - 1) d) (MakeTime 0 0 0 0) in
  0 <= zone (UTC zone midnight) true - zone midnight false < msPerDay →
  ∃ iso, parseDate zone (mmddyyyy m d y) = Some iso ∧
         formatDate zone (Some iso) = mmddyyyy m d y.
Proof.
  intros Htz Hm Hd Hy midnight Hskip.
  pose proof (days_in_month_max y m) as Hd31.
  eexists. split; [apply parseDate_in_range; [assumption|lia..]|].
  assert (Hd' : 1 <= d <= days_in_month y (m - 1 + 1))
    by now replace (m - 1 + 1) with m by lia.
  pose proof (MakeDay_in_year y (m - 1) d ltac:(lia) Hd') as Hin.
  pose proof (DayFromYear_mono 1900 y ltac:(lia)).
  pose proof (DayFromYear_mono (y + 1) 2101 ltac:(lia)).
  fold midnight.
  rewrite (formatDate_toISOString zone)
    by (apply (midnight_year zone Htz); lia).
  set (ahead := zone (UTC zone midnight) true - zone midnight false) in *.
  replace (LocalTime zone (UTC zone midnight))
    with (MakeDate (MakeDay y (m - 1) d) ahead)
    by (unfold LocalTime, ahead, UTC, midnight, MakeDate;
        change (MakeTime 0 0 0 0) with 0; lia).
  pose proof (fields_MakeDay y (m - 1) d ahead ltac:(lia) Hd' Hskip)
    as (Hfy & Hfm & Hfd).
  cbv zeta in Hfy, Hfm, Hfd. rewrite Hfy, Hfm, Hfd.
  replace (m - 1 + 1) with m by lia.
  rewrite !toString_two_digits, toString_year by lia.
  reflexivity.
Qed.

(** The leap day of 2024 in the Central zone, and the day in 2024 whose
    local midnight lies in daylight time for the first time. *)
Lemma parseDate_formatDate_roundtrip_witness :
  (∃ iso, parseDate central "02/29/2024" = Some iso ∧
          formatDate central (Some iso) = "02/29/2024") ∧
  (∃ iso, parseDate central "03/11/2024" = Some iso ∧
          formatDate central (Some iso) = "03/11/2024").
Proof.
  split.
  - apply (parseDate_formatDate_roundtrip central 2 29 2024).
    + zone_bounded.
    + lia.
    + change (days_in_month 2024 2) with 29. lia.
    + lia.
    + vm_compute. split; congruence.
  - apply (parseDate_formatDate_roundtrip central 3 11 2024).
    + zone_bounded.
    + lia.
    + change (days_in_month 2024 3) with 31. lia.
    + lia.
    + vm_compute. split; congruence.
Defined.

(** C2, as stated, fails in a zone that skipped the day: in Pacific/Apia
    the valid date 12/30/2011 comes back as 12/31/2011. *)
Lemma parseDate_formatDate_skipped_day :
  1 <= 30 <= days_in_month 2011 12 ∧
  parseDate apia "12/30/2011" = Some "2011-12-30T10:00:00.000Z" ∧
  formatDate apia (Some "2011-12-30T10:00:00.000Z") = "12/31/2011".
Proof. vm_compute. repeat split; congruence. Qed.

End DateFacts.

(** ** The input masks of the patient edit page *)

Module PageFacts.
Import Js EditPatientPage Checks JsFacts.

Lemma strip_non_digits_append a b :
  strip_non_digits (a +:+ b) = strip_non_digits a +:+ strip_non_digits b.
Proof.
  induction a as [|c a IH]; [reflexivity|].
  rewrite append_cons. cbn [strip_non_digits].
  destruct (is_digit c); [rewrite append_cons|]; now rewrite IH.
Qed.

Lemma strip_non_digits_digits s : all_digits s = true → strip_non_digits s = s.
Proof.
  induction s as [|c s IH]; [reflexivity|]. cbn [all_digits strip_non_digits].
  intros [Hc Hs]%andb_true_iff. rewrite Hc. now rewrite IH.
Qed.

Lemma all_digits_strip s : all_digits (strip_non_digits s) = true.
Proof.
  induction s as [|c s IH]; [reflexivity|]. cbn [strip_non_digits].
  destruct (is_digit c) eqn:E; [|exact IH]. cbn [all_digits]. now rewrite E.
Qed.

Lemma take_drop n : ∀ s, take n s +:+ drop n s = s.
Proof.
  induction n as [|n IH]; intros [|c s]; try reflexivity.
  cbn [take drop]. rewrite append_cons. now rewrite IH.
Qed.

Lemma take_all n : ∀ s, (String.length s <= n)%nat → take n s = s.
Proof.
  induction n as [|n IH]; intros [|c s] H; try reflexivity.
  - cbn in H. lia.
  - cbn [take]. rewrite IH; [reflexivity|]. cbn in H. lia.
Qed.

Lemma drop_drop a : ∀ b s, drop a (drop b s) = drop (b + a) s.
Proof.
  intros b. revert a. induction b as [|b IH]; intros a s.
  - reflexivity.
  - destruct s as [|c s]; cbn [drop Nat.add]; [now destruct a|apply IH].
Qed.

Lemma drop_0 s : drop 0 s = s.
Proof. reflexivity. Qed.

Lemma length_drop n : ∀ s, String.length (drop n s) = (String.length s - n)%nat.
Proof.
  induction n as [|n IH]; intros [|c s]; cbn [drop String.length]; try lia.
  apply IH.
Qed.

Lemma all_digits_take n : ∀ s, all_digits s = true → all_digits (take n s) = true.
Proof.
  induction n as [|n IH]; intros [|c s]; try reflexivity.
  cbn [take all_digits]. intros [Hc Hs]%andb_true_iff. now rewrite Hc, IH.
Qed.

Lemma all_digits_drop n : ∀ s, all_digits s = true → all_digits (drop n s) = true.
Proof.
  induction n as [|n IH]; intros [|c s]; try reflexivity; try (intros H; exact H).
  cbn [drop all_digits]. intros [Hc Hs]%andb_true_iff. now apply IH.
Qed.

(** The phone number of at most ten digits is recovered from its display
    form. *)
Lemma formatPhoneNumber_strip digits :
  all_digits digits = true → (String.length digits <= 10)%nat →
  strip_non_digits (formatPhoneNumber digits) = digits.
Proof.
  intros Hd Hlen. unfold formatPhoneNumber.
  rewrite (strip_non_digits_digits digits Hd).
  destruct (Nat.leb_spec (String.length digits) 3) as [H3|H3];
    [now apply strip_non_digits_digits|].
  unfold slice, slice_from. cbn [Nat.sub]. rewrite drop_0.
  destruct (Nat.leb_spec (String.length digits) 6) as [H6|H6].
  - rewrite !strip_non_digits_append.
    change (strip_non_digits "(") with "". change (strip_non_digits ") ") with "".
    rewrite !strip_non_digits_digits by auto using all_digits_take, all_digits_drop.
    rewrite !append_nil_l. apply take_drop.
  - rewrite !strip_non_digits_append.
    change (strip_non_digits "(") with "". change (strip_non_digits ") ") with "".
    change (strip_non_digits "-") with "".
    rewrite !strip_non_digits_digits by auto using all_digits_take, all_digits_drop.
    rewrite !append_nil_l.
    rewrite (take_all 4 (drop 6 digits)) by (rewrite length_drop; lia).
    replace (drop 6 digits) with (drop 3 (drop 3 digits)) by now rewrite drop_drop.
    now rewrite !take_drop.
Qed.

Lemma formatPhoneNumber_short digits :
  all_digits digits = true → (String.length digits <= 3)%nat →
  formatPhoneNumber digits = digits.
Proof.
  intros Hd Hlen. unfold formatPhoneNumber.
  rewrite (strip_non_digits_digits digits Hd).
  now destruct (Nat.leb_spec (String.length digits) 3); [|lia].
Qed.

Lemma formatPhoneNumber_full digits :
  all_digits digits = true → (6 < String.length digits)%nat →
  formatPhoneNumber digits =
  phone_display (slice 0 3 digits) (slice 3 6 digits) (slice 6 10 digits).
Proof.
  intros Hd Hlen. unfold formatPhoneNumber.
  rewrite (strip_non_digits_digits digits Hd).
  destruct (Nat.leb_spec (String.length digits) 3); [lia|].
  destruct (Nat.leb_spec (String.length digits) 6); [lia|].
  reflexivity.
Qed.

(** Case analysis on the first [n] characters of [s], dropping the cases
    that the length hypotheses exclude. *)
Ltac peel n s :=
  lazymatch n with
  | O => idtac
  | S ?k =>
      destruct s as [|? s]; cbn [String.length] in *;
      [try lia | try lia; peel k s]
  end.

Lemma formatPhoneNumber_truncates digits more :
  all_digits digits = true → all_digits more = true →
  (3 < String.length digits)%nat →
  String.length (digits +:+ more) = 10%nat →
  ∃ rest, formatPhoneNumber (digits +:+ more) = formatPhoneNumber digits +:+ rest.
Proof.
  intros Hd Hm H3 H10. unfold formatPhoneNumber.
  rewrite !strip_non_digits_digits
    by (rewrite ?all_digits_append, ?Hd, ?Hm; reflexivity).
  rewrite length_append in *. clear Hd Hm.
  peel 11%nat digits; rewrite ?append_cons, ?append_nil_l in *;
    peel 7%nat more; eexists; cbv; reflexivity.
Qed.

(** C3. For a text of at most ten digits, removing the non-digits from
    what [formatPhoneNumber] shows gives the digits back; ten digits are
    shown as [(XXX) XXX-XXXX]; more than three digits are shown as an
    initial part of the display of any ten digits they begin; up to three
    digits are shown as they are. *)
Theorem formatPhoneNumber_display digits :
  all_digits digits = true → (String.length digits <= 10)%nat →
  strip_non_digits (formatPhoneNumber digits) = digits ∧
  (String.length digits = 10%nat →
   formatPhoneNumber digits =
   phone_display (slice 0 3 digits) (slice 3 6 digits) (slice 6 10 digits)) ∧
  ((3 < String.length digits)%nat →
   ∀ more, all_digits more = true →
     String.length (digits +:+ more) = 10%nat →
     ∃ rest,
       formatPhoneNumber (digits +:+ more) = formatPhoneNumber digits +:+ rest) ∧
  ((String.length digits <= 3)%nat → formatPhoneNumber digits = digits).
Proof.
  intros Hd Hlen. split; [now apply formatPhoneNumber_strip|].
  split; [intros H; apply formatPhoneNumber_full; [assumption|lia]|].
  split; [intros H more Hm H10; now apply formatPhoneNumber_truncates|].
  now apply formatPhoneNumber_short.
Qed.

(** A full number. *)
Lemma formatPhoneNumber_display_witness :
  strip_non_digits (formatPhoneNumber "5045551234") = "5045551234" ∧
  formatPhoneNumber "5045551234" = "(504) 555-1234".
Proof.
  destruct (formatPhoneNumber_display "5045551234") as (H1 & H2 & _);
    [reflexivity|cbn; lia|].
  split; [exact H1|]. now apply H2.
Defined.

Lemma all_digits_numbers value :
  all_digits (slice 0 8 (strip_non_digits value)) = true.
Proof. unfold slice. apply all_digits_take, all_digits_drop, all_digits_strip. Qed.

Lemma num_gt_clamp text bound (clamped : string) :
  parseInt clamped = Some bound →
  num_gt (parseInt (if num_gt (parseInt text) bound then clamped else text)) bound
  = false.
Proof.
  intros Hc. destruct (num_gt (parseInt text) bound) eqn:E; [|exact E].
  rewrite Hc. cbn [num_gt]. destruct (Z.gtb_spec bound bound); [lia|reflexivity].
Qed.

Lemma all_digits_clamp text bound (clamped : string) :
  all_digits clamped = true → all_digits text = true →
  all_digits (if num_gt (parseInt text) bound then clamped else text) = true.
Proof. intros Hc Ht. now destruct (num_gt _ _). Qed.

(** The shape of what the date mask emits, by number of digits typed. *)
Lemma mask_date_shape value :
  let numbers := slice 0 8 (strip_non_digits value) in
  let month := if num_gt (parseInt (slice 0 2 numbers)) 12 then "12"
               else slice 0 2 numbers in
  let day := if num_gt (parseInt (slice 2 4 numbers)) 31 then "31"
             else slice 2 4 numbers in
  mask_date value =
  if Nat.leb (String.length numbers) 2 then numbers
  else if Nat.leb (String.length numbers) 4 then
    month +:+ "/" +:+ slice_from 2 numbers
  else month +:+ "/" +:+ day +:+ "/" +:+ slice 4 8 numbers.
Proof.
  cbv zeta. unfold mask_date.
  set (numbers := slice 0 8 (strip_non_digits value)).
  destruct (Nat.leb_spec (String.length numbers) 2) as [H2|H2]; [reflexivity|].
  destruct (Nat.leb_spec (String.length numbers) 4) as [H4|H4].
  - now destruct (num_gt (parseInt (slice 0 2 numbers)) 12).
  - assert (Hy : str_falsy (slice 4 8 numbers) = false).
    { unfold slice. cbn [Nat.sub].
      destruct (drop 4 numbers) as [|c r] eqn:E; [|reflexivity].
      apply (f_equal String.length) in E. rewrite length_drop in E.
      cbn [String.length] in E. lia. }
    rewrite Hy.
    destruct (num_gt (parseInt (slice 0 2 numbers)) 12),
      (num_gt (parseInt (slice 2 4 numbers)) 31);
      rewrite ?append_assoc, ?append_cons, ?append_nil_l; reflexivity.
Qed.

Lemma handleChange_lookup name value prev :
  handleChange name value prev !! name = Some (formattedValue name value).
Proof. unfold handleChange. apply lookup_insert_eq. Qed.

Lemma handleChange_lookup_other name value prev other :
  other ≠ name → handleChange name value prev !! other = prev !! other.
Proof. intros H. unfold handleChange. now apply lookup_insert_ne. Qed.

(** C9 as stated fails: two typed digits are put into the field as they
    are, so the field can show month 13; and with four digits typed the day
    is not looked at, so the field can show day 99. *)
Lemma handleChange_emits_out_of_calendar :
  handleChange "dateOfBirth" "13" ∅ !! "dateOfBirth" = Some "13" ∧
  ¬ within_calendar (formattedValue "dateOfBirth" "13") ∧
  handleChange "dateOfBirth" "12/99" ∅ !! "dateOfBirth" = Some "12/99" ∧
  ¬ within_calendar (formattedValue "dateOfBirth" "12/99").
Proof.
  repeat split; try apply handleChange_lookup;
    intros [Hm Hd]; vm_compute in Hm, Hd; discriminate.
Qed.

(** C9, amended. In a date field, with [numbers] the first eight digits
    of the input: up to two digits are shown as typed; from three digits on
    the month piece is the typed month, or "12" when that exceeds 12, so
    no month above 12 is shown; with three or four digits the day piece is
    what was typed; from five digits on the day piece is the typed day, or
    "31" when that exceeds 31, so neither bound is exceeded. *)
Theorem handleChange_date_mask name value :
  is_date_field name = true →
  let numbers := slice 0 8 (strip_non_digits value) in
  let typed_month := slice 0 2 numbers in
  let typed_day := slice 2 4 numbers in
  let out := formattedValue name value in
  ((String.length numbers <= 2)%nat → out = numbers) ∧
  ((2 < String.length numbers)%nat →
     nth_or_undefined 0 (split "/" out) =
       (if num_gt (parseInt typed_month) 12 then "12" else typed_month) ∧
     num_gt (month_component out) 12 = false) ∧
  ((2 < String.length numbers <= 4)%nat →
     nth_or_undefined 1 (split "/" out) = slice_from 2 numbers) ∧
  ((4 < String.length numbers)%nat →
     nth_or_undefined 1 (split "/" out) =
       (if num_gt (parseInt typed_day) 31 then "31" else typed_day) ∧
     within_calendar out).
Proof.
  intros Hname. cbv zeta. unfold formattedValue. rewrite Hname.
  rewrite mask_date_shape. cbv zeta.
  pose proof (all_digits_numbers value) as Hn.
  set (numbers := slice 0 8 (strip_non_digits value)) in *.
  assert (Hmo : all_digits (slice 0 2 numbers) = true)
    by (unfold slice; now apply all_digits_take, all_digits_drop).
  assert (Hda : all_digits (slice 2 4 numbers) = true)
    by (unfold slice; now apply all_digits_take, all_digits_drop).
  assert (Hre : all_digits (slice_from 2 numbers) = true)
    by (unfold slice_from; now apply all_digits_drop).
  assert (Hye : all_digits (slice 4 8 numbers) = true)
    by (unfold slice; now apply all_digits_take, all_digits_drop).
  pose proof (all_digits_clamp (slice 0 2 numbers) 12 "12" eq_refl Hmo) as Hm'.
  pose proof (all_digits_clamp (slice 2 4 numbers) 31 "31" eq_refl Hda) as Hd'.
  repeat split.
  - intros H. now destruct (Nat.leb_spec (String.length numbers) 2); [|lia].
  - destruct (Nat.leb_spec (String.length numbers) 2); [lia|].
    destruct (Nat.leb (String.length numbers) 4);
      rewrite (append_cons "/"), append_nil_l, split_digits_cons by assumption;
      reflexivity.
  - unfold month_component.
    destruct (Nat.leb_spec (String.length numbers) 2); [lia|].
    destruct (Nat.leb (String.length numbers) 4);
      rewrite (append_cons "/"), append_nil_l, split_digits_cons by assumption;
      cbn [nth_or_undefined nth]; now apply num_gt_clamp.
  - destruct (Nat.leb_spec (String.length numbers) 2); [lia|].
    destruct (Nat.leb_spec (String.length numbers) 4); [|lia].
    rewrite (append_cons "/"), append_nil_l, split_digits_cons by assumption.
    now rewrite split_digits_last by assumption.
  - destruct (Nat.leb_spec (String.length numbers) 2); [lia|].
    destruct (Nat.leb_spec (String.length numbers) 4); [lia|].
    rewrite !(append_cons "/"), !append_nil_l, !split_digits_cons by assumption.
    reflexivity.
  - unfold month_component.
    destruct (Nat.leb_spec (String.length numbers) 2); [lia|].
    destruct (Nat.leb_spec (String.length numbers) 4); [lia|].
    rewrite !(append_cons "/"), !append_nil_l, !split_digits_cons by assumption.
    cbn [nth_or_undefined nth]. now apply num_gt_clamp.
  - unfold day_component.
    destruct (Nat.leb_spec (String.length numbers) 2); [lia|].
    destruct (Nat.leb_spec (String.length numbers) 4); [lia|].
    rewrite !(append_cons "/"), !append_nil_l, !split_digits_cons by assumption.
    now apply num_gt_clamp.
Qed.


(** Month 13 and day 45 are shown as 12 and 31. *)
Lemma handleChange_date_mask_witness :
  nth_or_undefined 1 (split "/" (formattedValue "doidol" "13/45/2020")) = "31" ∧
  within_calendar (formattedValue "doidol" "13/45/2020").
Proof.
  destruct (handleChange_date_mask "doidol" "13/45/2020" eq_refl)
    as (_ & _ & _ & H).
  apply H. vm_compute. lia.
Defined.

End PageFacts.

(** ** The attorney handlers *)

Module AttorneyFacts.
Import Js Api AttorneysRoute Examples.

Lemma str_falsy_false s : s ≠ "" → str_falsy s = false.
Proof. now destruct s. Qed.

Section Handlers.

Variable env : Env.

(** *** [PUT]: the credential gate *)

Lemma PUT_no_credential fault req db id :
  put_id req = Some id → id ≠ "" → str_truthy (put_bearer req) = false →
  PUT env fault req db = (message 401 "Unauthorized", db).
Proof.
  intros Hid Hne Htok. unfold PUT, PUT_try. rewrite Hid, (str_falsy_false id Hne).
  destruct (put_bearer req) as [token|]; [|reflexivity].
  cbn [str_truthy] in Htok. apply negb_false_iff in Htok. now rewrite Htok.
Qed.

(** Any credential gets the answer of no credential: the role is read off
    the promise, never off the verified claims. *)
Lemma PUT_any_credential fault req db id token :
  put_id req = Some id → id ≠ "" → put_bearer req = Some token →
  PUT env fault req db = (message 401 "Unauthorized", db).
Proof.
  intros Hid Hne Htok. unfold PUT, PUT_try.
  rewrite Hid, (str_falsy_false id Hne), Htok.
  now destruct (str_falsy token).
Qed.

(** *** [DELETE]: the credential gate *)

Lemma DELETE_no_credential fault req db id :
  del_id req = Some id → id ≠ "" → str_truthy (del_cookie_token req) = false →
  DELETE env fault req db = (message 401 "Unauthorized", db).
Proof.
  intros Hid Hne Htok. unfold DELETE, DELETE_try.
  rewrite Hid, (str_falsy_false id Hne).
  destruct (del_cookie_token req) as [token|]; [|reflexivity].
  cbn [str_truthy] in Htok. apply negb_false_iff in Htok. now rewrite Htok.
Qed.

Lemma DELETE_forbidden fault req db id token payload attorney :
  del_id req = Some id → id ≠ "" →
  del_cookie_token req = Some token → token ≠ "" →
  jwtVerify env token = Ok payload →
  attorneys db !! id = Some attorney →
  is_admin payload = false → is_owner payload attorney = false →
  DELETE env fault req db = (message 403 "Unauthorized", db).
Proof.
  intros Hid Hne Htok Htne Hv Ha Hadm Hown. unfold DELETE, DELETE_try.
  rewrite Hid, (str_falsy_false id Hne), Htok, (str_falsy_false token Htne), Hv.
  cbn [mbind result_bind]. rewrite Ha. now rewrite Hadm, Hown.
Qed.

Lemma DELETE_allowed fault req db id token payload attorney :
  del_id req = Some id → id ≠ "" →
  del_cookie_token req = Some token → token ≠ "" →
  jwtVerify env token = Ok payload →
  attorneys db !! id = Some attorney →
  is_admin payload || is_owner payload attorney = true →
  DELETE env fault req db =
  match transaction fault (DELETE_transaction env id attorney) db with
  | Ok (_, db') => (message 200 "Attorney deleted successfully", db')
  | Throw _ => (message 500 "Failed to delete attorney", db)
  end.
Proof.
  intros Hid Hne Htok Htne Hv Ha Hok. unfold DELETE, DELETE_try.
  rewrite Hid, (str_falsy_false id Hne), Htok, (str_falsy_false token Htne), Hv.
  cbn [mbind result_bind]. rewrite Ha, <- negb_orb, Hok. cbn [negb].
  destruct (transaction fault (DELETE_transaction env id attorney) db)
    as [[[] db']|e]; reflexivity.
Qed.

(** *** [DELETE]: the cascade *)

Lemma DELETE_transaction_Ok id attorney db r :
  attorneys db !! id = Some attorney →
  DELETE_transaction env id attorney db = Ok r →
  is_Some (users db !! userId attorney) ∧
  r = (tt, mkDb (delete (userId attorney) (users db)) (delete id (attorneys db))
             (filter (λ kv, attorneyId kv.2 ≠ id) (caseManagers db))).
Proof.
  intros Ha. unfold DELETE_transaction. cbn [attorneys users caseManagers].
  rewrite Ha. cbn [mbind result_bind attorneys users caseManagers].
  destruct (users db !! userId attorney) as [u|] eqn:Hu;
    cbn [mbind result_bind]; [|discriminate].
  intros [= <-]. split; [eauto|reflexivity].
Qed.

Lemma DELETE_status_200 fault req db resp db' :
  DELETE env fault req db = (resp, db') → status resp = 200 →
  ∃ id attorney,
    del_id req = Some id ∧ attorneys db !! id = Some attorney ∧
    transaction fault (DELETE_transaction env id attorney) db = Ok (tt, db').
Proof.
  unfold DELETE, DELETE_try. intros H Hst.
  destruct (del_id req) as [id|]; [|injection H as <- <-; discriminate Hst].
  destruct (str_falsy id); [injection H as <- <-; discriminate Hst|].
  destruct (del_cookie_token req) as [token|];
    [|injection H as <- <-; discriminate Hst].
  destruct (str_falsy token); [injection H as <- <-; discriminate Hst|].
  destruct (jwtVerify env token) as [payload|e]; cbn [mbind result_bind] in H;
    [|injection H as <- <-; discriminate Hst].
  destruct (attorneys db !! id) as [attorney|] eqn:Ha;
    [|injection H as <- <-; discriminate Hst].
  destruct (negb _ && negb _); [injection H as <- <-; discriminate Hst|].
  exists id, attorney.
  destruct (transaction fault (DELETE_transaction env id attorney) db)
    as [[[] db1]|e]; cbn [mbind result_bind] in H;
    [|injection H as <- <-; discriminate Hst].
  injection H as <- <-. auto.
Qed.

Lemma DELETE_not_200 fault req db resp db' :
  DELETE env fault req db = (resp, db') → status resp ≠ 200 → db' = db.
Proof.
  unfold DELETE, DELETE_try. intros H Hst.
  destruct (del_id req) as [id|]; [|now injection H as <- <-].
  destruct (str_falsy id); [now injection H as <- <-|].
  destruct (del_cookie_token req) as [token|]; [|now injection H as <- <-].
  destruct (str_falsy token); [now injection H as <- <-|].
  destruct (jwtVerify env token) as [payload|e]; cbn [mbind result_bind] in H;
    [|now injection H as <- <-].
  destruct (attorneys db !! id) as [attorney|]; [|now injection H as <- <-].
  destruct (negb _ && negb _); [now injection H as <- <-|].
  destruct (transaction fault (DELETE_transaction env id attorney) db)
    as [[[] db1]|e]; cbn [mbind result_bind] in H; injection H as <- <-;
    [now contradict Hst|reflexivity].
Qed.

(** C5. When [DELETE] answers 200, the attorney row, every case manager
    row that references it and the linked user row are gone, the rest is as
    before, and no case manager row references the deleted attorney; with
    any other answer the stored state is unchanged. *)
Theorem DELETE_cascade fault req db resp db' :
  DELETE env fault req db = (resp, db') →
  (status resp = 200 →
   ∃ id attorney,
     del_id req = Some id ∧ attorneys db !! id = Some attorney ∧
     attorneys db' = delete id (attorneys db) ∧
     users db' = delete (userId attorney) (users db) ∧
     caseManagers db' = filter (λ kv, attorneyId kv.2 ≠ id) (caseManagers db) ∧
     attorneys db' !! id = None ∧
     users db' !! userId attorney = None ∧
     (∀ k cm, caseManagers db' !! k = Some cm → attorneyId cm ≠ id)) ∧
  (status resp ≠ 200 → db' = db).
Proof.
  intros H. split; [|now apply (DELETE_not_200 fault req)].
  intros Hst.
  destruct (DELETE_status_200 fault req db resp db' H Hst)
    as (id & attorney & Hid & Ha & Htx).
  exists id, attorney. unfold transaction in Htx.
  destruct fault; [discriminate|].
  destruct (DELETE_transaction_Ok id attorney db _ Ha Htx) as [_ [= ->]].
  cbn [attorneys users caseManagers].
  repeat split; try assumption; try reflexivity.
  - apply lookup_delete_eq.
  - apply lookup_delete_eq.
  - intros k cm Hk. apply map_lookup_filter_Some in Hk as [_ Hne]. exact Hne.
Qed.

(** *** [PUT]: the password *)

(** C6, at its failing inputs. A [PUT] by an administrator (a token that
    verifies, with the role ADMIN) on an existing attorney, with a
    non-empty password in the payload, is answered 401 and changes
    nothing: the stored password of the linked user is not rehashed and
    the profile is not updated. The role is read off the promise that
    [jwtVerify] returns, which has none, so the transaction of lines 255
    to 276 is never reached. *)
Theorem PUT_password_not_updated fault req db id token payload data p attorney u :
  put_id req = Some id → id ≠ "" →
  put_bearer req = Some token → token ≠ "" →
  jwtVerify env token = Ok payload → jwt_role payload = Some "ADMIN" →
  put_json req = Ok data → data !! "password" = Some (JStr p) → p ≠ "" →
  attorneys db !! id = Some attorney → users db !! userId attorney = Some u →
  PUT env fault req db = (message 401 "Unauthorized", db) ∧
  users (PUT env fault req db).2 !! userId attorney = Some u ∧
  attorneys (PUT env fault req db).2 !! id = Some attorney.
Proof.
  intros Hid Hne Htok _ _ _ _ _ _ Ha Hu.
  rewrite (PUT_any_credential fault req db id token Hid Hne Htok).
  auto.
Qed.

(** C7, amended. Whatever the [try] block of [POST] throws, nothing is
    stored, and the answer is: for a uniqueness violation (P2002), status
    400 with a fixed text about the e-mail address, whatever the storage
    message was; for another known storage error, status 400 with its
    message after "Database error: "; for another error, status 500 with
    the message of the error; for a thrown value that is no error, status
    500 with a fixed text. *)
Theorem POST_error_responses fault body db e :
  POST_try env fault body db = Throw e →
  (∀ msg, e = PrismaKnown "P2002" msg →
     POST env fault body db =
     (message 400
        "A unique constraint violation occurred. The email may already be registered.",
      db)) ∧
  (∀ code msg, e = PrismaKnown code msg → code ≠ "P2002" →
     POST env fault body db = (message 400 ("Database error: " +:+ msg), db)) ∧
  (∀ msg, e = JsError msg → POST env fault body db = (message 500 msg, db)) ∧
  (e = NonError →
     POST env fault body db = (message 500 "Error creating attorney", db)).
Proof.
  intros H. unfold POST. rewrite H. repeat split.
  - now intros msg ->.
  - intros code msg -> Hne. cbn [POST_catch].
    now destruct (String.eqb_spec code "P2002").
  - now intros msg ->.
  - now intros ->.
Qed.

(** What the storage layer raises while the transaction of [POST] runs is
    what the [try] block throws, once the request has passed the checks
    before the transaction. *)
Lemma email_unused_filter em db :
  email_unused em db →
  filter (λ kv : string * User, user_email kv.2 = em) (users db) = ∅.
Proof.
  intros Hfree. apply map_empty. intros k.
  apply map_lookup_filter_None. right. intros u Hk. now apply (Hfree k u).
Qed.

(** *** [POST] against the models of the schema *)

Lemma object_lookup_other props k :
  Forall (λ kv : string * option json, kv.1 ≠ k) props → object props !! k = None.
Proof.
  induction 1 as [|[k' [v|]] props Hne _ IH]; cbn [object];
    [apply lookup_empty| |exact IH].
  cbn [fst] in Hne. now rewrite lookup_insert_ne.
Qed.

(** The [data] that [POST] hands to [user.create] has no [createdAt],
    which [model User] requires: the generated client refuses it, before
    it looks at the values. *)
Lemma user_create_refused email name role password db :
  user_create env
    (object [("email", email); ("name", name); ("role", role);
             ("password", password)]) db
  = prisma_validation env.
Proof.
  unfold user_create, create_accepts, columns_given, User_columns.
  cbn [forallb col_required col_name negb orb andb].
  rewrite object_lookup_other by (repeat constructor; discriminate).
  rewrite bool_decide_eq_false_2 by (intros [? [=]]).
  cbn [andb]. now rewrite andb_false_r.
Qed.

(** The transaction of [POST] throws for every body: where hashing the
    password does not throw, [user.create] does. *)
Lemma POST_transaction_throws b db :
  ∃ msg, POST_transaction env b db = Throw (JsError msg) ∧
         (fields b !! "hasLogin" = None → msg = validation_message env).
Proof.
  unfold POST_transaction.
  destruct (fields b !! "hasLogin") as [login|] eqn:El.
  - destruct (truthy (Some login) && truthy (fields b !! "password")).
    + destruct (fields b !! "password") as [[| | |p]|];
        cbn [hash_password mbind result_bind];
        try (eexists; split; [reflexivity|discriminate]).
      rewrite user_create_refused. eexists. split; [reflexivity|discriminate].
    + cbn [mbind result_bind]. rewrite user_create_refused.
      eexists. split; [reflexivity|discriminate].
  - cbn [truthy andb mbind result_bind]. rewrite user_create_refused.
    eexists. split; reflexivity.
Qed.

(** [POST] stores nothing and answers 400 or 500 with a message, whatever
    the request. *)
Lemma POST_never_creates fault body db :
  ∃ st text,
    POST env fault body db = (message st text, db) ∧ (st = 400 ∨ st = 500).
Proof.
  assert (Hcatch : ∀ e, ∃ st text,
             POST_catch e = message st text ∧ (st = 400 ∨ st = 500)).
  { intros [code msg| |]; cbn [POST_catch];
      [destruct (String.eqb code "P2002")|..]; eauto. }
  assert (Hthrow : ∀ e, ∃ st text,
             (POST_catch e, db) = (message st text, db) ∧ (st = 400 ∨ st = 500)).
  { intros e. destruct (Hcatch e) as (st & text & -> & H). eauto. }
  unfold POST, POST_try.
  destruct body as [b|e]; cbn [mbind result_bind]; [|apply Hthrow].
  destruct (negb (truthy (fields b !! "name")) || negb (truthy (fields b !! "email")));
    [eauto|].
  destruct (truthy (fields b !! "hasLogin") && negb (truthy (fields b !! "password")));
    [eauto|].
  destruct (user_findUnique_email env (fields b !! "email") db) as [[found|]|e];
    cbn [mbind result_bind]; [eauto| |apply Hthrow].
  destruct fault as [e|]; cbn [transaction mbind result_bind]; [apply Hthrow|].
  destruct (POST_transaction_throws b db) as (msg & -> & _).
  cbn [mbind result_bind]. apply Hthrow.
Qed.

(** C8, at its failing inputs. A [POST] whose body gives a name and an
    e-mail address as non-empty texts and no [hasLogin], with the address
    not yet registered and the store working, is answered 500 with the
    message of the generated client, and nothing is stored: neither a user
    nor an attorney row is created. The [data] of [user.create] leaves out
    [createdAt] and [updatedAt], which [model User] of the schema requires
    and gives no default. *)
Theorem POST_creates_nothing b db n em :
  fields b !! "name" = Some (JStr n) → n ≠ "" →
  fields b !! "email" = Some (JStr em) → em ≠ "" →
  fields b !! "hasLogin" = None →
  email_unused em db →
  POST env None (Ok b) db = (message 500 (validation_message env), db).
Proof.
  intros Hn Hne He Hee Hlogin Hfree.
  pose proof (email_unused_filter em db Hfree) as Hempty.
  unfold POST, POST_try. cbn [mbind result_bind].
  rewrite Hn, He. cbn [truthy].
  rewrite (str_falsy_false n Hne), (str_falsy_false em Hee). cbn [negb orb].
  rewrite Hlogin. cbn [truthy andb]. unfold user_findUnique_email.
  rewrite Hempty, map_to_list_empty. cbn [head mbind result_bind transaction].
  destruct (POST_transaction_throws b db) as (msg & -> & Hmsg).
  cbn [mbind result_bind POST_catch]. now rewrite (Hmsg Hlogin).
Qed.

End Handlers.

(** An administrator deletes attorney [a1] of the example deployment. *)
Lemma DELETE_cascade_witness :
  ∃ db',
    DELETE demo_env None (mkDeleteRequest (Some "a1") (Some "admin-token")) demo_db
    = (message 200 "Attorney deleted successfully", db') ∧
    attorneys db' !! "a1" = None ∧ users db' !! "u1" = None ∧
    (∀ k cm, caseManagers db' !! k = Some cm → attorneyId cm ≠ "a1").
Proof.
  destruct (DELETE demo_env None
              (mkDeleteRequest (Some "a1") (Some "admin-token")) demo_db)
    as [resp db'] eqn:E.
  assert (Hr : resp = message 200 "Attorney deleted successfully").
  { apply (f_equal fst) in E. vm_compute in E. now subst resp. }
  subst resp. exists db'. split; [reflexivity|].
  destruct (DELETE_cascade demo_env None _ demo_db _ db' E) as [H _].
  destruct (H eq_refl) as (id & attorney & Hid & Ha & _ & _ & _ & H1 & H2 & H3).
  injection Hid as <-. vm_compute in Ha. injection Ha as <-.
  auto.
Defined.

(** C4, at the failing inputs. The token of the user who owns attorney
    [a1] (role ATTORNEY) verifies, and [PUT] answers 401 where the claim
    lets the owner proceed; the token of a staff member, neither owner nor
    administrator, gets 401 where the claim says 403; the token of an
    administrator gets 401 as well. [DELETE] on the same record lets the
    owner proceed and answers the staff member with 403. *)
Theorem PUT_denies_owner_and_admin :
  demo_jwtVerify "owner-token" = Ok (mkJwtPayload (Some "ATTORNEY") (Some "u1")) ∧
  userId <$> attorneys demo_db !! "a1" = Some "u1" ∧
  PUT demo_env None (demo_put_request "owner-token") demo_db
    = (message 401 "Unauthorized", demo_db) ∧
  PUT demo_env None (demo_put_request "staff-token") demo_db
    = (message 401 "Unauthorized", demo_db) ∧
  PUT demo_env None (demo_put_request "admin-token") demo_db
    = (message 401 "Unauthorized", demo_db) ∧
  status (DELETE demo_env None (demo_delete_request "owner-token") demo_db).1 = 200 ∧
  status (DELETE demo_env None (demo_delete_request "staff-token") demo_db).1 = 403.
Proof.
  split; [reflexivity|]. split; [reflexivity|].
  split; [now apply (PUT_any_credential demo_env None _ demo_db "a1" "owner-token")|].
  split; [now apply (PUT_any_credential demo_env None _ demo_db "a1" "staff-token")|].
  split; [now apply (PUT_any_credential demo_env None _ demo_db "a1" "admin-token")|].
  split; vm_compute; reflexivity.
Qed.

(** The administrator of the example deployment sends a new password for
    attorney [a1]: the answer is 401 and the stored hash of user [u1] is
    the old one. *)
Lemma PUT_password_not_updated_witness :
  PUT demo_env None
    (mkPutRequest (Some "a1") (Some "admin-token") (Ok (demo_put_data "n3w")))
    demo_db
  = (message 401 "Unauthorized", demo_db) ∧
  user_password <$> users demo_db !! "u1" = Some "$2a$10$old".
Proof.
  split; [|reflexivity].
  apply (PUT_password_not_updated demo_env None
           (mkPutRequest (Some "a1") (Some "admin-token") (Ok (demo_put_data "n3w")))
           demo_db "a1" "admin-token" (mkJwtPayload (Some "ADMIN") (Some "u0"))
           (demo_put_data "n3w") "n3w"
           (mkAttorney "u1"
              (<["phone" := JStr "5045550100"]> (<["city" := JStr "Mobile"]>
               (<["createdAt" := JNum 1700000000000]> ∅))))
           (mkUser "ann@x.com" "Ann Lee" "ATTORNEY" "$2a$10$old"));
    first [reflexivity | discriminate].
Defined.

(** C7 as stated fails: an unexpected error comes back with status 500
    and its own message as the text, and a storage error with another code
    than P2002 comes back with status 400 and its raw message appended. *)
Lemma POST_returns_error_text :
  POST demo_env (Some (JsError "connect ECONNREFUSED 10.0.0.5:27017"))
    (Ok demo_post_body) demo_db
  = (message 500 "connect ECONNREFUSED 10.0.0.5:27017", demo_db) ∧
  POST demo_env (Some (PrismaKnown "P2024" "Timed out fetching a connection"))
    (Ok demo_post_body) demo_db
  = (message 400 "Database error: Timed out fetching a connection", demo_db).
Proof. split; vm_compute; reflexivity. Qed.

(** A uniqueness violation raised while the transaction runs. *)
Lemma POST_error_responses_witness :
  POST demo_env
    (Some (PrismaKnown "P2002" "Unique constraint failed on the fields: (email)"))
    (Ok demo_post_body) demo_db
  = (message 400
       "A unique constraint violation occurred. The email may already be registered.",
     demo_db).
Proof.
  destruct (POST_error_responses demo_env
              (Some (PrismaKnown "P2002"
                       "Unique constraint failed on the fields: (email)"))
              (Ok demo_post_body) demo_db
              (PrismaKnown "P2002"
                 "Unique constraint failed on the fields: (email)"))
    as (H & _).
  - vm_compute. reflexivity.
  - now apply (H "Unique constraint failed on the fields: (email)").
Defined.

(** Jane Doe is not created in the example deployment, although its
    generated client takes every value. *)
Lemma POST_creates_nothing_witness :
  POST demo_env None (Ok demo_post_body) demo_db
  = (message 500 "Invalid invocation", demo_db).
Proof.
  apply (POST_creates_nothing demo_env demo_post_body demo_db
           "Jane Doe" "jane@x.com");
    try first [reflexivity | discriminate].
  unfold email_unused. apply (bool_decide_unpack _). vm_compute. exact I.
Defined.

End AttorneyFacts.

(** ** The task handler *)

Module TaskFacts.
Import Js Api TasksRoute Examples.

Lemma truthy_text title :
  text_or_absent title → (truthy title = false ↔ absent_or_empty title).
Proof.
  unfold absent_or_empty.
  destruct title as [[|b|n|s]|]; cbn [text_or_absent truthy]; intros H;
    try contradiction; try (split; [auto|reflexivity]).
  destruct s as [|c s]; cbn [str_falsy negb].
  - split; auto.
  - split; [discriminate|]. intros [H1|[H1|H1]]; discriminate H1.
Qed.

(** The values that [if (!title)] takes for no title. *)
Lemma truthy_falsy_title title : truthy title = false ↔ falsy_title title.
Proof.
  unfold falsy_title. destruct title as [[|[|]|n|s]|]; cbn [truthy].
  - split; auto.
  - split; [discriminate|]. intros [H|[H|[H|[H|H]]]]; discriminate H.
  - split; auto 6.
  - destruct (Z.eqb_spec n 0) as [->|Hn]; cbn [negb].
    + split; auto 6.
    + split; [discriminate|]. intros [H|[H|[H|[H|H]]]]; congruence.
  - destruct s as [|c s]; cbn [str_falsy negb].
    + split; auto 6.
    + split; [discriminate|]. intros [H|[H|[H|[H|H]]]]; discriminate H.
  - split; auto.
Qed.

Section Handlers.

Variable Store : Type.
Variable Task : Type.
Variable task_create : TaskData → Store → result (Task * Store).

Lemma tasks_POST_title_missing user b store :
  truthy (b !! "title") = false →
  POST Store Task task_create (Some user) (Ok b) store
  = (error 400 "Title is required", store).
Proof.
  intros H. unfold POST, POST_try. cbn [mbind result_bind]. now rewrite H.
Qed.

Lemma tasks_POST_title_given user b store :
  truthy (b !! "title") = true →
  POST Store Task task_create (Some user) (Ok b) store =
  match task_create (task_data b) store with
  | Ok (task, store') => (mkResponse 200 (Payload task), store')
  | Throw _ => (error 500 "Internal error", store)
  end.
Proof.
  intros H. unfold POST, POST_try. cbn [mbind result_bind]. rewrite H.
  cbn [negb]. fold (task_data b).
  now destruct (task_create (task_data b) store) as [[task store']|e].
Qed.

(** C10, amended. For an authenticated [POST] with a JSON body, the answer
    has status 400 exactly when the title is falsy: missing, [null], the
    empty text, but also the number 0 or [false]; for a title that is a
    text, [null] or missing this means missing or empty. With any other
    title every field goes to [prisma.task.create] as the body has it,
    whatever it holds and whether it is there or not (the due date wrapped
    in a [Date] when truthy, [null] otherwise), and the answer is 200 with
    the created task, or 500 when the storage call throws. *)
Theorem tasks_POST_validates_title_only user b store :
  let response := (POST Store Task task_create (Some user) (Ok b) store).1 in
  (status response = 400 ↔ falsy_title (b !! "title")) ∧
  (text_or_absent (b !! "title") →
   (status response = 400 ↔ absent_or_empty (b !! "title"))) ∧
  (¬ falsy_title (b !! "title") →
   POST Store Task task_create (Some user) (Ok b) store =
   match
     task_create
       (mkTaskData (b !! "title") (b !! "description") (b !! "status")
          (b !! "priority")
          (if truthy (b !! "dueDate") then b !! "dueDate" else None)
          (b !! "assignedToId"))
       store
   with
   | Ok (task, store') => (mkResponse 200 (Payload task), store')
   | Throw _ => (error 500 "Internal error", store)
   end).
Proof.
  cbv zeta.
  assert (Hiff : status (POST Store Task task_create (Some user) (Ok b) store).1 = 400
                 ↔ truthy (b !! "title") = false).
  { destruct (truthy (b !! "title")) eqn:Ht.
    - rewrite tasks_POST_title_given by exact Ht.
      destruct (task_create (task_data b) store) as [[task store']|e];
        cbn [fst status error]; split; discriminate.
    - rewrite tasks_POST_title_missing by exact Ht. cbn [fst status error]. tauto. }
  split; [now rewrite Hiff, truthy_falsy_title|]. split.
  - intros Htext. rewrite Hiff. now apply truthy_text.
  - intros Hgiven. rewrite tasks_POST_title_given; [reflexivity|].
    destruct (truthy (b !! "title")) eqn:Ht; [reflexivity|].
    now apply truthy_falsy_title in Ht.
Qed.

End Handlers.

(** No title, an empty title, and a title with a priority that is a
    number and a due date that is no date. *)
Lemma tasks_POST_validates_title_only_witness :
  status (POST _ _ demo_task_create (Some "sam@x.com") (Ok ∅) []).1 = 400 ∧
  status (POST _ _ demo_task_create (Some "sam@x.com")
            (Ok (<["title" := JStr ""]> ∅)) []).1 = 400 ∧
  POST _ _ demo_task_create (Some "sam@x.com")
    (Ok (<["title" := JStr "Call payer"]> (<["priority" := JNum 7]>
         (<["dueDate" := JStr "soon"]> ∅)))) []
  = (mkResponse 200
       (Payload (mkTaskData (Some (JStr "Call payer")) None None
                   (Some (JNum 7)) (Some (JStr "soon")) None)),
     [mkTaskData (Some (JStr "Call payer")) None None
        (Some (JNum 7)) (Some (JStr "soon")) None]).
Proof.
  split; [|split].
  - destruct (tasks_POST_validates_title_only _ _ demo_task_create "sam@x.com" ∅ [])
      as (_ & H & _).
    apply H; [exact I|]. now left.
  - destruct (tasks_POST_validates_title_only _ _ demo_task_create "sam@x.com"
                (<["title" := JStr ""]> ∅) []) as (_ & H & _).
    apply H; [exact I|]. right. now right.
  - destruct (tasks_POST_validates_title_only _ _ demo_task_create "sam@x.com"
                (<["title" := JStr "Call payer"]> (<["priority" := JNum 7]>
                 (<["dueDate" := JStr "soon"]> ∅))) []) as (_ & _ & H).
    rewrite H; [reflexivity|].
    intros [F|[F|[F|[F|F]]]]; vm_compute in F; discriminate F.
Defined.

(** C10 as stated fails: a title that is the number 0, or [false], is
    there and is not empty, and the answer is 400. *)
Lemma tasks_POST_rejects_zero_title :
  (<["title" := JNum 0]> ∅ : gmap string json) !! "title" = Some (JNum 0) ∧
  ¬ absent_or_empty (Some (JNum 0)) ∧
  POST _ _ demo_task_create (Some "sam@x.com") (Ok (<["title" := JNum 0]> ∅)) []
  = (error 400 "Title is required", []) ∧
  POST _ _ demo_task_create (Some "sam@x.com")
    (Ok (<["title" := JBool false]> ∅)) []
  = (error 400 "Title is required", []).
Proof.
  split; [reflexivity|]. split; [|split; reflexivity].
  intros [H|[H|H]]; discriminate H.
Qed.

End TaskFacts.

(** ** More on the input masks *)

Module MaskFacts.
Import Js JsDate EditPatientPage PatientForm Examples JsFacts CalendarFacts DateFacts
  PageFacts.

Lemma take_take a : ∀ b s, take a (take b s) = take (Nat.min a b) s.
Proof.
  induction a as [|a IH]; intros [|b] [|c s]; try reflexivity.
  cbn [take Nat.min]. now rewrite IH.
Qed.

Lemma drop_take a : ∀ b s, drop a (take b s) = take (b - a) (drop a s).
Proof.
  induction a as [|a IH]; intros b s.
  - now rewrite Nat.sub_0_r.
  - destruct b as [|b]; [now destruct s|].
    destruct s as [|c s]; [cbn [take drop Nat.sub]; now destruct (b - a)%nat|].
    cbn [take drop Nat.sub]. apply IH.
Qed.

Lemma take_add a : ∀ b s, take (a + b) s = take a s +:+ take b (drop a s).
Proof.
  induction a as [|a IH]; intros b s; [reflexivity|].
  destruct s as [|c s]; [now destruct b|].
  cbn [Nat.add take drop]. rewrite append_cons. now rewrite IH.
Qed.

Lemma take_length_append a b : take (String.length a) (a +:+ b) = a.
Proof.
  induction a as [|x a IH]; [now destruct b|].
  rewrite append_cons. cbn [String.length take]. now rewrite IH.
Qed.

Lemma drop_length_append a b : drop (String.length a) (a +:+ b) = b.
Proof.
  induction a as [|x a IH]; [reflexivity|].
  rewrite append_cons. cbn [String.length drop]. exact IH.
Qed.

Lemma length_take n : ∀ s, String.length (take n s) = Nat.min n (String.length s).
Proof.
  induction n as [|n IH]; intros [|c s]; cbn [take String.length]; try lia.
  rewrite IH. lia.
Qed.

(** *** [formatPhoneNumber] on any input *)

Lemma strip_non_digits_idem v :
  strip_non_digits (strip_non_digits v) = strip_non_digits v.
Proof. apply strip_non_digits_digits, all_digits_strip. Qed.

Lemma formatPhoneNumber_of_digits v :
  formatPhoneNumber v = formatPhoneNumber (strip_non_digits v).
Proof. unfold formatPhoneNumber. now rewrite strip_non_digits_idem. Qed.

(** The digits shown are the first ten digits typed. *)
Lemma formatPhoneNumber_digits v :
  strip_non_digits (formatPhoneNumber v) = take 10 (strip_non_digits v).
Proof.
  rewrite formatPhoneNumber_of_digits.
  pose proof (all_digits_strip v) as Hd.
  set (n := strip_non_digits v) in *.
  destruct (Nat.le_gt_cases (String.length n) 10) as [Hle|Hgt].
  - rewrite formatPhoneNumber_strip by assumption. now rewrite take_all.
  - rewrite formatPhoneNumber_full by (assumption || lia).
    unfold phone_display, slice. cbn [Nat.sub]. rewrite drop_0.
    rewrite !strip_non_digits_append.
    change (strip_non_digits "(") with "". change (strip_non_digits ") ") with "".
    change (strip_non_digits "-") with "".
    rewrite !strip_non_digits_digits by auto using all_digits_take, all_digits_drop.
    rewrite !append_nil_l.
    change 10%nat with (3 + (3 + 4))%nat. rewrite !take_add.
    now rewrite drop_drop.
Qed.

Lemma formatPhoneNumber_take10 n :
  all_digits n = true → formatPhoneNumber (take 10 n) = formatPhoneNumber n.
Proof.
  intros Hd.
  destruct (Nat.le_gt_cases (String.length n) 10) as [Hle|Hgt];
    [now rewrite take_all|].
  rewrite (formatPhoneNumber_full n) by (assumption || lia).
  rewrite formatPhoneNumber_full
    by (auto using all_digits_take; rewrite length_take; lia).
  unfold slice. cbn [Nat.sub]. rewrite !drop_0, !drop_take, !take_take.
  reflexivity.
Qed.

(** X1. Formatting twice is formatting once, and what is shown depends on
    the first ten digits of the input only. *)
Theorem formatPhoneNumber_idempotent v :
  formatPhoneNumber (formatPhoneNumber v) = formatPhoneNumber v ∧
  strip_non_digits (formatPhoneNumber v) = take 10 (strip_non_digits v) ∧
  formatPhoneNumber v = formatPhoneNumber (take 10 (strip_non_digits v)).
Proof.
  assert (H : formatPhoneNumber v = formatPhoneNumber (take 10 (strip_non_digits v))).
  { rewrite formatPhoneNumber_take10 by apply all_digits_strip.
    apply formatPhoneNumber_of_digits. }
  split; [|split; [apply formatPhoneNumber_digits|exact H]].
  rewrite (formatPhoneNumber_of_digits (formatPhoneNumber v)).
  now rewrite formatPhoneNumber_digits.
Qed.

(** *** The date mask on any input *)

Lemma length_clamp text bound (clamped : string) :
  String.length clamped = 2%nat → String.length text = 2%nat →
  String.length (if num_gt (parseInt text) bound then clamped else text) = 2%nat.
Proof. intros Hc Ht. now destruct (num_gt _ _). Qed.

Lemma date_chars_digits s : all_digits s = true → date_chars s = true.
Proof.
  induction s as [|c s IH]; [reflexivity|]. cbn [all_digits date_chars].
  intros [Hc Hs]%andb_true_iff. now rewrite Hc, IH.
Qed.

Lemma date_chars_append a b :
  date_chars (a +:+ b) = date_chars a && date_chars b.
Proof.
  induction a as [|c a IH]; [reflexivity|].
  rewrite append_cons. cbn [date_chars]. now rewrite IH, andb_assoc.
Qed.

(** The digits the mask works on, and the three pieces it cuts them
    into. *)
Lemma mask_numbers value :
  let numbers := slice 0 8 (strip_non_digits value) in
  all_digits numbers = true ∧ (String.length numbers <= 8)%nat ∧
  all_digits (slice 0 2 numbers) = true ∧
  all_digits (slice 2 4 numbers) = true ∧
  all_digits (slice_from 2 numbers) = true ∧
  all_digits (slice 4 8 numbers) = true ∧
  String.length (slice 0 2 numbers) = Nat.min 2 (String.length numbers) ∧
  String.length (slice 2 4 numbers) = Nat.min 2 (String.length numbers - 2) ∧
  String.length (slice_from 2 numbers) = (String.length numbers - 2)%nat ∧
  String.length (slice 4 8 numbers) = Nat.min 4 (String.length numbers - 4).
Proof.
  cbv zeta. pose proof (all_digits_numbers value) as Hn.
  set (numbers := slice 0 8 (strip_non_digits value)) in *.
  assert (Hlen : (String.length numbers <= 8)%nat).
  { unfold numbers, slice. rewrite length_take. lia. }
  unfold slice, slice_from. cbn [Nat.sub]. rewrite ?drop_0.
  rewrite !length_take, !length_drop.
  repeat split; auto using all_digits_take, all_digits_drop.
Qed.

(** The mask leaves a text of at most two digits as it is. *)
Lemma mask_date_short n :
  all_digits n = true → (String.length n <= 2)%nat → mask_date n = n.
Proof.
  intros Hd Hlen. rewrite mask_date_shape. cbv zeta.
  rewrite (strip_non_digits_digits n Hd).
  assert (Hn : slice 0 8 n = n) by (unfold slice; apply take_all; lia).
  rewrite Hn. now destruct (Nat.leb_spec (String.length n) 2); [|lia].
Qed.

(** The mask leaves a month and a started day as they are. *)
Lemma mask_date_month mo rest :
  all_digits mo = true → all_digits rest = true →
  String.length mo = 2%nat → (1 <= String.length rest <= 2)%nat →
  num_gt (parseInt mo) 12 = false →
  mask_date (mo +:+ "/" +:+ rest) = mo +:+ "/" +:+ rest.
Proof.
  intros Hm Hr Hlm Hlr Hgt. rewrite mask_date_shape. cbv zeta.
  rewrite !strip_non_digits_append. change (strip_non_digits "/") with "".
  rewrite append_nil_l, !strip_non_digits_digits by assumption.
  assert (Hn : slice 0 8 (mo +:+ rest) = mo +:+ rest).
  { unfold slice. apply take_all. rewrite length_append. lia. }
  rewrite Hn.
  assert (Hlen : String.length (mo +:+ rest) = (2 + String.length rest)%nat)
    by (rewrite length_append; lia).
  destruct (Nat.leb_spec (String.length (mo +:+ rest)) 2); [lia|].
  destruct (Nat.leb_spec (String.length (mo +:+ rest)) 4); [|lia].
  unfold slice, slice_from. cbn [Nat.sub]. rewrite drop_0, <- Hlm.
  now rewrite take_length_append, drop_length_append, Hgt.
Qed.

(** The mask leaves a month, a day and a started year as they are. *)
Lemma mask_date_full mo da ye :
  all_digits mo = true → all_digits da = true → all_digits ye = true →
  String.length mo = 2%nat → String.length da = 2%nat →
  (1 <= String.length ye <= 4)%nat →
  num_gt (parseInt mo) 12 = false → num_gt (parseInt da) 31 = false →
  mask_date (mo +:+ "/" +:+ da +:+ "/" +:+ ye) = mo +:+ "/" +:+ da +:+ "/" +:+ ye.
Proof.
  intros Hm Hd Hy Hlm Hld Hly Hgm Hgd. rewrite mask_date_shape. cbv zeta.
  rewrite !strip_non_digits_append. change (strip_non_digits "/") with "".
  rewrite !append_nil_l, !strip_non_digits_digits by assumption.
  assert (Hn : slice 0 8 (mo +:+ da +:+ ye) = mo +:+ da +:+ ye).
  { unfold slice. apply take_all. rewrite !length_append. lia. }
  rewrite Hn.
  assert (Hlen : String.length (mo +:+ da +:+ ye) = (4 + String.length ye)%nat)
    by (rewrite !length_append; lia).
  destruct (Nat.leb_spec (String.length (mo +:+ da +:+ ye)) 2); [lia|].
  destruct (Nat.leb_spec (String.length (mo +:+ da +:+ ye)) 4); [lia|].
  assert (H02 : slice 0 2 (mo +:+ da +:+ ye) = mo).
  { unfold slice. cbn [Nat.sub]. rewrite drop_0, <- Hlm.
    apply take_length_append. }
  assert (H2 : drop 2 (mo +:+ da +:+ ye) = da +:+ ye).
  { rewrite <- Hlm. apply drop_length_append. }
  assert (H24 : slice 2 4 (mo +:+ da +:+ ye) = da).
  { unfold slice. cbn [Nat.sub]. rewrite H2, <- Hld. apply take_length_append. }
  assert (H48 : slice 4 8 (mo +:+ da +:+ ye) = ye).
  { unfold slice. cbn [Nat.sub].
    replace (drop 4 (mo +:+ da +:+ ye)) with (drop 2 (drop 2 (mo +:+ da +:+ ye)))
      by now rewrite drop_drop.
    rewrite H2.
    assert (Hdy : drop 2 (da +:+ ye) = ye)
      by (rewrite <- Hld; apply drop_length_append).
    rewrite Hdy. apply take_all. lia. }
  now rewrite H02, H24, H48, Hgm, Hgd.
Qed.

(** X2. The date mask of [handleChange] is idempotent: masking what the
    mask shows gives the same text, for every input. *)
Theorem mask_date_idempotent value :
  mask_date (mask_date value) = mask_date value.
Proof.
  destruct (mask_numbers value)
    as (Hn & Hlen & Hmo & Hda & Hre & Hye & Lmo & Lda & Lre & Lye).
  cbv zeta in *. rewrite (mask_date_shape value). cbv zeta.
  set (numbers := slice 0 8 (strip_non_digits value)) in *.
  destruct (Nat.leb_spec (String.length numbers) 2) as [H2|H2];
    [now apply mask_date_short|].
  pose proof (all_digits_clamp (slice 0 2 numbers) 12 "12" eq_refl Hmo) as Hm'.
  pose proof (length_clamp (slice 0 2 numbers) 12 "12" eq_refl ltac:(lia)) as Lm'.
  pose proof (num_gt_clamp (slice 0 2 numbers) 12 "12" eq_refl) as Gm'.
  destruct (Nat.leb_spec (String.length numbers) 4) as [H4|H4].
  - apply mask_date_month; try assumption. lia.
  - pose proof (all_digits_clamp (slice 2 4 numbers) 31 "31" eq_refl Hda) as Hd'.
    pose proof (length_clamp (slice 2 4 numbers) 31 "31" eq_refl ltac:(lia)) as Ld'.
    pose proof (num_gt_clamp (slice 2 4 numbers) 31 "31" eq_refl) as Gd'.
    apply mask_date_full; try assumption. lia.
Qed.

(** X3. What the mask shows fits the field: at most ten characters, digits
    and separators only, and exactly ten once eight digits are typed. *)
Theorem mask_date_fits value :
  (String.length (mask_date value) <= 10)%nat ∧
  date_chars (mask_date value) = true ∧
  ((8 <= String.length (strip_non_digits value))%nat →
   String.length (mask_date value) = 10%nat).
Proof.
  destruct (mask_numbers value)
    as (Hn & Hlen & Hmo & Hda & Hre & Hye & Lmo & Lda & Lre & Lye).
  cbv zeta in *. rewrite (mask_date_shape value). cbv zeta.
  assert (L8 : String.length (slice 0 8 (strip_non_digits value)) =
               Nat.min 8 (String.length (strip_non_digits value))).
  { unfold slice. cbn [Nat.sub]. now rewrite drop_0, length_take. }
  set (numbers := slice 0 8 (strip_non_digits value)) in *.
  destruct (Nat.leb_spec (String.length numbers) 2) as [H2|H2].
  { split; [lia|]. split; [now apply date_chars_digits|lia]. }
  pose proof (all_digits_clamp (slice 0 2 numbers) 12 "12" eq_refl Hmo) as Hm'.
  pose proof (length_clamp (slice 0 2 numbers) 12 "12" eq_refl ltac:(lia)) as Lm'.
  destruct (Nat.leb_spec (String.length numbers) 4) as [H4|H4].
  - rewrite !length_append, !date_chars_append, Lm', Lre.
    rewrite (date_chars_digits _ Hm'), (date_chars_digits _ Hre).
    cbn [String.length]. split; [lia|]. split; [reflexivity|lia].
  - pose proof (all_digits_clamp (slice 2 4 numbers) 31 "31" eq_refl Hda) as Hd'.
    pose proof (length_clamp (slice 2 4 numbers) 31 "31" eq_refl ltac:(lia)) as Ld'.
    rewrite !length_append, !date_chars_append, Lm', Ld', Lye.
    rewrite (date_chars_digits _ Hm'), (date_chars_digits _ Hd'),
      (date_chars_digits _ Hye).
    cbn [String.length]. split; [lia|]. split; [reflexivity|lia].
Qed.

(** *** Dates through the mask, the parser and the display *)

Lemma Day_near tl tza :
  Z.abs tza <= msPerDay → Day tl - 1 <= Day (tl - tza) <= Day tl + 1.
Proof. unfold Day, msPerDay. intros H. Z.div_mod_to_equations; lia. Qed.

Lemma local_year_range zone t :
  within_a_day zone →
  1900 <= YearFromTime (LocalTime zone t) <= 2100 →
  DayFromYear 1900 <= Day (LocalTime zone t) < DayFromYear 2101 ∧
  0 <= YearFromTime t <= 9999.
Proof.
  intros Htz Hy. unfold YearFromTime in *.
  pose proof (YearFromDay_spec (Day (LocalTime zone t))) as Hs.
  pose proof (DayFromYear_mono 1900 _ (proj1 Hy)) as H0.
  pose proof (DayFromYear_mono (YearFromDay (Day (LocalTime zone t)) + 1) 2101
                ltac:(lia)) as H1.
  split; [lia|].
  pose proof (Day_near (LocalTime zone t) (zone t true) (Htz t true)) as Hn.
  replace (LocalTime zone t - zone t true) with t in Hn by (unfold LocalTime; lia).
  change (DayFromYear 1900) with (-25567) in *.
  change (DayFromYear 2101) with 47847 in *.
  pose proof (YearFromDay_bounds (Day t) 1899 2102) as Hb.
  change (DayFromYear 1899) with (-25932) in Hb.
  change (DayFromYear 2102) with 48212 in Hb.
  lia.
Qed.

(** X4. Showing a stored instant and parsing what is shown gives local
    midnight of the same local day, in every time zone: the day is that of
    the instant by the offset then in force, and its midnight is read by
    the offset of that midnight. *)
Theorem formatDate_then_parseDate zone t :
  within_a_day zone →
  1900 <= YearFromTime (LocalTime zone t) <= 2100 →
  parseDate zone (formatDate zone (Some (toISOString t))) =
  Some (toISOString
          (UTC zone (MakeDate (Day (LocalTime zone t)) (MakeTime 0 0 0 0)))).
Proof.
  intros Htz Hy.
  destruct (local_year_range zone t Htz Hy) as [Hday Hyt].
  rewrite formatDate_toISOString by assumption.
  set (tl := LocalTime zone t) in *.
  pose proof (MonthFromTime_bounds tl) as Hm.
  pose proof (DateFromTime_bounds tl) as Hd.
  rewrite !toString_two_digits, toString_year by lia.
  fold (mmddyyyy (MonthFromTime tl + 1) (DateFromTime tl) (YearFromTime tl)).
  rewrite parseDate_in_range by (assumption || lia).
  now rewrite Z.add_simpl_r, MakeDay_fields.
Qed.

(** In the Central zone, the evening of 3 November 2024, after the clocks
    went back, is shown as 11/03/2024, and that text is read as the
    midnight of that day, which was still in daylight time. *)
Lemma formatDate_then_parseDate_witness :
  formatDate central (Some "2024-11-04T05:30:00.000Z") = "11/03/2024" ∧
  parseDate central (formatDate central (Some "2024-11-04T05:30:00.000Z"))
  = Some "2024-11-03T05:00:00.000Z".
Proof.
  split; [reflexivity|].
  apply (formatDate_then_parseDate central 1730698200000).
  - zone_bounded.
  - vm_compute. split; congruence.
Defined.

Lemma parseInt_clamp text bound (clamped : string) v :
  parseInt clamped = Some bound → parseInt text = Some v →
  parseInt (if num_gt (parseInt text) bound then clamped else text)
  = Some (Z.min v bound).
Proof.
  intros Hc Ht. rewrite Ht. cbn [num_gt].
  destruct (Z.gtb_spec v bound); [rewrite Hc|rewrite Ht]; f_equal; lia.
Qed.

(** X5. What [parseDate] makes of a date typed in full (eight digits)
    through the mask: with month [m], day [d] and year [y] as typed, the
    result is local midnight of day [min d 31] of month [min m 12] of year
    [y], days past the end of the month rolling over, when [m] and [d] are
    at least 1 and [y] is in 1900..2100, and [null] otherwise. *)
Theorem mask_date_then_parseDate zone value m d y :
  within_a_day zone →
  let numbers := slice 0 8 (strip_non_digits value) in
  String.length numbers = 8%nat →
  parseInt (slice 0 2 numbers) = Some m →
  parseInt (slice 2 4 numbers) = Some d →
  parseInt (slice 4 8 numbers) = Some y →
  parseDate zone (mask_date value) =
  if (1 <=? m) && (1 <=? d) && (1900 <=? y) && (y <=? 2100) then
    Some (toISOString
            (UTC zone (MakeDate (MakeDay y (Z.min m 12 - 1) (Z.min d 31))
                        (MakeTime 0 0 0 0))))
  else None.
Proof.
  intros Htz numbers Hlen Hpm Hpd Hpy.
  destruct (mask_numbers value)
    as (Hn & _ & Hmo & Hda & _ & Hye & _ & _ & _ & _).
  cbv zeta in *. fold numbers in Hn, Hmo, Hda, Hye.
  rewrite (mask_date_shape value). cbv zeta. fold numbers. rewrite Hlen.
  cbn [Nat.leb].
  pose proof (all_digits_clamp (slice 0 2 numbers) 12 "12" eq_refl Hmo) as Hm'.
  pose proof (all_digits_clamp (slice 2 4 numbers) 31 "31" eq_refl Hda) as Hd'.
  pose proof (parseInt_clamp (slice 0 2 numbers) 12 "12" m eq_refl Hpm) as Pm'.
  pose proof (parseInt_clamp (slice 2 4 numbers) 31 "31" d eq_refl Hpd) as Pd'.
  set (mo := if num_gt (parseInt (slice 0 2 numbers)) 12 then "12"
             else slice 0 2 numbers) in *.
  set (da := if num_gt (parseInt (slice 2 4 numbers)) 31 then "31"
             else slice 2 4 numbers) in *.
  rewrite (parseDate_numbers zone _ mo da (slice 4 8 numbers) []
             (Z.min m 12) (Z.min d 31) y); try assumption.
  2:{ rewrite (append_cons "/"). apply str_falsy_append_cons. }
  2:{ rewrite !(append_cons "/"), !append_nil_l.
      now rewrite !split_digits_cons, split_digits_last by assumption. }
  destruct (Z.leb_spec 1 m), (Z.leb_spec 1 d), (Z.leb_spec 1900 y),
    (Z.leb_spec y 2100); cbn [andb];
    repeat match goal with
    | |- context [Z.ltb ?a ?b] => destruct (Z.ltb_spec a b); try lia
    | |- context [Z.gtb ?a ?b] => destruct (Z.gtb_spec a b); try lia
    end; cbn [orb]; try reflexivity.
  unfold Date_of_components.
  destruct (Z.leb_spec y 99); [lia|]. rewrite andb_false_r.
  rewrite midnight_clip; [reflexivity|assumption|].
  pose proof (MakeDay_any_day y (Z.min m 12 - 1) (Z.min d 31) ltac:(lia)
                ltac:(lia)) as Hin.
  pose proof (DayFromYear_mono 1900 y ltac:(lia)).
  pose proof (DayFromYear_mono (y + 1) 2101 ltac:(lia)).
  lia.
Qed.

Lemma mask_date_then_parseDate_witness :
  mask_date "02/31/2024" = "02/31/2024" ∧
  parseDate (fixed_zone 0) (mask_date "02/31/2024")
  = Some "2024-03-02T00:00:00.000Z" ∧
  parseDate (fixed_zone 0) (mask_date "00/15/2024") = None.
Proof.
  split; [reflexivity|]. split.
  - apply (mask_date_then_parseDate (fixed_zone 0) "02/31/2024" 2 31 2024);
      [zone_bounded|reflexivity..].
  - apply (mask_date_then_parseDate (fixed_zone 0) "00/15/2024" 0 15 2024);
      [zone_bounded|reflexivity..].
Defined.
End MaskFacts.

(** ** The procedure rows and the submission *)

Module FormFacts.
Import Js Api JsDate EditPatientPage PatientForm Examples MoreExamples JsFacts
  DateFacts.

Lemma filter_other_index_delete {A} index : ∀ i (l : list A),
  filter_other_index index i l =
  if Nat.ltb index i then l else delete (index - i)%nat l.
Proof.
  intros i l. revert i. induction l as [|x l IH]; intros i.
  - now destruct (Nat.ltb index i).
  - cbn [filter_other_index]. rewrite IH.
    destruct (Nat.eqb_spec i index) as [->|Hne].
    + rewrite Nat.sub_diag.
      destruct (Nat.ltb_spec index (S index)); [|lia].
      now destruct (Nat.ltb_spec index index); [lia|].
    + destruct (Nat.ltb_spec index i), (Nat.ltb_spec index (S i));
        try lia; [reflexivity|].
      replace (index - i)%nat with (S (index - S i)) by lia. reflexivity.
Qed.

(** X6. [removeProcedure] takes out the row at the index and nothing else: the
    rows before it stay in place, the rows after it move up by one, and an
    index past the end changes nothing. *)
Theorem removeProcedure_row index form :
  text (removeProcedure index form) = text form ∧
  (∀ j, procedures (removeProcedure index form) !! j =
        procedures form !! (if decide (j < index)%nat then j else S j)) ∧
  ((index < length (procedures form))%nat →
   length (procedures (removeProcedure index form))
   = (length (procedures form) - 1)%nat) ∧
  ((length (procedures form) <= index)%nat → removeProcedure index form = form).
Proof.
  unfold removeProcedure. cbn [text procedures].
  rewrite filter_other_index_delete. cbn [Nat.ltb Nat.leb].
  rewrite Nat.sub_0_r. repeat split.
  - intros j. apply list_lookup_delete.
  - intros H. apply length_delete. now apply lookup_lt_is_Some.
  - intros H. destruct form as [t ps]. cbn [text procedures] in *.
    f_equal. apply list_eq. intros j. rewrite list_lookup_delete.
    case_decide; [reflexivity|].
    rewrite !lookup_ge_None_2 by lia. reflexivity.
Qed.

(** X7. Adding a row and removing the last row gives the form back; the
    added row is the empty one, and with it the form is not complete. *)
Theorem removeProcedure_addProcedure form :
  removeProcedure (length (procedures form)) (addProcedure form) = form ∧
  procedures (addProcedure form) !! length (procedures form) = Some emptyProcedure ∧
  ∀ zone, ¬ submittable zone (addProcedure form).
Proof.
  split; [|split].
  3:{ intros zone (_ & _ & _ & _ & Hrows & _).
      unfold addProcedure in Hrows. cbn [procedures] in Hrows.
      rewrite Forall_app in Hrows. destruct Hrows as [_ Hrow].
      inversion Hrow as [|? ? Hc _]. vm_compute in Hc. discriminate Hc. }
  - destruct form as [t ps]. unfold removeProcedure, addProcedure.
    cbn [text procedures]. f_equal.
    rewrite filter_other_index_delete. cbn [Nat.ltb Nat.leb].
    rewrite Nat.sub_0_r, delete_middle. apply app_nil_r.
  - unfold addProcedure. cbn [procedures]. rewrite lookup_app_r by lia.
    now rewrite Nat.sub_diag.
Qed.

(** X8. [updateProcedure] writes one field of one row: the other rows, the
    other fields of that row, the number of rows and the text fields stay
    as they are, and an index past the end changes nothing. *)
Theorem updateProcedure_row index fld value form :
  text (updateProcedure index fld value form) = text form ∧
  length (procedures (updateProcedure index fld value form))
  = length (procedures form) ∧
  (∀ j, j ≠ index →
        procedures (updateProcedure index fld value form) !! j
        = procedures form !! j) ∧
  (∀ proc, procedures form !! index = Some proc →
     ∃ proc', procedures (updateProcedure index fld value form) !! index
              = Some proc' ∧
              proc' !! fld = Some value ∧
              ∀ other, other ≠ fld → proc' !! other = proc !! other) ∧
  ((length (procedures form) <= index)%nat →
   updateProcedure index fld value form = form).
Proof.
  unfold updateProcedure. cbn [text procedures]. repeat split.
  - apply length_imap.
  - intros j Hne. rewrite list_lookup_imap.
    destruct (Nat.eqb_spec j index); [contradiction|].
    now destruct (procedures form !! j).
  - intros proc Hp. exists (<[fld := value]> proc).
    rewrite list_lookup_imap, Hp, Nat.eqb_refl. cbn [fmap option_fmap option_map].
    split; [reflexivity|]. split; [apply lookup_insert_eq|].
    intros other Hne. now apply lookup_insert_ne.
  - intros H. destruct form as [t ps]. cbn [text procedures] in *.
    f_equal. apply list_eq. intros j. rewrite list_lookup_imap.
    destruct (ps !! j) eqn:Hj; [|reflexivity].
    apply lookup_lt_Some in Hj.
    now destruct (Nat.eqb_spec j index); [lia|].
Qed.

(** *** [handleSubmit] *)

(** No character is white space of two lengths. *)
Lemma space_lengths c d e :
  (is_space c = true → is_space2 c d = false ∧ is_space3 c d e = false) ∧
  (is_space2 c d = true → is_space3 c d e = false).
Proof.
  unfold is_space, is_space2, is_space3.
  destruct c as [[] [] [] [] [] [] [] []]; cbn; split; try discriminate;
    try (intros _; split; reflexivity); try reflexivity;
    intros _; now rewrite ?andb_false_r.
Qed.

Lemma trim_start_empty_upto n : ∀ s,
  (String.length s <= n)%nat → str_falsy (trim_start s) = all_space s.
Proof.
  induction n as [n IH] using lt_wf_ind.
  intros [|c r] Hlen; [reflexivity|]. cbn [String.length] in Hlen.
  cbn [trim_start all_space].
  destruct (is_space c) eqn:E1.
  - rewrite (IH (String.length r)) by lia. cbn [andb].
    destruct (all_space r); [reflexivity|]. cbn [orb].
    destruct r as [|d [|e r3]]; [reflexivity|..];
      destruct (space_lengths c d "000") as [H _];
      destruct (H E1) as [-> _]; [reflexivity|].
    destruct (space_lengths c d e) as [H' _]. now destruct (H' E1) as [_ ->].
  - cbn [andb orb]. destruct r as [|d r2]; [reflexivity|].
    cbn [String.length] in Hlen.
    destruct (is_space2 c d) eqn:E2.
    + rewrite (IH (String.length r2)) by lia. cbn [andb].
      destruct (all_space r2); [reflexivity|]. cbn [orb].
      destruct r2 as [|e r3]; [reflexivity|].
      destruct (space_lengths c d e) as [_ H]. now rewrite (H E2).
    + cbn [andb orb]. destruct r2 as [|e r3]; [reflexivity|].
      cbn [String.length] in Hlen.
      destruct (is_space3 c d e); [|reflexivity].
      rewrite (IH (String.length r3)) by lia. reflexivity.
Qed.

(** A text holds white space only exactly when nothing is left of it once
    the leading white space is taken off. *)
Lemma trim_start_empty s : str_falsy (trim_start s) = all_space s.
Proof. now apply (trim_start_empty_upto (String.length s)). Qed.

Lemma trim_start_idem_upto n : ∀ s,
  (String.length s <= n)%nat → trim_start (trim_start s) = trim_start s.
Proof.
  induction n as [n IH] using lt_wf_ind.
  intros [|c r] Hlen; [reflexivity|]. cbn [String.length] in Hlen.
  cbn [trim_start].
  destruct (is_space c) eqn:E1; [apply (IH (String.length r)); lia|].
  destruct r as [|d r2]; [cbn [trim_start]; now rewrite E1|].
  cbn [String.length] in Hlen.
  destruct (is_space2 c d) eqn:E2; [apply (IH (String.length r2)); lia|].
  destruct r2 as [|e r3]; [cbn [trim_start]; now rewrite E1, E2|].
  cbn [String.length] in Hlen.
  destruct (is_space3 c d e) eqn:E3; [apply (IH (String.length r3)); lia|].
  cbn [trim_start]. now rewrite E1, E2, E3.
Qed.

Lemma trim_end_empty s : str_falsy (trim_end s) = str_falsy (trim_start s).
Proof.
  destruct s as [|c r]; [reflexivity|]. cbn [trim_end].
  now destruct (str_falsy (trim_start (String c r))).
Qed.

(** A text trims to nothing exactly when it holds white space only. *)
Lemma trim_empty s : str_falsy (trim s) = all_space s.
Proof.
  unfold trim. rewrite trim_end_empty.
  rewrite (trim_start_idem_upto (String.length s)) by lia.
  apply trim_start_empty.
Qed.

Lemma parseDate_truthy zone s iso :
  parseDate zone s = Some iso → str_falsy iso = false.
Proof.
  unfold parseDate. intros H.
  repeat match type of H with
  | context [if ?c then _ else _] => destruct c; try discriminate H
  | context [match ?x with _ => _ end] => destruct x; try discriminate H
  end; injection H as <-; apply toISOString_truthy.
Qed.

Lemma parse_text_parseDate zone x : parse_text zone x = parseDate zone x.
Proof. unfold parse_text. now destruct x. Qed.

Section Submit.

Variable zone : Zone.
Variable fetch_ok : Submission → result bool.

(** The branches of [handleSubmit] that show an error and send nothing;
    [refute] derives the contradiction from the form being complete. *)
Ltac rejected refute :=
  cbn [request navigated shown_error];
  split; [split; [intros [? [=]] | intros H; exfalso; refute H]|];
  split; [intros s [=]|];
  split; [split; [discriminate | intros (s & [=] & _)]|];
  split; discriminate.

Lemma str_falsy_ne s : str_falsy s = false ↔ s ≠ "".
Proof. destruct s; cbn [str_falsy]; split; intros; congruence. Qed.

Lemma handleSubmit_checks form :
  str_falsy (trim (field "firstName" form)) ||
  str_falsy (trim (field "lastName" form)) ||
  str_falsy (field "payerId" form) || str_falsy (field "statusId" form) = false ∧
  forallb procedure_complete (procedures form) = true ∧
  str_truthy (parse_text zone (field "dateOfBirth" form)) = true
  ↔ submittable zone form.
Proof.
  unfold submittable. rewrite !orb_false_iff, !trim_empty, !str_falsy_ne.
  rewrite forallb_forall, Forall_forall, parse_text_parseDate.
  setoid_rewrite <- list_elem_of_In.
  assert (Hdob : str_truthy (parseDate zone (field "dateOfBirth" form)) = true
                 ↔ is_Some (parseDate zone (field "dateOfBirth" form))).
  { destruct (parseDate zone (field "dateOfBirth" form)) as [iso|] eqn:E.
    - cbn [str_truthy]. rewrite (parseDate_truthy zone _ iso E).
      split; [eauto|reflexivity].
    - split; [discriminate|]. intros [? [=]]. }
  rewrite Hdob. tauto.
Qed.

(** X9. [handleSubmit] sends a request exactly when the form is complete
    (names not blank, payer and status chosen, every procedure row filled,
    date of birth parsed). The request carries the form with the three
    dates parsed, a date that does not parse going out as [null], and every
    procedure row with its schedule date parsed. The page moves on exactly
    when the request was sent and answered ok, and exactly then no error is
    shown. *)
Theorem handleSubmit_sends form :
  let r := handleSubmit zone fetch_ok form in
  (is_Some (request r) ↔ submittable zone form) ∧
  (∀ s, request r = Some s →
     parseDate zone (field "dateOfBirth" form) = Some (sub_dateOfBirth s) ∧
     sub_doidol s = parseDate zone (field "doidol" form) ∧
     sub_orderDate s = parseDate zone (field "orderDate" form) ∧
     sub_text s = text form ∧
     sub_procedures s =
       (λ proc,
          <["scheduleDate" := opt_json (parse_value zone (proc !! "scheduleDate"))]>
            proc) <$> procedures form) ∧
  (navigated r = true ↔ ∃ s, request r = Some s ∧ fetch_ok s = Ok true) ∧
  (shown_error r = "" ↔ navigated r = true).
Proof.
  cbv zeta. pose proof (handleSubmit_checks form) as Hc.
  unfold handleSubmit.
  destruct (str_falsy (trim (field "firstName" form)) ||
            str_falsy (trim (field "lastName" form)) ||
            str_falsy (field "payerId" form) || str_falsy (field "statusId" form)).
  { rejected ltac:(fun H => apply Hc in H as [[=] _]). }
  destruct (forallb procedure_complete (procedures form)); cbn [negb].
  2:{ rejected ltac:(fun H => apply Hc in H as (_ & [=] & _)). }
  destruct (str_truthy (parse_text zone (field "dateOfBirth" form))) eqn:Hdob;
    cbn [negb].
  2:{ rejected ltac:(fun H => apply Hc in H as (_ & _ & [=])). }
  assert (Hsub : submittable zone form) by now apply Hc.
  rewrite !parse_text_parseDate in *.
  destruct (parseDate zone (field "dateOfBirth" form)) as [iso|] eqn:E;
    [|discriminate Hdob].
  cbn [default].
  match goal with
  | |- context [fetch_ok ?s] => set (sub := s)
  end.
  assert (Hpay : ∀ s, Some sub = Some s →
            Some iso = Some (sub_dateOfBirth s) ∧
            sub_doidol s = parseDate zone (field "doidol" form) ∧
            sub_orderDate s = parseDate zone (field "orderDate" form) ∧
            sub_text s = text form ∧
            sub_procedures s =
              (λ proc,
                 <["scheduleDate" :=
                     opt_json (parse_value zone (proc !! "scheduleDate"))]> proc)
              <$> procedures form).
  { intros s [= <-]. now repeat split. }
  destruct (fetch_ok sub) as [[|]|e] eqn:Hf; cbn [request navigated shown_error].
  - split; [split; [intros _; exact Hsub|intros _; eauto]|].
    split; [exact Hpay|].
    split; [split; [intros _; exists sub; auto|reflexivity]|].
    split; reflexivity.
  - split; [split; [intros _; exact Hsub|intros _; eauto]|].
    split; [exact Hpay|].
    split; [split; [discriminate|intros (s & [= <-] & Hs); congruence]|].
    split; discriminate.
  - split; [split; [intros _; exact Hsub|intros _; eauto]|].
    split; [exact Hpay|].
    split; [split; [discriminate|intros (s & [= <-] & Hs); congruence]|].
    split; discriminate.
Qed.

End Submit.

(** The example form in the Central zone: the date of birth is sent as
    the midnight of the leap day of 1980, the date of injury, whose month
    is 13, as [null], and the schedule date 02/31/2024 as the midnight of
    2 March. A first name that is one no-break space is blank: nothing is
    sent. *)
Lemma handleSubmit_sends_witness :
  (∃ s,
     request (handleSubmit central demo_fetch_ok demo_form) = Some s ∧
     sub_dateOfBirth s = "1980-02-29T06:00:00.000Z" ∧
     sub_doidol s = None ∧ sub_orderDate s = None ∧
     sub_procedures s !! 0%nat ≫= (λ proc, proc !! "scheduleDate")
     = Some (JStr "2024-03-02T06:00:00.000Z") ∧
     navigated (handleSubmit central demo_fetch_ok demo_form) = true) ∧
  request
    (handleSubmit central demo_fetch_ok
       (mkFormData (<["firstName" := no_break_space]> (text demo_form))
          (procedures demo_form)))
  = None.
Proof.
  split.
  - destruct (handleSubmit_sends central demo_fetch_ok demo_form) as (Hsent & _).
    destruct (proj2 Hsent) as [s Hs].
    { repeat split; try (vm_compute; congruence).
      - repeat constructor.
      - vm_compute. eauto. }
    exists s. split; [exact Hs|].
    vm_compute in Hs. injection Hs as <-.
    vm_compute. repeat split; reflexivity.
  - destruct (handleSubmit_sends central demo_fetch_ok
                (mkFormData (<["firstName" := no_break_space]> (text demo_form))
                   (procedures demo_form))) as (Hsent & _).
    destruct (request _) as [s|] eqn:E; [|reflexivity].
    destruct (proj1 Hsent (ex_intro _ s eq_refl)) as (Hblank & _).
    vm_compute in Hblank. discriminate Hblank.
Defined.

End FormFacts.

(** ** The attorney store across requests *)

Module StoreFacts.
Import Js Api AttorneysRoute AttorneysRead Examples MoreExamples JsFacts AttorneyFacts.

Section Handlers.

Variable env : Env.

(** *** [POST] *)


(** X11. [POST] keeps the references between the collections, whatever
    the request and the outcome: if before it every attorney has its user,
    every case manager its attorney, and no two attorneys share a user,
    the same holds after it. *)
Theorem POST_keeps_consistent fault body db :
  db_consistent db → db_consistent (POST env fault body db).2.
Proof.
  intros H.
  now destruct (POST_never_creates env fault body db) as (st & text & -> & _).
Qed.

(** X12. [POST] never succeeds: whatever the request, the stored state
    and the state of the storage layer, it answers 400 or 500 with a
    message, never with an attorney, and it stores nothing. No password,
    hashed or not, and no case manager is ever stored by it. *)
Theorem POST_never_succeeds fault body db :
  (POST env fault body db).2 = db ∧
  (status (POST env fault body db).1 = 400 ∨
   status (POST env fault body db).1 = 500) ∧
  ∃ text, content (POST env fault body db).1 = OneField "message" text.
Proof.
  destruct (POST_never_creates env fault body db) as (st & text & -> & Hst).
  cbn [fst snd status content message]. eauto.
Qed.

(** X15. Whatever the request and the outcome, [POST] leaves what [GET]
    answers for each attorney that was stored before. *)
Theorem POST_keeps_other_attorneys fault body db j :
  is_Some (attorneys db !! j) →
  GET_by_id None j (POST env fault body db).2 = GET_by_id None j db.
Proof.
  intros _.
  now destruct (POST_never_creates env fault body db) as (st & text & -> & _).
Qed.

(** X16. With the storage layer working, a [POST] for an e-mail address
    that a user row has, with a name and with a password if [hasLogin] is
    set, is answered 400 "Email already registered"; nothing is stored. *)
Theorem POST_email_taken b db k u em :
  users db !! k = Some u → user_email u = em →
  fields b !! "email" = Some (JStr em) → em ≠ "" →
  truthy (fields b !! "name") = true →
  truthy (fields b !! "hasLogin") && negb (truthy (fields b !! "password")) = false →
  POST env None (Ok b) db = (message 400 "Email already registered", db).
Proof.
  intros Hk Hu He Hee Hn Hgate. unfold POST, POST_try. cbn [mbind result_bind].
  rewrite Hn, Hgate, He. cbn [truthy]. rewrite (str_falsy_false em Hee).
  cbn [negb orb]. unfold user_findUnique_email.
  destruct (map_to_list (filter (λ kv : string * User, user_email kv.2 = em) (users db)))
    as [|found rest] eqn:El; [|reflexivity].
  apply map_to_list_empty_iff in El.
  assert (Hin : filter (λ kv : string * User, user_email kv.2 = em) (users db) !! k
                = Some u)
    by (apply map_lookup_filter_Some; split; [exact Hk|exact Hu]).
  rewrite El in Hin. now rewrite lookup_empty in Hin.
Qed.

(** *** [DELETE] *)

Lemma DELETE_transaction_run id attorney db :
  attorneys db !! id = Some attorney → is_Some (users db !! userId attorney) →
  DELETE_transaction env id attorney db
  = Ok (tt, mkDb (delete (userId attorney) (users db)) (delete id (attorneys db))
              (filter (λ kv, attorneyId kv.2 ≠ id) (caseManagers db))).
Proof.
  intros Ha [u Hu]. unfold DELETE_transaction. cbn [users attorneys caseManagers].
  rewrite Ha. cbn [mbind result_bind users attorneys caseManagers].
  rewrite Hu. reflexivity.
Qed.

(** What a [DELETE] that answers 200 has done. *)
Lemma DELETE_done fault req db resp db' :
  DELETE env fault req db = (resp, db') → status resp = 200 →
  ∃ id attorney,
    del_id req = Some id ∧ id ≠ "" ∧ attorneys db !! id = Some attorney ∧
    db' = mkDb (delete (userId attorney) (users db)) (delete id (attorneys db))
            (filter (λ kv, attorneyId kv.2 ≠ id) (caseManagers db)).
Proof.
  intros E Hst.
  assert (Hid : ∀ id, del_id req = Some id → id ≠ "").
  { intros id Hid ->. unfold DELETE, DELETE_try in E. rewrite Hid in E.
    cbn [str_falsy] in E. injection E as <- <-. discriminate Hst. }
  destruct (DELETE_status_200 env fault req db resp db' E Hst)
    as (id & attorney & Hreq & Ha & Htx).
  exists id, attorney. split; [exact Hreq|]. split; [now apply Hid|].
  split; [exact Ha|].
  destruct fault as [e|]; [discriminate Htx|]. cbn [transaction] in Htx.
  apply (DELETE_transaction_Ok env id attorney db _ Ha) in Htx as [_ [= ->]].
  reflexivity.
Qed.

(** X17. [DELETE] keeps the references between the collections, whatever
    the request and the outcome: no attorney is left without its user and
    no case manager without its attorney. *)
Theorem DELETE_keeps_consistent fault req db :
  db_consistent db → db_consistent (DELETE env fault req db).2.
Proof.
  intros (Hattorneys & Hmanagers & Hunique).
  destruct (DELETE env fault req db) as [resp db'] eqn:E. cbn [snd].
  destruct (decide (status resp = 200)) as [Hst|Hst].
  2:{ rewrite (DELETE_not_200 env fault req db resp db' E Hst). now split. }
  destruct (DELETE_done fault req db resp db' E Hst)
    as (id & attorney & _ & _ & Ha & ->).
  split; [|split].
  - intros k a Hk. cbn [users attorneys] in *.
    apply lookup_delete_Some in Hk as [Hne Hk].
    destruct (Hattorneys k a Hk) as [u Hu]. exists u.
    rewrite lookup_delete_ne; [exact Hu|].
    intros Heq. apply Hne. now apply (Hunique id k attorney a).
  - intros k cm Hk. cbn [attorneys caseManagers] in *.
    apply map_lookup_filter_Some in Hk as [Hk Hne]. cbn [snd] in Hne.
    destruct (Hmanagers k cm Hk) as [a Hb]. exists a.
    rewrite lookup_delete_ne; [exact Hb|]. congruence.
  - intros i j a c Hi Hj. cbn [attorneys] in *.
    apply lookup_delete_Some in Hi as [_ Hi].
    apply lookup_delete_Some in Hj as [_ Hj].
    now apply Hunique.
Qed.

(** X18. On a store whose attorneys have their users, and with the
    storage layer working, [DELETE] answers 200 exactly when the request
    names an id, carries a token that verifies, the attorney exists, and
    the token is that of an administrator or of the attorney's own
    user. *)
Theorem DELETE_succeeds_iff req db :
  attorneys_linked db →
  status (DELETE env None req db).1 = 200 ↔
  ∃ id token payload attorney,
    del_id req = Some id ∧ id ≠ "" ∧
    del_cookie_token req = Some token ∧ token ≠ "" ∧
    jwtVerify env token = Ok payload ∧
    attorneys db !! id = Some attorney ∧
    (is_admin payload = true ∨ is_owner payload attorney = true).
Proof.
  intros Hlinked. split.
  - unfold DELETE, DELETE_try.
    destruct (del_id req) as [id|]; [|discriminate].
    destruct (str_falsy id) eqn:Eid; [discriminate|].
    destruct (del_cookie_token req) as [token|]; [|discriminate].
    destruct (str_falsy token) eqn:Etok; [discriminate|].
    destruct (jwtVerify env token) as [payload|e] eqn:Ev; [|discriminate].
    cbn [mbind result_bind].
    destruct (attorneys db !! id) as [attorney|] eqn:Ea; [|discriminate].
    destruct (is_admin payload) eqn:Eadmin, (is_owner payload attorney) eqn:Eown;
      cbn [negb andb]; try discriminate; intros _;
      exists id, token, payload, attorney;
      (split; [reflexivity|]); (split; [intros ->; discriminate Eid|]);
      (split; [reflexivity|]); (split; [intros ->; discriminate Etok|]);
      (split; [exact Ev|]); (split; [exact Ea|auto]).
  - intros (id & token & payload & attorney & Hid & Hne & Htok & Htne & Hv & Ha & Hperm).
    rewrite (DELETE_allowed env None req db id token payload attorney)
      by (try assumption; apply orb_true_iff; exact Hperm).
    cbn [transaction].
    rewrite (DELETE_transaction_run id attorney db Ha (Hlinked id attorney Ha)).
    reflexivity.
Qed.

(** X19. After a [DELETE] that answered 200, [GET] for the same id answers
    404, and so does a second [DELETE] for it with a token that verifies,
    which changes nothing. *)
Theorem DELETE_not_repeatable fault req db resp db' :
  DELETE env fault req db = (resp, db') → status resp = 200 →
  ∃ id,
    del_id req = Some id ∧
    GET_by_id None id db' = message 404 "Attorney not found" ∧
    ∀ fault2 req2 token payload,
      del_id req2 = Some id → del_cookie_token req2 = Some token → token ≠ "" →
      jwtVerify env token = Ok payload →
      DELETE env fault2 req2 db' = (message 404 "Attorney not found", db').
Proof.
  intros E Hst.
  destruct (DELETE_done fault req db resp db' E Hst)
    as (id & attorney & Hid & Hne & Ha & ->).
  exists id. split; [exact Hid|].
  split.
  - unfold GET_by_id. cbn [attorneys]. now rewrite lookup_delete_eq.
  - intros fault2 req2 token payload Hid2 Htok Htne Hv.
    unfold DELETE, DELETE_try. rewrite Hid2, Htok, Hv.
    rewrite (str_falsy_false id Hne), (str_falsy_false token Htne).
    cbn [mbind result_bind attorneys]. now rewrite lookup_delete_eq.
Qed.

(** [DELETE] leaves what the lookup by id finds for the other ids. *)
Lemma GET_by_id_after_DELETE fault req db j :
  userId_unique db → del_id req ≠ Some j →
  GET_by_id None j (DELETE env fault req db).2 = GET_by_id None j db.
Proof.
  intros Hunique Hj.
  destruct (DELETE env fault req db) as [resp db'] eqn:E. cbn [snd].
  destruct (decide (status resp = 200)) as [Hst|Hst].
  2:{ now rewrite (DELETE_not_200 env fault req db resp db' E Hst). }
  destruct (DELETE_done fault req db resp db' E Hst)
    as (id & attorney & Hid & _ & Ha & ->).
  assert (Hne : id ≠ j) by congruence.
  unfold GET_by_id. cbn [users attorneys caseManagers].
  rewrite lookup_delete_ne by exact Hne.
  destruct (attorneys db !! j) as [a|] eqn:Hb; [|reflexivity].
  rewrite lookup_delete_ne
    by (intros Heq; apply Hne; now apply (Hunique id j attorney a)).
  destruct (users db !! userId a) as [u|]; [|reflexivity].
  assert (Hf : filter (λ kv : string * CaseManager, attorneyId kv.2 = j)
                 (filter (λ kv : string * CaseManager, attorneyId kv.2 ≠ id)
                    (caseManagers db))
               = filter (λ kv : string * CaseManager, attorneyId kv.2 = j)
                   (caseManagers db)).
  { rewrite map_filter_filter. apply map_filter_ext. intros k cm _. cbn [fst snd].
    split; [tauto|]. intros Hcm. split; [exact Hcm|congruence]. }
  now rewrite Hf.
Qed.

(** X20. When no two attorneys share a user, [DELETE] leaves what [GET]
    answers for every id but the one the request names; the id is not
    empty, so that [GET] looks one attorney up. *)
Theorem DELETE_keeps_other_attorneys fault req db j :
  userId_unique db → j ≠ "" → del_id req ≠ Some j →
  GET None (Some j) (DELETE env fault req db).2 = GET None (Some j) db.
Proof.
  intros Hunique Hj Hne. unfold GET. rewrite (str_falsy_false j Hj).
  f_equal. now apply GET_by_id_after_DELETE.
Qed.

(** X21. The error answers of [DELETE], in the order of its checks: no id
    gives 400 whatever the token; a token that does not verify gives 500,
    before the attorney is looked up; an unknown id gives 404 to any
    verified token, before the role is looked at; and a permitted deletion
    that the storage layer fails, or whose user row is missing, gives 500.
    The store is unchanged in each case. *)
Theorem DELETE_error_answers fault req db :
  (str_truthy (del_id req) = false →
   DELETE env fault req db = (message 400 "Attorney ID is required", db)) ∧
  (∀ id token e,
     del_id req = Some id → id ≠ "" →
     del_cookie_token req = Some token → token ≠ "" →
     jwtVerify env token = Throw e →
     DELETE env fault req db = (message 500 "Failed to delete attorney", db)) ∧
  (∀ id token payload,
     del_id req = Some id → id ≠ "" →
     del_cookie_token req = Some token → token ≠ "" →
     jwtVerify env token = Ok payload → attorneys db !! id = None →
     DELETE env fault req db = (message 404 "Attorney not found", db)) ∧
  (∀ id token payload attorney e,
     del_id req = Some id → id ≠ "" →
     del_cookie_token req = Some token → token ≠ "" →
     jwtVerify env token = Ok payload → attorneys db !! id = Some attorney →
     is_admin payload || is_owner payload attorney = true →
     fault = Some e ∨ users db !! userId attorney = None →
     DELETE env fault req db = (message 500 "Failed to delete attorney", db)).
Proof.
  split; [|split; [|split]].
  - unfold DELETE, DELETE_try, str_truthy.
    destruct (del_id req) as [id|]; [|reflexivity].
    destruct (str_falsy id); [reflexivity|discriminate].
  - intros id token e Hid Hne Htok Htne Hv.
    unfold DELETE, DELETE_try. rewrite Hid, Htok, Hv.
    now rewrite (str_falsy_false id Hne), (str_falsy_false token Htne).
  - intros id token payload Hid Hne Htok Htne Hv Ha.
    unfold DELETE, DELETE_try. rewrite Hid, Htok, Hv.
    rewrite (str_falsy_false id Hne), (str_falsy_false token Htne).
    cbn [mbind result_bind]. now rewrite Ha.
  - intros id token payload attorney e Hid Hne Htok Htne Hv Ha Hperm Hfail.
    rewrite (DELETE_allowed env fault req db id token payload attorney)
      by assumption.
    destruct fault as [e'|]; [reflexivity|]. cbn [transaction].
    destruct Hfail as [Hf|Hu]; [discriminate Hf|].
    unfold DELETE_transaction. cbn [users attorneys caseManagers].
    rewrite Ha. cbn [mbind result_bind users attorneys caseManagers].
    now rewrite Hu.
Qed.

(** *** [PUT] *)

(** X22. [PUT] never changes the store, for any request: it answers 400
    when the id is missing and 401 otherwise, whatever the token, the body
    and the state of the storage layer. *)
Theorem PUT_never_updates fault req db :
  (PUT env fault req db).2 = db ∧
  (str_truthy (put_id req) = false →
   (PUT env fault req db).1 = message 400 "Attorney ID is required") ∧
  (str_truthy (put_id req) = true →
   (PUT env fault req db).1 = message 401 "Unauthorized").
Proof.
  unfold str_truthy.
  destruct (put_id req) as [id|] eqn:Hid.
  - destruct (str_falsy id) eqn:Eid; cbn [negb].
    + unfold PUT, PUT_try. rewrite Hid, Eid.
      split; [reflexivity|]. split; [reflexivity|discriminate].
    + assert (Hne : id ≠ "") by (intros ->; discriminate Eid).
      assert (H : PUT env fault req db = (message 401 "Unauthorized", db)).
      { destruct (put_bearer req) as [token|] eqn:Htok.
        - now apply (PUT_any_credential env fault req db id token).
        - apply (PUT_no_credential env fault req db id); [assumption..|].
          now rewrite Htok. }
      rewrite H. split; [reflexivity|]. split; [discriminate|reflexivity].
  - unfold PUT, PUT_try. rewrite Hid.
    split; [reflexivity|]. split; [reflexivity|discriminate].
Qed.

End Handlers.

(** *** [GET] *)

#[local] Instance newest_first_total : Total newest_first.
Proof. intros x y. unfold newest_first. lia. Qed.

Lemma with_relations_Some db kv aj :
  with_relations db kv = Some aj →
  aj_id aj = kv.1 ∧ aj_row aj = kv.2 ∧
  (∃ u, users db !! userId kv.2 = Some u ∧
        aj_user aj = Some (user_name u, user_email u)) ∧
  aj_caseManagers aj = Some (map_to_list (managers_of kv.1 db)).
Proof.
  unfold with_relations. destruct (users db !! userId kv.2) as [u|] eqn:Hu;
    cbn [mbind option_bind]; [|discriminate].
  intros [= <-]. cbn [aj_id aj_row aj_user aj_caseManagers].
  split; [reflexivity|]. split; [reflexivity|]. split; [eauto|reflexivity].
Qed.

(** X23. [GET] on a store whose attorneys have their users. For an id
    that is not empty it answers 404 when no attorney has it, and else 200
    with the attorney row, the name and address of its user, and each case
    manager row that references the id, once, and no other. Without an id,
    or with the empty one, it answers 200 with the list of all attorneys,
    each once, newest first, each with its user and its case managers. *)
Theorem GET_linked id db :
  attorneys_linked db →
  (∀ i, id = Some i → i ≠ "" → attorneys db !! i = None →
     GET None id db = message 404 "Attorney not found") ∧
  (∀ i attorney, id = Some i → i ≠ "" → attorneys db !! i = Some attorney →
     ∃ u listed,
       users db !! userId attorney = Some u ∧
       GET None id db =
         mkResponse 200
           (Payload
              (One (mkAttorneyJson i attorney (Some (user_name u, user_email u))
                      (Some listed)))) ∧
       NoDup listed ∧
       ∀ k cm, (k, cm) ∈ listed ↔
               caseManagers db !! k = Some cm ∧ attorneyId cm = i) ∧
  (str_truthy id = false →
     ∃ rows all,
       GET None id db = mkResponse 200 (Payload (Many all)) ∧
       rows ≡ₚ map_to_list (attorneys db) ∧
       Sorted newest_first rows ∧
       Forall2
         (λ kv aj,
            aj_id aj = kv.1 ∧ aj_row aj = kv.2 ∧
            (∃ u, users db !! userId kv.2 = Some u ∧
                  aj_user aj = Some (user_name u, user_email u)) ∧
            aj_caseManagers aj = Some (map_to_list (managers_of kv.1 db)))
         rows all).
Proof.
  intros Hlinked. split; [|split].
  - intros i -> Hi Hnone. unfold GET, GET_by_id.
    now rewrite (str_falsy_false i Hi), Hnone.
  - intros i attorney -> Hi Ha. unfold GET, GET_by_id.
    rewrite (str_falsy_false i Hi), Ha.
    destruct (Hlinked i attorney Ha) as [u Hu]. rewrite Hu.
    eexists _, _. split; [reflexivity|]. split; [reflexivity|].
    split; [apply NoDup_map_to_list|].
    intros k cm. rewrite elem_of_map_to_list. apply map_lookup_filter_Some.
  - intros Hid.
    assert (Hall : GET None id db = GET_all None db).
    { unfold GET. destruct id as [i|]; [|reflexivity].
      cbn [str_truthy] in Hid. now destruct (str_falsy i). }
    rewrite Hall. unfold GET_all.
    set (rows := merge_sort newest_first (map_to_list (attorneys db))).
    assert (Hperm : rows ≡ₚ map_to_list (attorneys db))
      by apply merge_sort_Permutation.
    destruct (mapM (with_relations db) rows) as [all|] eqn:Hm.
    + exists rows, all. split; [reflexivity|]. split; [exact Hperm|].
      split; [apply Sorted_merge_sort, _|].
      apply mapM_Some_1 in Hm.
      eapply Forall2_impl; [exact Hm|]. intros kv aj. apply with_relations_Some.
    + exfalso. apply mapM_None_1, Exists_exists in Hm as ([k a] & Hin & Hnone).
      rewrite Hperm in Hin. apply elem_of_map_to_list in Hin.
      destruct (Hlinked k a Hin) as [u Hu].
      unfold with_relations in Hnone. cbn [fst snd] in Hnone.
      rewrite Hu in Hnone. discriminate Hnone.
Qed.

(** *** The example deployment *)

Lemma userId_unique_check db :
  map_Forall (λ i a, map_Forall (λ j b, userId a = userId b → i = j) (attorneys db))
    (attorneys db) →
  userId_unique db.
Proof. intros H i j a b Hi Hj. exact (H i a Hi j b Hj). Qed.

(** The checks of a concrete store, by evaluation. *)
Ltac evaluate := apply (bool_decide_unpack _); vm_compute; exact I.
Ltac linked := unfold attorneys_linked, caseManagers_linked; evaluate.
Ltac unique := apply userId_unique_check; evaluate.
Ltac consistent := split; [linked|split; [linked|unique]].
Ltac posted :=
  match goal with
  | |- POST ?e ?f ?b ?d = _ => now destruct (POST e f b d)
  | |- DELETE ?e ?f ?b ?d = _ => now destruct (DELETE e f b d)
  end.

Lemma POST_keeps_consistent_witness :
  db_consistent (POST demo_env None (Ok demo_login_body) demo_db).2.
Proof.
  apply (POST_keeps_consistent demo_env None (Ok demo_login_body) demo_db).
  consistent.
Defined.

Lemma POST_keeps_other_attorneys_witness :
  GET_by_id None "a1" (POST demo_env None (Ok demo_login_body) demo_db).2
  = GET_by_id None "a1" demo_db.
Proof.
  apply (POST_keeps_other_attorneys demo_env None (Ok demo_login_body) demo_db "a1").
  vm_compute. eauto.
Defined.

(** The address of Ann Lee is taken in the example deployment. *)
Lemma POST_email_taken_witness :
  POST demo_env None
    (Ok (mkPostBody
           (<["name" := JStr "Ann L."]> (<["email" := JStr "ann@x.com"]> ∅)) None))
    demo_db
  = (message 400 "Email already registered", demo_db).
Proof.
  apply (POST_email_taken demo_env _ demo_db "u1"
           (mkUser "ann@x.com" "Ann Lee" "ATTORNEY" "$2a$10$old") "ann@x.com");
    first [reflexivity | discriminate].
Defined.

Lemma DELETE_keeps_consistent_witness :
  db_consistent
    (DELETE demo_env None (demo_delete_request "owner-token") demo_db).2.
Proof.
  apply (DELETE_keeps_consistent demo_env None (demo_delete_request "owner-token")
           demo_db).
  consistent.
Defined.

(** A user whose role is [admin] written with a dotless i, and who owns
    no attorney record, deletes attorney [a1]. *)
Lemma DELETE_succeeds_iff_witness :
  is_admin (mkJwtPayload (Some dotless_admin) (Some "u9")) = true ∧
  is_owner (mkJwtPayload (Some dotless_admin) (Some "u9"))
    (mkAttorney "u1" ∅) = false ∧
  status (DELETE dotless_env None
            (mkDeleteRequest (Some "a1") (Some "dotless-token")) demo_db).1 = 200.
Proof.
  split; [reflexivity|]. split; [reflexivity|].
  apply (proj2 (DELETE_succeeds_iff dotless_env
                  (mkDeleteRequest (Some "a1") (Some "dotless-token")) demo_db
                  ltac:(linked))).
  exists "a1", "dotless-token", (mkJwtPayload (Some dotless_admin) (Some "u9")).
  eexists.
  split; [reflexivity|]. split; [discriminate|]. split; [reflexivity|].
  split; [discriminate|]. split; [reflexivity|]. split; [reflexivity|].
  left. reflexivity.
Defined.

Lemma DELETE_not_repeatable_witness :
  ∃ id,
    del_id (demo_delete_request "admin-token") = Some id ∧
    GET_by_id None id
      (DELETE demo_env None (demo_delete_request "admin-token") demo_db).2
    = message 404 "Attorney not found" ∧
    ∀ fault2 req2 token payload,
      del_id req2 = Some id → del_cookie_token req2 = Some token → token ≠ "" →
      jwtVerify demo_env token = Ok payload →
      DELETE demo_env fault2 req2
        (DELETE demo_env None (demo_delete_request "admin-token") demo_db).2
      = (message 404 "Attorney not found",
         (DELETE demo_env None (demo_delete_request "admin-token") demo_db).2).
Proof.
  apply (DELETE_not_repeatable demo_env None (demo_delete_request "admin-token")
           demo_db
           (DELETE demo_env None (demo_delete_request "admin-token") demo_db).1).
  - posted.
  - vm_compute. reflexivity.
Defined.

Lemma DELETE_keeps_other_attorneys_witness :
  GET None (Some "a2")
    (DELETE demo_env None (demo_delete_request "admin-token") demo_db).2
  = GET None (Some "a2") demo_db.
Proof.
  apply (DELETE_keeps_other_attorneys demo_env None
           (demo_delete_request "admin-token") demo_db "a2").
  - unique.
  - discriminate.
  - discriminate.
Defined.

(** The example deployment, read by id (the empty id included) and as a
    list: attorney [a2] is the newer one. *)
Lemma GET_linked_witness :
  status (GET None (Some "a1") demo_db) = 200 ∧
  status (GET None (Some "zz") demo_db) = 404 ∧
  ∃ all,
    GET None (Some "") demo_db = mkResponse 200 (Payload (Many all)) ∧
    aj_id <$> all = ["a2"; "a1"].
Proof.
  split; [reflexivity|]. split; [reflexivity|].
  destruct (GET_linked (Some "") demo_db) as (_ & _ & H); [linked|].
  destruct (H eq_refl) as (rows & all & Hget & _ & _ & _).
  exists all. split; [exact Hget|].
  vm_compute in Hget. injection Hget as <-. reflexivity.
Defined.

End StoreFacts.

(** ** The session gate of the tasks route *)

Module TaskGateFacts.
Import Js Api TasksRoute TasksRead Examples TaskFacts.

Section Handlers.

Variable Store : Type.
Variable Task : Type.
Variable task_create : TaskData → Store → result (Task * Store).
Variable task_findMany : Store → result (list Task).

(** X24. Both handlers answer 401 exactly to a request without a session
    user, before they read the body or the store. *)
Theorem tasks_session_gate session_user body store :
  (status (POST Store Task task_create session_user body store).1 = 401
   ↔ session_user = None) ∧
  (status (GET Store Task task_findMany session_user store) = 401
   ↔ session_user = None) ∧
  POST Store Task task_create None body store = (error 401 "Unauthorized", store) ∧
  GET Store Task task_findMany None store = error 401 "Unauthorized".
Proof.
  split; [|split; [|split; reflexivity]].
  - destruct session_user as [user|]; [|now split].
    split; [|discriminate]. unfold POST, POST_try.
    destruct body as [b|e]; cbn [mbind result_bind]; [|discriminate].
    destruct (truthy (b !! "title")); cbn [negb]; [|discriminate].
    destruct (task_create (task_data b) store) as [[task store']|e];
      cbn [mbind result_bind]; discriminate.
  - destruct session_user as [user|]; [|now split].
    split; [|discriminate]. unfold GET.
    destruct (task_findMany store); discriminate.
Qed.

(** X25. The outcomes of [POST]: 200 exactly when a task was created from a
    readable body with a title, 500 exactly when the body cannot be read
    or the storage layer throws, and the store moves on a 200 only. *)
Theorem tasks_POST_outcomes session_user body store :
  let r := POST Store Task task_create session_user body store in
  (status r.1 = 200 ↔
   ∃ user b task,
     session_user = Some user ∧ body = Ok b ∧ truthy (b !! "title") = true ∧
     task_create (task_data b) store = Ok (task, r.2) ∧
     r.1 = mkResponse 200 (Payload task)) ∧
  (status r.1 = 500 ↔
   ∃ user e,
     session_user = Some user ∧
     (body = Throw e ∨
      ∃ b, body = Ok b ∧ truthy (b !! "title") = true ∧
           task_create (task_data b) store = Throw e)) ∧
  (status r.1 ≠ 200 → r.2 = store).
Proof.
  cbv zeta. unfold POST, POST_try.
  destruct session_user as [user|].
  2:{ split; [|split].
      - split; [discriminate|]. now intros (u & b & t & [=] & _).
      - split; [discriminate|]. now intros (u & e & [=] & _).
      - reflexivity. }
  destruct body as [b|e]; cbn [mbind result_bind].
  2:{ split; [|split].
      - split; [discriminate|]. now intros (u & b & t & _ & [=] & _).
      - split; [|reflexivity]. intros _. exists user, e. auto.
      - reflexivity. }
  destruct (truthy (b !! "title")) eqn:Et; cbn [negb].
  2:{ split; [|split].
      - split; [discriminate|].
        intros (u & b' & t & _ & [= <-] & Ht & _). congruence.
      - split; [discriminate|].
        intros (u & e & _ & [[=]|(b' & [= <-] & Ht & _)]). congruence.
      - reflexivity. }
  destruct (task_create (task_data b) store) as [[task store']|e] eqn:Ec;
    cbn [mbind result_bind fst snd status].
  - split; [|split].
    + split; [|reflexivity]. intros _. exists user, b, task. auto.
    + split; [discriminate|].
      intros (u & e & _ & [[=]|(b' & [= <-] & _ & Hc)]). congruence.
    + now intros H.
  - split; [|split].
    + split; [discriminate|].
      intros (u & b' & t & _ & [= <-] & _ & Hc & _). congruence.
    + split; [|reflexivity]. intros _. exists user, e. split; [reflexivity|]. right. exists b. auto.
    + reflexivity.
Qed.

End Handlers.

End TaskGateFacts.
